(** * University organization scraper: extraction heuristics and de-duplication

    A shallow embedding of the text heuristics of
    [comprehensive_university_scraper.py], [enhanced_scraper.py],
    [scrape_universities_91_100.py] and [enhance_organization_detection.py].

    Python [str] values are modelled as [string]; a character is a code point
    below 256, and every character class below ([isspace], [lower], the
    classes of [re]) is the one CPython uses on that range. *)

From Stdlib Require Import Ascii String ZArith NArith Bool Floats Uint63.
From stdpp Require Import gmap strings list.

#[local] Set Warnings "-register-all".

Local Open Scope N_scope.

(** ** Python string primitives *)

Module Py.

Definition code (c : ascii) : N := N_of_ascii c.

Definition between (lo hi : N) (c : ascii) : bool :=
  (lo <=? code c) && (code c <=? hi).

(** [str.isspace] on one character; also the class [\s] of [re]. *)
Definition isspace (c : ascii) : bool :=
  between 9 13 c || between 28 32 c || (code c =? 133) || (code c =? 160).

(** The class [\d] of [re]: decimal digits only. *)
Definition isdecimal (c : ascii) : bool := between 48 57 c.

(** [str.isdigit] on one character: the decimal digits and the
    superscripts 1, 2 and 3. *)
Definition isdigit_char (c : ascii) : bool :=
  isdecimal c || (code c =? 178) || (code c =? 179) || (code c =? 185).

Definition isupper_ascii (c : ascii) : bool := between 65 90 c.
Definition islower_ascii (c : ascii) : bool := between 97 122 c.
Definition isalpha_ascii (c : ascii) : bool := isupper_ascii c || islower_ascii c.

(** The class [\w] of [re] on [str] patterns. *)
Definition isword (c : ascii) : bool :=
  isalpha_ascii c || isdecimal c || (code c =? 95)
  || (code c =? 170) || (code c =? 178) || (code c =? 179) || (code c =? 181)
  || (code c =? 185) || (code c =? 186) || between 188 190 c
  || between 192 214 c || between 216 246 c || between 248 255 c.

Definition lower_char (c : ascii) : ascii :=
  if isupper_ascii c || between 192 214 c || between 216 222 c
  then ascii_of_N (code c + 32) else c.

(** [s.lower()] *)
Fixpoint lower (s : string) : string :=
  match s with
  | EmptyString => EmptyString
  | String c s' => String (lower_char c) (lower s')
  end.

Definition is_empty (s : string) : bool :=
  match s with EmptyString => true | _ => false end.

Fixpoint lstrip (s : string) : string :=
  match s with
  | EmptyString => EmptyString
  | String c s' => if isspace c then lstrip s' else s
  end.

Fixpoint rstrip (s : string) : string :=
  match s with
  | EmptyString => EmptyString
  | String c s' =>
      let r := rstrip s' in
      if isspace c && is_empty r then EmptyString else String c r
  end.

(** [s.strip()] *)
Definition strip (s : string) : string := rstrip (lstrip s).

(** [s.startswith(p)] *)
Fixpoint startswith (p s : string) : bool :=
  match p, s with
  | EmptyString, _ => true
  | String a p', String b s' => Ascii.eqb a b && startswith p' s'
  | String _ _, EmptyString => false
  end.

(** [sub in s] *)
Fixpoint contains (sub s : string) : bool :=
  startswith sub s
  || match s with
     | EmptyString => false
     | String _ s' => contains sub s'
     end.

(** [any(t in s for t in terms)] *)
Definition any_in (terms : list string) (s : string) : bool :=
  existsb (fun t => contains t s) terms.

Fixpoint take (n : nat) (s : string) : string :=
  match n, s with
  | S n', String c s' => String c (take n' s')
  | _, _ => EmptyString
  end.

Fixpoint drop (n : nat) (s : string) : string :=
  match n, s with
  | S n', String _ s' => drop n' s'
  | _, _ => s
  end.

(** [s[a:b]] for [0 <= a <= b]. *)
Definition slice (a b : nat) (s : string) : string := take (b - a) (drop a s).

Fixpoint filter (p : ascii -> bool) (s : string) : string :=
  match s with
  | EmptyString => EmptyString
  | String c s' => if p c then String c (filter p s') else filter p s'
  end.

Fixpoint forallb (p : ascii -> bool) (s : string) : bool :=
  match s with
  | EmptyString => true
  | String c s' => p c && forallb p s'
  end.

(** [s.isdigit()]: non-empty and made of digits. *)
Definition isdigit (s : string) : bool := negb (is_empty s) && forallb isdigit_char s.

(** The pieces of [s] between the characters selected by [sep]; [cur] is the
    piece read so far. *)
Fixpoint pieces (sep : ascii -> bool) (cur : string) (s : string) : list string :=
  match s with
  | EmptyString => [cur]
  | String c s' =>
      if sep c then cur :: pieces sep EmptyString s'
      else pieces sep (cur +:+ String c EmptyString) s'
  end.

(** [s.split(c)] for a one-character separator. *)
Definition split_on (c : ascii) (s : string) : list string :=
  pieces (Ascii.eqb c) EmptyString s.

(** [s.split()]: runs of whitespace separate, empty pieces are dropped. *)
Definition split (s : string) : list string :=
  List.filter (fun w => negb (is_empty w)) (pieces isspace EmptyString s).

(** [s.replace(old, new)] for a non-empty [old]; [skip] counts the characters
    of an occurrence of [old] that are still to be passed over. *)
Fixpoint replace_from (old new : string) (skip : nat) (s : string) : string :=
  match s with
  | EmptyString => EmptyString
  | String c s' =>
      match skip with
      | S k => replace_from old new k s'
      | O =>
          if startswith old s
          then new +:+ replace_from old new (String.length old - 1) s'
          else String c (replace_from old new O s')
      end
  end.

Definition replace (old new s : string) : string := replace_from old new O s.

(** [sep.join(l)] *)
Fixpoint join (sep : string) (l : list string) : string :=
  match l with
  | [] => EmptyString
  | s :: l' =>
      match l' with
      | [] => s
      | _ :: _ => s +:+ sep +:+ join sep l'
      end
  end.

End Py.

Local Close Scope N_scope.

(** ** Organization records *)

(** The dictionary every strategy builds: the thirteen fixed keys of
    [_extract_organization_details]. *)
Record org := Org {
  Category : string;
  Organization_Name : string;
  Organization_Link : string;
  Logo_Link : string;
  Description : string;
  Email : string;
  Phone_Number : string;
  Linkedin_Link : string;
  Instagram_Link : string;
  Facebook_Link : string;
  Twitter_Link : string;
  Youtube_Link : string;
  Tiktok_Link : string
}.

(** ** Regular expressions

    The patterns of the scrapers are sequences of character classes under a
    bounded or unbounded greedy repetition, and of the assertions [\b], [^]
    and [$].  [match_here] is the backtracking matcher of [re] on that
    fragment: a repetition first takes as many characters as it can and gives
    them back one at a time while the rest of the pattern fails. *)

Module Re.

Inductive item : Type :=
| Rep (cls : ascii -> bool) (lo : nat) (hi : option nat)
| WordBoundary
| Start
| Finish.

Definition pattern : Type := list item.

Definition may_take (hi : option nat) : bool :=
  match hi with Some O => false | _ => true end.

Definition one_less (hi : option nat) : option nat := Nat.pred <$> hi.

(** [cls{lo,hi}] followed by the continuation [k]; [prev] is the character
    just before the current position, if any. *)
Fixpoint rep (cls : ascii -> bool) (k : option ascii -> string -> option string)
    (lo : nat) (hi : option nat) (prev : option ascii) (s : string) : option string :=
  let stop := match lo with O => k prev s | S _ => None end in
  match s with
  | EmptyString => stop
  | String c s' =>
      if cls c && may_take hi
      then match rep cls k (Nat.pred lo) (one_less hi) (Some c) s' with
           | Some rest => Some rest
           | None => stop
           end
      else stop
  end.

Definition word_before (prev : option ascii) : bool :=
  match prev with Some c => Py.isword c | None => false end.

Definition word_after (s : string) : bool :=
  match s with String c _ => Py.isword c | EmptyString => false end.

(** [$] without [re.MULTILINE]: the end of the string, or just before a
    newline that ends it. *)
Definition at_finish (s : string) : bool :=
  match s with
  | EmptyString => true
  | String c EmptyString => Ascii.eqb c "010"
  | _ => false
  end.

(** The remainder of [s] after the first way in which [r] matches a prefix
    of [s], if there is one. *)
Fixpoint match_here (r : pattern) : option ascii -> string -> option string :=
  match r with
  | [] => fun _ s => Some s
  | Rep cls lo hi :: r' => rep cls (match_here r') lo hi
  | WordBoundary :: r' =>
      fun prev s =>
        if xorb (word_before prev) (word_after s) then match_here r' prev s else None
  | Start :: r' =>
      fun prev s => match prev with None => match_here r' prev s | Some _ => None end
  | Finish :: r' =>
      fun prev s => if at_finish s then match_here r' prev s else None
  end.

(** [re.match(r, s)] succeeds. *)
Definition matches (r : pattern) (s : string) : bool :=
  bool_decide (is_Some (match_here r None s)).

(** [re.search(r, s)] succeeds. *)
Fixpoint search_from (r : pattern) (prev : option ascii) (s : string) : bool :=
  bool_decide (is_Some (match_here r prev s))
  || match s with
     | EmptyString => false
     | String c s' => search_from r (Some c) s'
     end.

Definition search (r : pattern) (s : string) : bool := search_from r None s.

(** [re.findall(r, s)] for a pattern without groups: the matched texts,
    leftmost first, the scan resuming after each match.  [skip] counts the
    characters of the last match that are still to be passed over. *)
Fixpoint scan (r : pattern) (prev : option ascii) (skip : nat) (s : string) : list string :=
  match skip with
  | S k =>
      match s with
      | EmptyString => []
      | String c s' => scan r (Some c) k s'
      end
  | O =>
      match match_here r prev s with
      | Some rest =>
          let n := String.length s - String.length rest in
          Py.take n s ::
            match s with
            | EmptyString => []
            | String c s' => scan r (Some c) (n - 1) s'
            end
      | None =>
          match s with
          | EmptyString => []
          | String c s' => scan r (Some c) O s'
          end
      end
  end.

Definition findall (r : pattern) (s : string) : list string := scan r None O s.

(** Building blocks of patterns. *)
Definition one (cls : ascii -> bool) : item := Rep cls 1 (Some 1).
Definition opt (cls : ascii -> bool) : item := Rep cls 0 (Some 1).
Definition star (cls : ascii -> bool) : item := Rep cls 0 None.
Definition plus (cls : ascii -> bool) : item := Rep cls 1 None.
Definition exactly (n : nat) (cls : ascii -> bool) : item := Rep cls n (Some n).
Definition at_least (n : nat) (cls : ascii -> bool) : item := Rep cls n None.

Definition chr (c : ascii) : ascii -> bool := Ascii.eqb c.

(** A literal character under [re.IGNORECASE]. *)
Definition chr_i (c : ascii) : ascii -> bool :=
  fun x => Ascii.eqb (Py.lower_char x) (Py.lower_char c).

Definition one_of (set : string) : ascii -> bool :=
  fun x => Py.contains (String x EmptyString) set.

Fixpoint lit (s : string) : pattern :=
  match s with
  | EmptyString => []
  | String c s' => one (chr c) :: lit s'
  end.

Fixpoint lit_i (s : string) : pattern :=
  match s with
  | EmptyString => []
  | String c s' => one (chr_i c) :: lit_i s'
  end.

End Re.

(** ** Documents

    The part of a parsed document the extractors read: text nodes, and
    elements with their attributes and children. *)

Inductive node : Type :=
| Text (s : string)
| Element (tag : string) (attrs : list (string * string)) (children : list node).

(** [node.get_text()]: the text nodes below, in document order. *)
Fixpoint get_text (n : node) : string :=
  match n with
  | Text s => s
  | Element _ _ children =>
      (fix texts (l : list node) : string :=
         match l with
         | [] => EmptyString
         | c :: l' => get_text c +:+ texts l'
         end) children
  end.

(** [attrs.get(name)] *)
Fixpoint attr (name : string) (attrs : list (string * string)) : option string :=
  match attrs with
  | [] => None
  | (k, v) :: attrs' => if String.eqb k name then Some v else attr name attrs'
  end.

(** The [href] values of the [a] elements below [n] that carry one, in
    document order: [[link.get('href') for link in n.find_all('a', href=True)]]. *)
Fixpoint hrefs (n : node) : list string :=
  match n with
  | Text _ => []
  | Element _ _ children =>
      (fix below (l : list node) : list string :=
         match l with
         | [] => []
         | c :: l' =>
             match c with
             | Element tag attrs _ =>
                 if String.eqb tag "a"
                 then match attr "href" attrs with Some h => [h] | None => [] end
                 else []
             | Text _ => []
             end ++ hrefs c ++ below l'
         end) children
  end.

(** [n.find_all(name)]: the elements below [n] whose tag is [name], in
    document order. *)
Fixpoint find_all (name : string) (n : node) : list node :=
  match n with
  | Text _ => []
  | Element _ _ children =>
      (fix below (l : list node) : list node :=
         match l with
         | [] => []
         | c :: l' =>
             match c with
             | Element tag _ _ => if String.eqb tag name then [c] else []
             | Text _ => []
             end ++ find_all name c ++ below l'
         end) children
  end.

(** [n.find(name)] *)
Definition find (name : string) (n : node) : option node := head (find_all name n).

(** The pieces of [n.get_text(strip=True)]: the text nodes below [n],
    trimmed, the empty ones left out. *)
Fixpoint stripped_strings (n : node) : list string :=
  match n with
  | Text s => if Py.is_empty (Py.strip s) then [] else [Py.strip s]
  | Element _ _ children =>
      (fix below (l : list node) : list string :=
         match l with
         | [] => []
         | c :: l' => stripped_strings c ++ below l'
         end) children
  end.

(** [n.get_text(strip=True)] *)
Definition get_text_strip (n : node) : string := Py.join "" (stripped_strings n).

(** ** Contact extractors *)

Definition alnum_ascii (c : ascii) : bool := Py.isalpha_ascii c || Py.isdecimal c.

(** [[A-Za-z0-9._%+-]] *)
Definition local_cls (c : ascii) : bool := alnum_ascii c || Re.one_of "._%+-" c.
(** [[A-Za-z0-9.-]] *)
Definition domain_cls (c : ascii) : bool := alnum_ascii c || Re.one_of ".-" c.
(** [[A-Z|a-z]]: the bar is a member of the class. *)
Definition tld_cls (c : ascii) : bool := Py.isalpha_ascii c || Re.chr "|" c.
(** [[-.\s]] *)
Definition sep_cls (c : ascii) : bool := Re.one_of "-." c || Py.isspace c.

(** The three patterns shared by [_extract_email_from_text] and
    [extract_enhanced_email], compiled with [re.IGNORECASE]. *)
Definition email_patterns : list Re.pattern := [
  (* \b[A-Za-z0-9._%+-]+@[A-Za-z0-9.-]+\.[A-Z|a-z]{2,}\b *)
  [Re.WordBoundary; Re.plus local_cls; Re.one (Re.chr "@"); Re.plus domain_cls;
   Re.one (Re.chr "."); Re.at_least 2 tld_cls; Re.WordBoundary];
  (* \b[A-Za-z0-9._%+-]+\s*\[at\]\s*[A-Za-z0-9.-]+\s*\[dot\]\s*[A-Za-z]{2,}\b *)
  [Re.WordBoundary; Re.plus local_cls; Re.star Py.isspace] ++ Re.lit_i "[at]"
    ++ [Re.star Py.isspace; Re.plus domain_cls; Re.star Py.isspace] ++ Re.lit_i "[dot]"
    ++ [Re.star Py.isspace; Re.at_least 2 Py.isalpha_ascii; Re.WordBoundary];
  (* \b[A-Za-z0-9._%+-]+\s*@\s*[A-Za-z0-9.-]+\s*\.\s*[A-Za-z]{2,}\b *)
  [Re.WordBoundary; Re.plus local_cls; Re.star Py.isspace; Re.one (Re.chr "@");
   Re.star Py.isspace; Re.plus domain_cls; Re.star Py.isspace; Re.one (Re.chr ".");
   Re.star Py.isspace; Re.at_least 2 Py.isalpha_ascii; Re.WordBoundary]
].

(** [all_emails]: the matches of the patterns, pattern by pattern. *)
Definition all_emails (text : string) : list string :=
  concat ((fun p => Re.findall p text) <$> email_patterns).

(** [email.replace('[at]', '@').replace('[dot]', '.').replace(' ', '')] *)
Definition clean_email (email : string) : string :=
  Py.replace " " "" (Py.replace "[dot]" "." (Py.replace "[at]" "@" email)).

(** \(?\d{3}\)?[-.\s]?\d{3}[-.\s]?\d{4} *)
Definition phone_standard : Re.pattern :=
  [Re.opt (Re.chr "("); Re.exactly 3 Py.isdecimal; Re.opt (Re.chr ")"); Re.opt sep_cls;
   Re.exactly 3 Py.isdecimal; Re.opt sep_cls; Re.exactly 4 Py.isdecimal].

(** \+?1?[-.\s]?\(?\d{3}\)?[-.\s]?\d{3}[-.\s]?\d{4} *)
Definition phone_country : Re.pattern :=
  [Re.opt (Re.chr "+"); Re.opt (Re.chr "1"); Re.opt sep_cls] ++ phone_standard.

(** \d{3}[-.\s]?\d{3}[-.\s]?\d{4} *)
Definition phone_simple : Re.pattern :=
  [Re.exactly 3 Py.isdecimal; Re.opt sep_cls; Re.exactly 3 Py.isdecimal; Re.opt sep_cls;
   Re.exactly 4 Py.isdecimal].

(** [re.sub(r'[^\d]', '', phone)] *)
Definition digits_of (phone : string) : string := Py.filter Py.isdecimal phone.

(** ** [comprehensive_university_scraper.py] *)

Module ComprehensiveUniversityScraper.

(** *** The entity-name predicate and the category classifier *)

Definition skip_terms : list string := [
  "home"; "about"; "contact"; "login"; "search"; "menu"; "navigation"; "footer"; "header"; "sidebar";
  "main"; "content"; "page"; "site"; "copyright"; "privacy"; "terms"; "policy"; "back to top";
  "skip to"; "click here"; "read more"; "learn more"; "see more"; "view all"; "show all";
  "campus"; "university"; "college"; "school"; "education"; "academic"; "student services"
].

Definition org_indicators : list string := [
  "club"; "society"; "association"; "organization"; "group"; "team"; "council"; "committee";
  "union"; "fraternity"; "sorority"; "honor"; "student"; "academic"; "professional";
  "service"; "volunteer"; "honor society"; "student government"
].

(** [_is_likely_organization_name(text)], statement by statement. *)
Definition _is_likely_organization_name (text : string) : bool :=
  if Py.is_empty text || (String.length text <? 3) || (300 <? String.length text)
  then false
  else
    let text_lower := Py.strip (Py.lower text) in
    if Py.any_in skip_terms text_lower then false
    else if Py.isdigit text || (length (Py.split text) <? 1) then false
    else Py.any_in org_indicators text_lower
         || ((2 <=? length (Py.split text)) && (length (Py.split text) <=? 12)).

(** The table of [_determine_category]; a Python [dict] literal is iterated
    in the order in which it is written. *)
Definition category_keywords : list (string * list string) := [
  ("Academic", ["academic"; "honor society"; "honor"; "scholarship"; "study"; "research";
                "education"; "phi theta kappa"; "national honor"; "dean's list"]);
  ("Arts", ["art"; "music"; "theater"; "theatre"; "dance"; "creative"; "band"; "choir";
            "drama"; "visual"; "performing"]);
  ("Athletics", ["sport"; "athletic"; "team"; "recreation"; "fitness"; "basketball";
                 "football"; "soccer"; "baseball"; "volleyball"]);
  ("Cultural", ["cultural"; "international"; "heritage"; "ethnic"; "diversity";
                "multicultural"; "african american"; "hispanic"; "asian"]);
  ("Greek Life", ["fraternity"; "sorority"; "greek"; "alpha"; "beta"; "gamma"; "delta";
                  "theta"; "phi"; "sigma"]);
  ("Professional", ["professional"; "career"; "business"; "engineering"; "medical"; "law";
                    "nursing"; "education"; "technology"]);
  ("Religious", ["christian"; "muslim"; "jewish"; "faith"; "religious"; "ministry";
                 "chapel"; "church"; "bible"; "spiritual"]);
  ("Service", ["service"; "volunteer"; "community"; "outreach"; "charity"; "help";
               "support"; "humanitarian"; "social service"]);
  ("Student Government", ["student government"; "sga"; "student association";
                          "student council"; "government"; "leadership"]);
  ("Special Interest", ["gaming"; "anime"; "technology"; "computer"; "environment";
                        "outdoor"; "photography"; "cooking"; "debate"])
].

(** The loop [for category, keywords in category_keywords.items()] over the
    remaining rows of the table, with its fall-through [return 'General']. *)
Fixpoint first_category (table : list (string * list string)) (text : string) : string :=
  match table with
  | [] => "General"
  | (category, keywords) :: table' =>
      if Py.any_in keywords text then category else first_category table' text
  end.

Definition _determine_category (name description : string) : string :=
  let text := Py.lower (name +:+ " " +:+ description) in
  first_category category_keywords text.

(** *** Contact extractors *)

(** [_extract_email_from_text] of [comprehensive_university_scraper.py]. *)
Definition skip_patterns : list string :=
  ["noreply"; "webmaster"; "admin@university"; "support@university"; "info@example"].

Definition org_terms : list string := ["student"; "club"; "org"; "group"; "society"].

(** One turn of the loop that fills [filtered_emails]. *)
Definition filter_step (filtered_emails : list string) (email : string) : list string :=
  if negb (Py.any_in skip_patterns (Py.lower email))
  then if Py.any_in org_terms (Py.lower email)
       then email :: filtered_emails          (* insert(0, email) *)
       else filtered_emails ++ [email]        (* append(email) *)
  else filtered_emails.

Definition select_email (cleaned_emails : list string) : string :=
  default EmptyString (head (foldl filter_step [] cleaned_emails)).

Definition _extract_email_from_text (text : string) : string :=
  select_email (clean_email <$> all_emails text).

(** [_extract_email(container)] *)
Definition _extract_email (container : node) : string :=
  _extract_email_from_text (get_text container).

(** The [Email] field set by [_extract_organization_details]: the container's
    text first, then the text of its parent (of the container itself when it
    has none) while the field is still empty. *)
Definition details_email (container : node) (parent : option node) : string :=
  let email := _extract_email container in
  if Py.is_empty email
  then _extract_email_from_text (get_text (default container parent))
  else email.

Definition phone_patterns : list Re.pattern := [
  phone_standard;
  phone_country;
  phone_simple;
  (* \d{3}\.\d{3}\.\d{4} *)
  [Re.exactly 3 Py.isdecimal; Re.one (Re.chr "."); Re.exactly 3 Py.isdecimal;
   Re.one (Re.chr "."); Re.exactly 4 Py.isdecimal];
  (* \d{10} *)
  [Re.exactly 10 Py.isdecimal]
].

(** The loop of [_extract_phone_from_text] over the remaining patterns: only
    the first match of a pattern is looked at. *)
Fixpoint phone_cascade (patterns : list Re.pattern) (text : string) : string :=
  match patterns with
  | [] => EmptyString
  | pattern :: patterns' =>
      match Re.findall pattern text with
      | first :: _ =>
          let phone := Py.strip first in
          if String.length (digits_of phone) =? 10 then phone
          else phone_cascade patterns' text
      | [] => phone_cascade patterns' text
      end
  end.

Definition _extract_phone_from_text (text : string) : string :=
  phone_cascade phone_patterns text.

(** *** Removal of duplicates

    The loop of [extract_organizations_from_page] (and, word for word, of
    [save_enhanced_data]):
<<
    seen_names = set()
    unique_organizations = []
    for org in organizations:
        name = org.get('Organization Name', '').strip().lower()
        if name and name not in seen_names:
            seen_names.add(name)
            unique_organizations.append(org)
>> *)

Definition normalized_name (o : org) : string :=
  Py.lower (Py.strip (Organization_Name o)).

(** The state of the loop: [seen_names] and [unique_organizations]. *)
Definition dedup_state : Type := gset string * list org.

Definition admits (seen_names : gset string) (o : org) : bool :=
  negb (Py.is_empty (normalized_name o))
  && bool_decide (normalized_name o ∉ seen_names).

Definition dedup_step (st : dedup_state) (o : org) : dedup_state :=
  if admits st.1 o
  then ({[ normalized_name o ]} ∪ st.1, st.2 ++ [o])
  else st.

Definition dedup_loop (st : dedup_state) (organizations : list org) : dedup_state :=
  foldl dedup_step st organizations.

Definition remove_duplicates (organizations : list org) : list org :=
  (dedup_loop (∅, []) organizations).2.

(** The records the loop admits, as a function of the names seen so far:
    the loop invariant of [dedup_loop] is stated with it. *)
Fixpoint first_occurrences (seen_names : gset string) (l : list org) : list org :=
  match l with
  | [] => []
  | o :: l' =>
      if admits seen_names o
      then o :: first_occurrences ({[ normalized_name o ]} ∪ seen_names) l'
      else first_occurrences seen_names l'
  end.

(** *** The strategy cascade *)

Inductive strategy : Type :=
| Structured | ListBased | HeadingBased | Linked | GeneralContent.

#[global] Instance strategy_eq_dec : EqDecision strategy.
Proof. solve_decision. Defined.

(** [n < expected_count * 0.5] and [n < expected_count * 0.3], for a length
    [n] and an integer [expected_count].  Python compares the integer with
    the rounded floating-point product; the comparisons below are the exact
    rational ones, which give the same answer as long as the product is
    rounded by less than a tenth ([gates_agree_with_binary64] checks it on
    the counts the scraper meets). *)
(** The comparison as Python evaluates it, in binary64 arithmetic, for
    operands below 2^63: [n < expected_count * factor]. *)
Definition float_below (n : nat) (expected_count : Z) (factor : float) : bool :=
  PrimFloat.ltb (PrimFloat.of_uint63 (Uint63.of_Z (Z.of_nat n)))
                (PrimFloat.mul (PrimFloat.of_uint63 (Uint63.of_Z expected_count)) factor).

Definition below_half (n : nat) (expected_count : Z) : bool :=
  (2 * Z.of_nat n <? expected_count)%Z.

Definition below_three_tenths (n : nat) (expected_count : Z) : bool :=
  (10 * Z.of_nat n <? 3 * expected_count)%Z.

(** [[line.strip() for line in text_content.split('\n') if line.strip()]] *)
Definition content_lines (text_content : string) : list string :=
  List.filter (fun line => negb (Py.is_empty line))
    (Py.strip <$> Py.split_on "010" text_content).

(** The record [_extract_from_general_content] builds for a line. *)
Definition general_org (base_url line : string) : org :=
  {| Category := _determine_category line "";
     Organization_Name := line;
     Organization_Link := base_url;
     Logo_Link := ""; Description := ""; Email := ""; Phone_Number := "";
     Linkedin_Link := ""; Instagram_Link := ""; Facebook_Link := "";
     Twitter_Link := ""; Youtube_Link := ""; Tiktok_Link := "" |}.

Definition _extract_from_general_content (soup : node) (base_url : string) : list org :=
  let lines := content_lines (get_text soup) in
  let organizations :=
    general_org base_url
      <$> List.filter
            (fun line => _is_likely_organization_name line && (String.length line <? 150))
            lines in
  take 50 organizations.

Section Cascade.

(** The four document strategies.  The orchestrator only measures and
    concatenates what they return, so they are kept abstract; the
    [university_name] argument, which is only printed, is left out. *)
Variables _find_structured_organizations _find_list_based_organizations
  _find_heading_based_organizations _find_linked_organizations : node -> string -> list org.

Variables (soup : node) (base_url : string) (expected_count : Z).

(** [organizations] after each of the first four steps. *)
Definition after_structured : list org :=
  _find_structured_organizations soup base_url.

Definition runs_list_based : bool := below_half (length after_structured) expected_count.

Definition after_list_based : list org :=
  if runs_list_based
  then after_structured ++ _find_list_based_organizations soup base_url
  else after_structured.

Definition runs_heading_based : bool := below_half (length after_list_based) expected_count.

Definition after_heading_based : list org :=
  if runs_heading_based
  then after_list_based ++ _find_heading_based_organizations soup base_url
  else after_list_based.

Definition runs_linked : bool :=
  below_three_tenths (length after_heading_based) expected_count.

Definition after_linked : list org :=
  if runs_linked
  then after_heading_based ++ _find_linked_organizations soup base_url
  else after_heading_based.

(** [(seen_names, unique_organizations)] after the first de-duplication. *)
Definition after_dedup : dedup_state := dedup_loop (∅, []) after_linked.

Definition runs_general_content : bool :=
  below_three_tenths (length after_dedup.2) expected_count.

(** What a call does: the strategies it invokes, in order, and the list it
    returns. *)
Record outcome : Type := Outcome {
  invoked : list strategy;
  unique_organizations : list org
}.

Definition extract_organizations_from_page : outcome :=
  {| invoked :=
       [Structured]
       ++ (if runs_list_based then [ListBased] else [])
       ++ (if runs_heading_based then [HeadingBased] else [])
       ++ (if runs_linked then [Linked] else [])
       ++ (if runs_general_content then [GeneralContent] else []);
     unique_organizations :=
       (if runs_general_content
        then dedup_loop after_dedup (_extract_from_general_content soup base_url)
        else after_dedup).2 |}.

End Cascade.

(** *** The record of a container *)

Definition name_selectors : list string :=
  ["h1"; "h2"; "h3"; "h4"; "h5"; "h6"; ".title"; ".name"; "strong"; "b"; ".org-name"].

(** [name and self._is_likely_organization_name(name)] *)
Definition good_name (name : string) : bool :=
  negb (Py.is_empty name) && _is_likely_organization_name name.

(** The loop of [_extract_name] over the selectors; [find] takes a selector
    for the name of a tag. *)
Fixpoint first_named (selectors : list string) (container : node) : option string :=
  match selectors with
  | [] => None
  | selector :: selectors' =>
      match find selector container with
      | Some element =>
          let name := get_text_strip element in
          if good_name name then Some name else first_named selectors' container
      | None => first_named selectors' container
      end
  end.

(** [_extract_name(container)]; a text node is a [str]. *)
Definition _extract_name (container : node) : string :=
  match container with
  | Text s => Py.strip s
  | Element _ _ _ =>
      match first_named name_selectors container with
      | Some name => name
      | None =>
          let from_text :=
            let text := get_text_strip container in
            match content_lines text with
            | first_line :: _ =>
                if _is_likely_organization_name first_line then first_line else EmptyString
            | [] => EmptyString
            end in
          match find "a" container with
          | Some first_link =>
              let name := get_text_strip first_link in
              if good_name name then name else from_text
          | None => from_text
          end
      end
  end.

Definition desc_selectors : list string := [
  ".description"; ".summary"; ".about"; ".overview"; ".content";
  ".details"; ".info"; ".mission"; ".purpose"; "p"; ".text";
  ".excerpt"; ".intro"; ".profile"
].

Definition boilerplate : list string :=
  ["click here"; "read more"; "learn more"; "contact"; "home"; "about us"].

(** The inner loop of [_extract_description] over the elements of one
    selector. *)
Fixpoint first_substantial (elements : list node) : option string :=
  match elements with
  | [] => None
  | element :: elements' =>
      let desc := get_text_strip element in
      if (20 <? String.length desc) && (String.length desc <? 1000)
         && negb (Py.any_in boilerplate (Py.lower desc))
      then Some (Py.take 800 desc)
      else first_substantial elements'
  end.

Fixpoint first_described (selectors : list string) (container : node) : option string :=
  match selectors with
  | [] => None
  | selector :: selectors' =>
      match first_substantial (find_all selector container) with
      | Some desc => Some desc
      | None => first_described selectors' container
      end
  end.

Definition link_prefixes : list string := ["http"; "www"; "click"; "read more"].

(** The loop over [lines[1:]]: a line is kept when it is longer than ten
    characters and does not begin like a link; the loop stops once the kept
    lines, joined, are longer than a hundred characters. *)
Fixpoint gather_lines (desc_lines lines : list string) : list string :=
  match lines with
  | [] => desc_lines
  | line :: lines' =>
      let desc_lines :=
        if (10 <? String.length line)
           && negb (existsb (fun p => Py.startswith p (Py.lower line)) link_prefixes)
        then desc_lines ++ [line] else desc_lines in
      if 100 <? String.length (Py.join " " desc_lines) then desc_lines
      else gather_lines desc_lines lines'
  end.

(** [_extract_description(container)]; on a string, which has [find] but no
    [find_all], the call fails: [None]. *)
Definition _extract_description (container : node) : option string :=
  match container with
  | Text _ => None
  | Element _ _ _ =>
      Some
        match first_described desc_selectors container with
        | Some desc => desc
        | None =>
            let full_text := get_text_strip container in
            let lines := content_lines full_text in
            if 1 <? length lines
            then
              let desc := Py.join " " (gather_lines [] (tail lines)) in
              if 20 <? String.length desc then Py.take 800 desc else EmptyString
            else EmptyString
        end
  end.

Definition _extract_phone (container : node) : string :=
  _extract_phone_from_text (get_text container).

(** The phone number of [_extract_organization_details]: the container's,
    or else the one found in the text of the parent. *)
Definition details_phone (container : node) (parent : option node) : string :=
  let phone := _extract_phone container in
  if Py.is_empty phone
  then _extract_phone_from_text (get_text (default container parent))
  else phone.

(** [img and img.get('src')] *)
Definition src_of (img : option node) : option string :=
  match img with
  | Some (Element _ attrs _) =>
      match attr "src" attrs with
      | Some src => if Py.is_empty src then None else Some src
      | None => None
      end
  | _ => None
  end.

Definition logo_selectors : list string :=
  ["img[alt*=" +:+ String "034" ("logo" +:+ String "034" "]"); ".logo img"; ".icon img";
   "img[src*=" +:+ String "034" ("logo" +:+ String "034" "]")].

Fixpoint first_logo (selectors : list string) (container : node) : option string :=
  match selectors with
  | [] => None
  | selector :: selectors' =>
      match src_of (find selector container) with
      | Some src => Some src
      | None => first_logo selectors' container
      end
  end.

(** [org_data['Organization Link'] = v] *)
Definition set_Organization_Link (v : string) (o : org) : org :=
  {| Category := Category o; Organization_Name := Organization_Name o; Organization_Link := v;
     Logo_Link := Logo_Link o; Description := Description o; Email := Email o;
     Phone_Number := Phone_Number o; Linkedin_Link := Linkedin_Link o;
     Instagram_Link := Instagram_Link o; Facebook_Link := Facebook_Link o;
     Twitter_Link := Twitter_Link o; Youtube_Link := Youtube_Link o;
     Tiktok_Link := Tiktok_Link o |}.

(** [org_data['Linkedin Link'] = v] *)
Definition set_Linkedin_Link (v : string) (o : org) : org :=
  {| Category := Category o; Organization_Name := Organization_Name o;
     Organization_Link := Organization_Link o; Logo_Link := Logo_Link o;
     Description := Description o; Email := Email o; Phone_Number := Phone_Number o;
     Linkedin_Link := v; Instagram_Link := Instagram_Link o; Facebook_Link := Facebook_Link o;
     Twitter_Link := Twitter_Link o; Youtube_Link := Youtube_Link o;
     Tiktok_Link := Tiktok_Link o |}.

(** [org_data['Instagram Link'] = v] *)
Definition set_Instagram_Link (v : string) (o : org) : org :=
  {| Category := Category o; Organization_Name := Organization_Name o;
     Organization_Link := Organization_Link o; Logo_Link := Logo_Link o;
     Description := Description o; Email := Email o; Phone_Number := Phone_Number o;
     Linkedin_Link := Linkedin_Link o; Instagram_Link := v; Facebook_Link := Facebook_Link o;
     Twitter_Link := Twitter_Link o; Youtube_Link := Youtube_Link o;
     Tiktok_Link := Tiktok_Link o |}.

(** [org_data['Facebook Link'] = v] *)
Definition set_Facebook_Link (v : string) (o : org) : org :=
  {| Category := Category o; Organization_Name := Organization_Name o;
     Organization_Link := Organization_Link o; Logo_Link := Logo_Link o;
     Description := Description o; Email := Email o; Phone_Number := Phone_Number o;
     Linkedin_Link := Linkedin_Link o; Instagram_Link := Instagram_Link o; Facebook_Link := v;
     Twitter_Link := Twitter_Link o; Youtube_Link := Youtube_Link o;
     Tiktok_Link := Tiktok_Link o |}.

(** [org_data['Twitter Link'] = v] *)
Definition set_Twitter_Link (v : string) (o : org) : org :=
  {| Category := Category o; Organization_Name := Organization_Name o;
     Organization_Link := Organization_Link o; Logo_Link := Logo_Link o;
     Description := Description o; Email := Email o; Phone_Number := Phone_Number o;
     Linkedin_Link := Linkedin_Link o; Instagram_Link := Instagram_Link o;
     Facebook_Link := Facebook_Link o; Twitter_Link := v; Youtube_Link := Youtube_Link o;
     Tiktok_Link := Tiktok_Link o |}.

(** [org_data['Youtube Link'] = v] *)
Definition set_Youtube_Link (v : string) (o : org) : org :=
  {| Category := Category o; Organization_Name := Organization_Name o;
     Organization_Link := Organization_Link o; Logo_Link := Logo_Link o;
     Description := Description o; Email := Email o; Phone_Number := Phone_Number o;
     Linkedin_Link := Linkedin_Link o; Instagram_Link := Instagram_Link o;
     Facebook_Link := Facebook_Link o; Twitter_Link := Twitter_Link o; Youtube_Link := v;
     Tiktok_Link := Tiktok_Link o |}.

(** [org_data['Tiktok Link'] = v] *)
Definition set_Tiktok_Link (v : string) (o : org) : org :=
  {| Category := Category o; Organization_Name := Organization_Name o;
     Organization_Link := Organization_Link o; Logo_Link := Logo_Link o;
     Description := Description o; Email := Email o; Phone_Number := Phone_Number o;
     Linkedin_Link := Linkedin_Link o; Instagram_Link := Instagram_Link o;
     Facebook_Link := Facebook_Link o; Twitter_Link := Twitter_Link o;
     Youtube_Link := Youtube_Link o; Tiktok_Link := v |}.

Inductive details : Type :=
| AttributeError
| NoRecord
| Details (org_data : org).

Section Details.

(** [urllib.parse.urljoin] and [_is_external_link], which rest on the parsing
    of URLs, are left open. *)
Variable urljoin : string -> string -> string.
Variable _is_external_link : string -> string -> bool.

(** One turn of the loop over the links; [link] is [link.get('href', '')]. *)
Definition link_step (base_url : string) (org_data : org) (link : string) : org :=
  let href := Py.lower link in
  let full_url := urljoin base_url link in
  if Py.contains "facebook" href && Py.is_empty (Facebook_Link org_data)
  then set_Facebook_Link full_url org_data
  else if (Py.contains "twitter" href || Py.contains "x.com" href)
          && Py.is_empty (Twitter_Link org_data)
  then set_Twitter_Link full_url org_data
  else if Py.contains "instagram" href && Py.is_empty (Instagram_Link org_data)
  then set_Instagram_Link full_url org_data
  else if Py.contains "linkedin" href && Py.is_empty (Linkedin_Link org_data)
  then set_Linkedin_Link full_url org_data
  else if Py.contains "youtube" href && Py.is_empty (Youtube_Link org_data)
  then set_Youtube_Link full_url org_data
  else if Py.contains "tiktok" href && Py.is_empty (Tiktok_Link org_data)
  then set_Tiktok_Link full_url org_data
  else if negb (Py.is_empty href) && negb (Py.startswith "#" href)
          && negb (Py.startswith "javascript" href)
          && Py.is_empty (Organization_Link org_data)
  then if negb (_is_external_link href base_url)
       then set_Organization_Link full_url org_data
       else org_data
  else org_data.

(** The links the loop goes through: the container's, then the parent's
    (which hold the container's again). *)
Definition details_links (container : node) (parent : option node) : list string :=
  hrefs container ++ match parent with Some p => hrefs p | None => [] end.

Definition logo_link (container : node) (parent : option node) (base_url : string) : string :=
  match src_of (find "img" container) with
  | Some src => urljoin base_url src
  | None =>
      let from_parent :=
        match parent with
        | Some p =>
            match src_of (find "img" p) with
            | Some src => urljoin base_url src
            | None => EmptyString
            end
        | None => EmptyString
        end in
      if Py.is_empty from_parent
      then match first_logo logo_selectors container with
           | Some src => urljoin base_url src
           | None => EmptyString
           end
      else from_parent
  end.

(** [_extract_organization_details(container, base_url, university_name)],
    [parent] being [container.parent]. *)
Definition _extract_organization_details
    (container : node) (parent : option node) (base_url : string) : details :=
  let name := _extract_name container in
  if Py.is_empty name then NoRecord
  else
    match _extract_description container with
    | None => AttributeError
    | Some description =>
        let org_data :=
          {| Category := ""; Organization_Name := name; Organization_Link := "";
             Logo_Link := ""; Description := description;
             Email := details_email container parent;
             Phone_Number := details_phone container parent;
             Linkedin_Link := ""; Instagram_Link := ""; Facebook_Link := "";
             Twitter_Link := ""; Youtube_Link := ""; Tiktok_Link := "" |} in
        let org_data := foldl (link_step base_url) org_data (details_links container parent) in
        let org_data :=
          if Py.is_empty (Organization_Link org_data)
          then set_Organization_Link base_url org_data else org_data in
        Details
          {| Category := _determine_category name (Description org_data);
             Organization_Name := Organization_Name org_data;
             Organization_Link := Organization_Link org_data;
             Logo_Link := logo_link container parent base_url;
             Description := Description org_data;
             Email := Email org_data;
             Phone_Number := Phone_Number org_data;
             Linkedin_Link := Linkedin_Link org_data;
             Instagram_Link := Instagram_Link org_data;
             Facebook_Link := Facebook_Link org_data;
             Twitter_Link := Twitter_Link org_data;
             Youtube_Link := Youtube_Link org_data;
             Tiktok_Link := Tiktok_Link org_data |}
    end.

End Details.

End ComprehensiveUniversityScraper.

(** ** [scrape_universities_91_100.py] *)

Module UniversityOrganizationScraper.

Definition skip_terms : list string := [
  "home"; "about"; "contact"; "login"; "search"; "menu"; "navigation";
  "footer"; "header"; "sidebar"; "main"; "content"; "page"; "site";
  "copyright"; "privacy"; "terms"; "policy"; "back to top"; "skip to";
  "student life"; "campus"; "university"; "college"; "school"
].

Definition org_indicators : list string := [
  "club"; "society"; "association"; "organization"; "group"; "team";
  "council"; "committee"; "union"; "fraternity"; "sorority"; "honor";
  "student"; "academic"; "professional"; "service"; "volunteer"
].

(** The variant of [scrape_universities_91_100.py]: shorter bounds, no
    [strip], no digit test. *)
Definition _is_likely_organization_name (text : string) : bool :=
  if Py.is_empty text || (String.length text <? 3) || (200 <? String.length text)
  then false
  else
    let text_lower := Py.lower text in
    if Py.any_in skip_terms text_lower then false
    else Py.any_in org_indicators text_lower
         || ((2 <=? length (Py.split text)) && (length (Py.split text) <=? 8)).

(** [re.sub(r'\s+', ' ', text)]: every maximal run of whitespace becomes one
    space; [in_run] tells that the character before was whitespace. *)
Fixpoint collapse_whitespace (in_run : bool) (text : string) : string :=
  match text with
  | EmptyString => EmptyString
  | String c text' =>
      if Py.isspace c
      then if in_run then collapse_whitespace true text'
           else String " " (collapse_whitespace true text')
      else String c (collapse_whitespace false text')
  end.

(** The class [[\w\s\-.,!?()&@]], whose complement the second [re.sub] of
    [_clean_text] deletes. *)
Definition kept_cls (c : ascii) : bool :=
  Py.isword c || Py.isspace c || Re.one_of "-.,!?()&@" c.

(** [_clean_text(text)] on a string. *)
Definition _clean_text (text : string) : string :=
  if Py.is_empty text then EmptyString
  else
    let text := Py.strip (collapse_whitespace false text) in
    Py.filter kept_cls text.

(** The table of [_determine_category] in this file. *)
Definition category_keywords : list (string * list string) := [
  ("Academic", ["academic"; "honor"; "scholarship"; "study"; "research"; "education"]);
  ("Arts", ["art"; "music"; "theater"; "theatre"; "dance"; "creative"; "band"; "choir"]);
  ("Athletic", ["sport"; "athletic"; "team"; "recreation"; "fitness"; "basketball"; "football"]);
  ("Cultural", ["cultural"; "international"; "heritage"; "ethnic"; "diversity"]);
  ("Greek", ["fraternity"; "sorority"; "greek"; "alpha"; "beta"; "gamma"; "delta"]);
  ("Professional", ["professional"; "career"; "business"; "engineering"; "medical"; "law"]);
  ("Religious", ["christian"; "muslim"; "jewish"; "faith"; "religious"; "ministry"; "chapel"]);
  ("Service", ["service"; "volunteer"; "community"; "outreach"; "charity"; "help"]);
  ("Special Interest", ["gaming"; "anime"; "technology"; "computer"; "environment"; "outdoor"])
].

Definition _determine_category (name description : string) : string :=
  let text := Py.lower (name +:+ " " +:+ description) in
  ComprehensiveUniversityScraper.first_category category_keywords text.

(** \b[A-Za-z0-9._%+-]+@[A-Za-z0-9.-]+\.[A-Z|a-z]{2,}\b *)
Definition email_pattern : Re.pattern :=
  [Re.WordBoundary; Re.plus local_cls; Re.one (Re.chr "@"); Re.plus domain_cls;
   Re.one (Re.chr "."); Re.at_least 2 tld_cls; Re.WordBoundary].

(** [emails[0] if emails else ""] *)
Definition _extract_email (container : node) : string :=
  let text := get_text container in
  default "" (head (Re.findall email_pattern text)).

Definition phone_patterns : list Re.pattern := [phone_standard; phone_simple].

(** The loop of [_extract_phone]: the first match of the first pattern that
    has one. *)
Fixpoint first_phone (patterns : list Re.pattern) (text : string) : string :=
  match patterns with
  | [] => EmptyString
  | pattern :: patterns' =>
      match Re.findall pattern text with
      | first :: _ => first
      | [] => first_phone patterns' text
      end
  end.

Definition _extract_phone (container : node) : string :=
  first_phone phone_patterns (get_text container).

(** The rows of this file: the twelve columns of its output. *)
Record row := Row {
  Organization_Name : string;
  Categories : string;
  Org_URL : string;
  Image_URL : string;
  Description : string;
  Email : string;
  Phone : string;
  Website : string;
  LinkedIn : string;
  Instagram : string;
  Facebook : string;
  Twitter : string
}.

(** The row [_extract_from_general_text] builds for a line. *)
Definition general_row (url line : string) : row :=
  {| Organization_Name := line;
     Categories := _determine_category line "";
     Org_URL := url;
     Image_URL := ""; Description := ""; Email := ""; Phone := ""; Website := "";
     LinkedIn := ""; Instagram := ""; Facebook := ""; Twitter := "" |}.

Definition _extract_from_general_text (soup : node) (url : string) : list row :=
  let text_content := get_text soup in
  let lines := ComprehensiveUniversityScraper.content_lines text_content in
  let organizations :=
    general_row url
      <$> List.filter
            (fun line => _is_likely_organization_name line && (String.length line <? 100))
            lines in
  take 20 organizations.

End UniversityOrganizationScraper.

(** ** [enhanced_scraper.py] *)

Module EnhancedScraper.

(** ^[A-Za-z0-9._%+-]+@[A-Za-z0-9.-]+\.[A-Z|a-z]{2,}$ *)
Definition valid_email_pattern : Re.pattern :=
  [Re.Start; Re.plus local_cls; Re.one (Re.chr "@"); Re.plus domain_cls;
   Re.one (Re.chr "."); Re.at_least 2 tld_cls; Re.Finish].

Definition is_valid_email (email : string) : bool := Re.matches valid_email_pattern email.

Definition format_phone (phone : string) : string :=
  let digits := digits_of phone in
  if String.length digits =? 10
  then "(" +:+ Py.slice 0 3 digits +:+ ") " +:+ Py.slice 3 6 digits +:+ "-" +:+ Py.drop 6 digits
  else if (String.length digits =? 11) && Py.startswith "1" digits
  then "(" +:+ Py.slice 1 4 digits +:+ ") " +:+ Py.slice 4 7 digits +:+ "-" +:+ Py.drop 7 digits
  else phone.

(** [soup.find_all('a', href=re.compile(r'mailto:', re.I))], as [href]
    values. *)
Definition mailto_links (soup : node) : list string :=
  List.filter (Re.search (Re.lit_i "mailto:")) (hrefs soup).

Definition tel_links (soup : node) : list string :=
  List.filter (Re.search (Re.lit_i "tel:")) (hrefs soup).

(** [href.replace('mailto:', '').split('?')[0]] *)
Definition mailto_address (href : string) : string :=
  default EmptyString (head (Py.split_on "?" (Py.replace "mailto:" "" href))).

(** The first loop of [extract_enhanced_email]. *)
Fixpoint first_mailto (links : list string) : option string :=
  match links with
  | [] => None
  | href :: links' =>
      if Py.startswith "mailto:" href && is_valid_email (mailto_address href)
      then Some (mailto_address href)
      else first_mailto links'
  end.

Definition generic_terms : list string := ["noreply"; "webmaster"; "admin@university"].

(** The second loop of [extract_enhanced_email]. *)
Fixpoint first_scanned (emails : list string) : string :=
  match emails with
  | [] => EmptyString
  | email :: emails' =>
      let cleaned := clean_email email in
      if is_valid_email cleaned && negb (Py.any_in generic_terms (Py.lower cleaned))
      then cleaned
      else first_scanned emails'
  end.

Definition extract_enhanced_email (page_text : string) (soup : node) : string :=
  match first_mailto (mailto_links soup) with
  | Some email => email
  | None => first_scanned (all_emails page_text)
  end.

(** The first loop of [extract_enhanced_phone]. *)
Fixpoint first_tel (links : list string) : option string :=
  match links with
  | [] => None
  | href :: links' =>
      let phone := Py.replace "tel:" "" href in
      if Py.startswith "tel:" href && (String.length (digits_of phone) =? 10)
      then Some (format_phone phone)
      else first_tel links'
  end.

Definition phone_patterns : list Re.pattern := [
  phone_standard;
  phone_country;
  (* \b\d{3}[-.\s]?\d{3}[-.\s]?\d{4}\b *)
  [Re.WordBoundary] ++ phone_simple ++ [Re.WordBoundary]
].

(** The inner loop [for phone in phones]. *)
Fixpoint first_ten_digits (phones : list string) : option string :=
  match phones with
  | [] => None
  | phone :: phones' =>
      if String.length (digits_of phone) =? 10 then Some (format_phone phone)
      else first_ten_digits phones'
  end.

Fixpoint phone_cascade (patterns : list Re.pattern) (page_text : string) : string :=
  match patterns with
  | [] => EmptyString
  | pattern :: patterns' =>
      match first_ten_digits (Re.findall pattern page_text) with
      | Some phone => phone
      | None => phone_cascade patterns' page_text
      end
  end.

Definition extract_enhanced_phone (page_text : string) (soup : node) : string :=
  match first_tel (tel_links soup) with
  | Some phone => phone
  | None => phone_cascade phone_patterns page_text
  end.

End EnhancedScraper.

(** ** [enhance_organization_detection.py] *)

Module EnhancedOrganizationDetector.

(** A row of the university's file as [pd.read_excel(...).to_dict('records')]
    gives it back: its [Organization Name] cell holds text, or it holds none
    (an empty cell is read as NaN and a numeric cell as a number, and neither
    has a [strip] method). *)
Inductive existing_row : Type :=
| Named (org : org)
| Unnamed.

(** What a call of [save_enhanced_data] does: it returns at once, it fails
    with [AttributeError] in the loop, or it writes a list of rows. *)
Inductive saved : Type :=
| NotWritten
| Fails
| Written (unique_orgs : list org).

(** The existing rows, if the name of each of them is text. *)
Fixpoint named_rows (existing_orgs : list existing_row) : option (list org) :=
  match existing_orgs with
  | [] => Some []
  | Named org :: existing_orgs' => cons org <$> named_rows existing_orgs'
  | Unnamed :: _ => None
  end.

(** [save_enhanced_data(university_name, new_orgs)], [existing_orgs] being
    the rows read from the university's file (none if there is no file or
    it cannot be read).  Nothing is written when there is no new record;
    otherwise the existing rows come first and the loop, which is the loop
    of [ComprehensiveUniversityScraper], goes through every row, so that it
    fails on the first existing row whose name is not text. *)
Definition save_enhanced_data (existing_orgs : list existing_row) (new_orgs : list org)
    : saved :=
  match new_orgs with
  | [] => NotWritten
  | _ :: _ =>
      match named_rows existing_orgs with
      | None => Fails
      | Some rows =>
          let all_orgs := rows ++ new_orgs in
          Written (ComprehensiveUniversityScraper.remove_duplicates all_orgs)
      end
  end.

(** \b[A-Za-z0-9._%+-]+@[A-Za-z0-9.-]+\.[A-Z|a-z]{2,}\b *)
Definition email_pattern : Re.pattern :=
  [Re.WordBoundary; Re.plus local_cls; Re.one (Re.chr "@"); Re.plus domain_cls;
   Re.one (Re.chr "."); Re.at_least 2 tld_cls; Re.WordBoundary].

Definition skipped_senders : list string := ["noreply"; "webmaster"; "admin"].

(** The loop of [_extract_email_from_text] over the matches. *)
Fixpoint first_kept (emails : list string) : string :=
  match emails with
  | [] => EmptyString
  | email :: emails' =>
      if negb (Py.any_in skipped_senders (Py.lower email)) then email
      else first_kept emails'
  end.

Definition _extract_email_from_text (text : string) : string :=
  first_kept (Re.findall email_pattern text).

Definition phone_patterns : list Re.pattern := [phone_standard; phone_country].

(** The loop of [_extract_phone_from_text]: the first match of the first
    pattern that has one, as it is. *)
Fixpoint first_phone (patterns : list Re.pattern) (text : string) : string :=
  match patterns with
  | [] => EmptyString
  | pattern :: patterns' =>
      match Re.findall pattern text with
      | first :: _ => first
      | [] => first_phone patterns' text
      end
  end.

Definition _extract_phone_from_text (text : string) : string :=
  first_phone phone_patterns text.

End EnhancedOrganizationDetector.

Import ComprehensiveUniversityScraper.

(** ** Auxiliary predicates of the statements *)

(** [t] begins with a character that is not white space. *)
Definition starts_nonspace (t : string) : bool :=
  match t with
  | EmptyString => false
  | String c _ => negb (Py.isspace c)
  end.

(** [t] ends with a character that is not white space. *)
Fixpoint ends_nonspace (t : string) : bool :=
  match t with
  | EmptyString => false
  | String c EmptyString => negb (Py.isspace c)
  | String _ t' => ends_nonspace t'
  end.

(** The labels a record's category can take. *)
Definition category_labels : list string :=
  ["Academic"; "Arts"; "Athletics"; "Cultural"; "Greek Life"; "Professional";
   "Religious"; "Service"; "Student Government"; "Special Interest"; "General"].

(** The gate of the linked-page strategy in the words of the specification:
    the unique candidates found so far are fewer than 70% of the expected
    count.  It is compared with [runs_linked] below. *)
Definition spec_runs_linked (unique_candidates : nat) (expected_count : Z) : bool :=
  (10 * Z.of_nat unique_candidates <? 7 * expected_count)%Z.

(** The two tests of the loop that fills [filtered_emails], on an address. *)
Definition blacklisted (email : string) : bool :=
  Py.any_in skip_patterns (Py.lower email).

Definition org_related (email : string) : bool :=
  Py.any_in org_terms (Py.lower email).

(** The addresses the loop puts at the front of [filtered_emails], and the
    ones it appends, in the order of [cleaned_emails]. *)
Definition kept_front (emails : list string) : list string :=
  List.filter (fun e => negb (blacklisted e) && org_related e) emails.

Definition kept_back (emails : list string) : list string :=
  List.filter (fun e => negb (blacklisted e) && negb (org_related e)) emails.

(** The canonical rendering [(XXX) XXX-XXXX] of ten digits, and the strings
    that are the canonical rendering of their own ten digits. *)
Definition canonical_of (digits : string) : string :=
  "(" +:+ Py.slice 0 3 digits +:+ ") " +:+ Py.slice 3 6 digits +:+ "-" +:+ Py.drop 6 digits.

Definition canonical_phone (s : string) : bool :=
  (String.length (digits_of s) =? 10) && String.eqb s (canonical_of (digits_of s)).

(** The first match of [pattern] in [text], if any, does not have ten digits:
    the condition under which [_extract_phone_from_text] moves on to the next
    pattern. *)
Definition first_match_rejected (text : string) (pattern : Re.pattern) : Prop :=
  match Re.findall pattern text with
  | [] => True
  | first :: _ => String.length (digits_of (Py.strip first)) ≠ 10
  end.

(** The document [n] with every attribute of every element erased, so that
    no link target is left in it. *)
Fixpoint without_attrs (n : node) : node :=
  match n with
  | Text s => Text s
  | Element tag _ children => Element tag [] (map without_attrs children)
  end.

(** What the text [m] of a match of the pattern [r] looks like, [rest] being
    the text after it: one block of characters per repetition, in its class
    and within its bounds; [$] requires the match to end the string but for a
    final newline.  The assertions [\b] and [^], which only look at the
    context, are left out. *)
Definition within (hi : option nat) (n : nat) : Prop :=
  match hi with Some h => n <= h | None => True end.

Fixpoint fits (r : Re.pattern) (m rest : string) : Prop :=
  match r with
  | [] => m = EmptyString
  | Re.Rep cls lo hi :: r' =>
      exists a b, m = a +:+ b
                  ∧ Py.forallb cls a = true
                  ∧ lo <= String.length a
                  ∧ within hi (String.length a)
                  ∧ fits r' b rest
  | Re.Finish :: r' => Re.at_finish (m +:+ rest) = true ∧ fits r' m rest
  | Re.WordBoundary :: r' => fits r' m rest
  | Re.Start :: r' => fits r' m rest
  end.

(** The patterns made of repetitions only, without assertions. *)
Definition is_rep (i : Re.item) : bool :=
  match i with Re.Rep _ _ _ => true | _ => false end.

(** What is left of the class of [_clean_text] once whitespace is a space. *)
Definition clean_cls (c : ascii) : bool :=
  Py.isword c || Re.chr " " c || Re.one_of "-.,!?()&@" c.

(** Text that [_clean_text] has nothing to do on. *)
Definition tidy (text : string) : Prop :=
  Py.forallb clean_cls text = true
  ∧ Py.strip text = text
  ∧ Py.contains "  " text = false.

(** [s] begins and ends with a character that is not white space. *)
Definition trimmed (s : string) : Prop :=
  starts_nonspace s = true ∧ ends_nonspace s = true.




(** A link the loop passes without filling the Facebook field: its target
    does not name the platform, or its URL is empty. *)
Definition passed_for_facebook (urljoin : string -> string -> string) (base_url link : string)
    : Prop :=
  Py.contains "facebook" (Py.lower link) = false ∨ urljoin base_url link = "".

(** ** Sample data *)

Definition blank_org : org :=
  {| Category := ""; Organization_Name := ""; Organization_Link := "";
     Logo_Link := ""; Description := ""; Email := ""; Phone_Number := "";
     Linkedin_Link := ""; Instagram_Link := ""; Facebook_Link := "";
     Twitter_Link := ""; Youtube_Link := ""; Tiktok_Link := "" |}.

Definition named (name : string) : org :=
  {| Category := "General"; Organization_Name := name; Organization_Link := "";
     Logo_Link := ""; Description := ""; Email := ""; Phone_Number := "";
     Linkedin_Link := ""; Instagram_Link := ""; Facebook_Link := "";
     Twitter_Link := ""; Youtube_Link := ""; Tiktok_Link := "" |}.

(** Two records of the same organization, found by different strategies. *)
Definition chess_with_email : org :=
  {| Category := "General"; Organization_Name := "Chess Club"; Organization_Link := "";
     Logo_Link := ""; Description := ""; Email := "chess@bhsu.edu"; Phone_Number := "";
     Linkedin_Link := ""; Instagram_Link := ""; Facebook_Link := "";
     Twitter_Link := ""; Youtube_Link := ""; Tiktok_Link := "" |}.

Definition chess_with_phone : org :=
  {| Category := "General"; Organization_Name := " chess club "; Organization_Link := "";
     Logo_Link := ""; Description := ""; Email := ""; Phone_Number := "(605) 555-0100";
     Linkedin_Link := ""; Instagram_Link := ""; Facebook_Link := "";
     Twitter_Link := ""; Youtube_Link := ""; Tiktok_Link := "" |}.

(** A page on which the structured strategy finds five organizations, the
    list and heading strategies nothing, and one more could be found by
    following links. *)
Definition five_clubs : list org :=
  named <$> ["Chess Club"; "Drama Society"; "Robotics Team"; "Debate Union"; "Hiking Group"].

Definition finds_five_clubs : node -> string -> list org := fun _ _ => five_clubs.
Definition finds_nothing : node -> string -> list org := fun _ _ => [].
Definition finds_film_society : node -> string -> list org :=
  fun _ _ => [named "Film Society"].

(** A page on which the structured strategy finds the same organization five
    times. *)
Definition finds_chess_five_times : node -> string -> list org :=
  fun _ _ => replicate 5 (named "Chess Club").

(** A container with the text of an organization, an address in that text,
    and a [mailto:] link to another address; and the container of the
    specification's scenario, whose only address is in the link. *)
Definition biology_container : node :=
  Element "div" []
    [Text "Biology Club other@bhsu.edu ";
     Element "a" [("href", "mailto:biology@bhsu.edu")] [Text "Email us"]].

Definition biology_scenario : node :=
  Element "div" []
    [Text "Biology Club";
     Element "a" [("href", "mailto:biology@bhsu.edu")] [Text "Email"]].

(** A container with a heading and two links, and a way of joining URLs. *)
Definition chess_container : node :=
  Element "div" [] [
    Element "h3" [] [Text "Chess Club"];
    Element "a" [("href", "https://www.facebook.com/chessclub")] [Text "Facebook"];
    Element "a" [("href", "/clubs/chess")] [Text "More"]
  ].

Definition joined (base_url link : string) : string :=
  if Py.startswith "http" link then link else base_url +:+ link.

Definition absolute (href base_url : string) : bool := Py.startswith "http" href.

(** * Properties *)

(** ** Strings *)

Section Strings.

Implicit Types (s t : string) (c : ascii).

Lemma startswith_nonempty t s :
  Py.startswith t s = true -> Py.is_empty s = true -> Py.is_empty t = true.
Proof. destruct t, s; simpl; congruence. Qed.

Lemma startswith_contains t s : Py.startswith t s = true -> Py.contains t s = true.
Proof. intros H. destruct s; simpl; rewrite H; reflexivity. Qed.

Lemma contains_cons t c s : Py.contains t s = true -> Py.contains t (String c s) = true.
Proof. intros H. simpl. rewrite H. apply orb_true_r. Qed.

Lemma contains_nonempty t s :
  Py.contains t s = true -> Py.is_empty s = true -> Py.is_empty t = true.
Proof.
  destruct s; [|discriminate]. simpl. rewrite orb_false_r.
  intros H _. by destruct t.
Qed.

Lemma contains_lstrip t s :
  starts_nonspace t = true -> Py.contains t s = true -> Py.contains t (Py.lstrip s) = true.
Proof.
  intros Ht. induction s as [|c s IH]; [done|].
  intros H. simpl. destruct (Py.isspace c) eqn:Ec; [|exact H].
  apply IH. simpl in H. apply orb_true_iff in H as [H|H]; [|done].
  destruct t as [|a t]; [done|]. simpl in Ht, H.
  apply andb_true_iff in H as [->%Ascii.eqb_eq _]. by rewrite Ec in Ht.
Qed.

Lemma startswith_rstrip t : forall s,
  ends_nonspace t = true -> Py.startswith t s = true ->
  Py.startswith t (Py.rstrip s) = true.
Proof.
  induction t as [|a t IH]; intros s Ht H; [done|].
  destruct s as [|b s]; [done|]. simpl in H.
  apply andb_true_iff in H as [Hab H]. apply Ascii.eqb_eq in Hab as <-.
  change (Py.rstrip (String a s))
    with (if Py.isspace a && Py.is_empty (Py.rstrip s) then EmptyString
          else String a (Py.rstrip s)).
  destruct t as [|a' t].
  - simpl in Ht. apply negb_true_iff in Ht. rewrite Ht. simpl.
    by rewrite Ascii.eqb_refl.
  - assert (Py.startswith (String a' t) (Py.rstrip s) = true) as H' by by apply IH.
    destruct (Py.rstrip s) as [|r rs] eqn:Er; [done|].
    rewrite andb_false_r. simpl. rewrite Ascii.eqb_refl. exact H'.
Qed.

Lemma contains_rstrip t s :
  ends_nonspace t = true -> Py.contains t s = true -> Py.contains t (Py.rstrip s) = true.
Proof.
  intros Ht. induction s as [|c s IH]; [done|].
  intros H. simpl in H. apply orb_true_iff in H as [H|H].
  - by apply startswith_contains, startswith_rstrip.
  - specialize (IH H).
    change (Py.rstrip (String c s))
      with (if Py.isspace c && Py.is_empty (Py.rstrip s) then EmptyString
            else String c (Py.rstrip s)).
    destruct (Py.rstrip s) as [|r rs] eqn:Er.
    + apply contains_nonempty in IH; [|done]. by destruct t.
    + rewrite andb_false_r. by apply contains_cons.
Qed.

Lemma contains_strip t s :
  starts_nonspace t = true -> ends_nonspace t = true ->
  Py.contains t s = true -> Py.contains t (Py.strip s) = true.
Proof. intros H1 H2 H. by apply contains_rstrip, contains_lstrip. Qed.

Lemma any_in_intro (terms : list string) t s :
  t ∈ terms -> Py.contains t s = true -> Py.any_in terms s = true.
Proof.
  intros Ht%list_elem_of_In H. apply existsb_exists. by exists t.
Qed.

End Strings.

(** ** The de-duplication loop *)

Section Dedup.

Implicit Types (seen : gset string) (l u : list org) (o : org).

Lemma admits_spec seen o :
  admits seen o = true <-> normalized_name o ≠ "" ∧ normalized_name o ∉ seen.
Proof.
  unfold admits. rewrite andb_true_iff, negb_true_iff, bool_decide_eq_true.
  destruct (normalized_name o); simpl; split; intros [? ?]; split; auto; congruence.
Qed.

Lemma dedup_loop_first_occurrences l : forall seen u,
  dedup_loop (seen, u) l
  = (list_to_set (normalized_name <$> first_occurrences seen l) ∪ seen,
     u ++ first_occurrences seen l).
Proof.
  unfold dedup_loop.
  induction l as [|o l IH]; intros seen u; simpl.
  - f_equal; [set_solver | by rewrite app_nil_r].
  - unfold dedup_step at 2; simpl.
    destruct (admits seen o) eqn:E; simpl; rewrite IH.
    + f_equal; [set_solver | by rewrite <- app_assoc].
    + done.
Qed.

Lemma remove_duplicates_first_occurrences l :
  remove_duplicates l = first_occurrences ∅ l.
Proof. unfold remove_duplicates. by rewrite dedup_loop_first_occurrences. Qed.

Lemma first_occurrences_sublist l : forall seen, first_occurrences seen l `sublist_of` l.
Proof.
  induction l as [|o l IH]; intros seen; simpl; [done|].
  destruct (admits seen o); [apply sublist_skip | apply sublist_cons]; apply IH.
Qed.

Lemma first_occurrences_fresh l : forall seen o,
  o ∈ first_occurrences seen l ->
  normalized_name o ≠ "" ∧ normalized_name o ∉ seen.
Proof.
  induction l as [|x l IH]; intros seen o; simpl; [by intros ?%elem_of_nil|].
  destruct (admits seen x) eqn:E.
  - intros [->|H]%elem_of_cons; [by apply admits_spec|].
    apply IH in H as [? ?]. split; [done | set_solver].
  - apply IH.
Qed.

Lemma first_occurrences_NoDup l : forall seen,
  NoDup (normalized_name <$> first_occurrences seen l).
Proof.
  induction l as [|x l IH]; intros seen; simpl; [constructor|].
  destruct (admits seen x) eqn:E; [|apply IH].
  rewrite fmap_cons. constructor; [|apply IH].
  intros (o & Heq & Ho)%list_elem_of_fmap.
  apply first_occurrences_fresh in Ho as [_ Ho]. set_solver.
Qed.

(** A list whose names are non-empty, pairwise distinct and unseen passes
    through the loop unchanged. *)
Lemma first_occurrences_id l : forall seen,
  NoDup (normalized_name <$> l) ->
  (forall o, o ∈ l -> normalized_name o ≠ "" ∧ normalized_name o ∉ seen) ->
  first_occurrences seen l = l.
Proof.
  induction l as [|x l IH]; intros seen Hnd Hfresh; simpl; [done|].
  rewrite fmap_cons in Hnd. apply NoDup_cons in Hnd as [Hx Hnd].
  assert (admits seen x = true) as ->.
  { apply admits_spec, Hfresh. by left. }
  f_equal. apply IH; [done|].
  intros o Ho. destruct (Hfresh o) as [? ?]; [by right|]. split; [done|].
  intros [Heq%elem_of_singleton | ?]%elem_of_union; [|done].
  apply Hx. rewrite <- Heq. by apply list_elem_of_fmap_2.
Qed.

(** Every admitted record is the first of the input with its name. *)
Lemma first_occurrences_first l : forall seen o,
  o ∈ first_occurrences seen l ->
  exists l1 l2, l = l1 ++ o :: l2
    ∧ Forall (fun x => normalized_name x ≠ normalized_name o) l1.
Proof.
  induction l as [|x l IH]; intros seen o; simpl; [by intros ?%elem_of_nil|].
  destruct (admits seen x) eqn:E.
  - intros [->|H]%elem_of_cons; [by exists [], l|].
    pose proof (first_occurrences_fresh _ _ _ H) as [_ Hns].
    apply IH in H as (l1 & l2 & -> & Hall).
    exists (x :: l1), l2. split; [done|]. constructor; [set_solver | done].
  - intros H. pose proof (first_occurrences_fresh _ _ _ H) as [Hne Hns].
    apply IH in H as (l1 & l2 & -> & Hall).
    exists (x :: l1), l2. split; [done|]. constructor; [|done].
    intros Heq. apply not_true_iff_false in E. apply E, admits_spec.
    by rewrite Heq.
Qed.

(** Every input name that is non-empty and unseen is represented. *)
Lemma first_occurrences_complete l : forall seen o,
  o ∈ l -> normalized_name o ≠ "" -> normalized_name o ∉ seen ->
  exists o', o' ∈ first_occurrences seen l ∧ normalized_name o' = normalized_name o.
Proof.
  induction l as [|x l IH]; intros seen o; simpl; [by intros ?%elem_of_nil|].
  intros Ho Hne Hns. destruct (admits seen x) eqn:E.
  - destruct (decide (normalized_name x = normalized_name o)) as [Heq|Hneq].
    + exists x. split; [by left | done].
    + apply elem_of_cons in Ho as [->|Ho]; [done|].
      destruct (IH ({[normalized_name x]} ∪ seen) o) as (o' & ? & ?);
        [done | done | set_solver |].
      exists o'. split; [by right | done].
  - apply elem_of_cons in Ho as [->|Ho].
    + apply not_true_iff_false in E. destruct E. by apply admits_spec.
    + by apply IH.
Qed.

Lemma dedup_loop_app st l1 l2 :
  dedup_loop st (l1 ++ l2) = dedup_loop (dedup_loop st l1) l2.
Proof. unfold dedup_loop. apply foldl_app. Qed.

Lemma first_occurrences_seen_none l : forall seen n,
  n ∈ seen ->
  filter (fun x => normalized_name x = n) (first_occurrences seen l) = [].
Proof.
  intros seen n Hn.
  destruct (filter _ _) as [|x r] eqn:E; [done|].
  assert (x ∈ filter (fun x => normalized_name x = n) (first_occurrences seen l)) as Hx
    by (rewrite E; left).
  apply list_elem_of_filter in Hx as [Heq Hx].
  apply first_occurrences_fresh in Hx as [_ Hx]. by subst.
Qed.

(** The first record of a name is the one the loop keeps, and the only one. *)
Lemma first_occurrences_keeps_first l1 o l2 : forall seen,
  normalized_name o ≠ "" ->
  normalized_name o ∉ seen ->
  Forall (fun x => normalized_name x ≠ normalized_name o) l1 ->
  filter (fun x => normalized_name x = normalized_name o)
         (first_occurrences seen (l1 ++ o :: l2)) = [o].
Proof.
  induction l1 as [|x l1 IH]; intros seen Hne Hns Hall; simpl.
  - assert (admits seen o = true) as -> by by apply admits_spec.
    rewrite filter_cons_True by done. f_equal.
    apply first_occurrences_seen_none. set_solver.
  - apply Forall_cons in Hall as [Hx Hall].
    destruct (admits seen x).
    + rewrite filter_cons_False by done. apply IH; [done | set_solver | done].
    + by apply IH.
Qed.

End Dedup.

Example name_examples :
  _is_likely_organization_name "Chess Club" = true
  /\ _is_likely_organization_name "Home" = false
  /\ _is_likely_organization_name "Campus Chess Club" = false
  /\ _is_likely_organization_name "12345" = false
  /\ _is_likely_organization_name "Robotics" = false
  /\ _determine_category "Chess Club" "" = "General"
  /\ _determine_category "Drama Society" "" = "Arts"
  /\ _determine_category "Honor Band" "" = "Academic"
  /\ Py.split "  a  b c " = ["a"; "b"; "c"]
  /\ Py.strip "  a b  " = "a b"
  /\ Py.replace "[at]" "@" "x[at]y[at]" = "x@y@"
  /\ Py.split_on "?" "a?b?" = ["a"; "b"; ""].
Proof. vm_compute. repeat split. Qed.

Example contact_examples :
  all_emails "write to bio@bhsu.edu now" = ["bio@bhsu.edu"; "bio@bhsu.edu"]
  /\ _extract_email_from_text "admin@bhsu.edu" = "admin@bhsu.edu"
  /\ _extract_email_from_text "a@x.edu b@club.edu c@group.edu" = "c@group.edu"
  /\ _extract_email_from_text "chess [at] bhsu [dot] edu" = "chess@bhsu.edu"
  /\ _extract_phone_from_text "Call 555-123-4567 today" = "555-123-4567"
  /\ _extract_phone_from_text "Call 1-555-123-4567 today" = "555-123-4567"
  /\ _extract_phone_from_text "id 12345678901" = "1234567890"
  /\ EnhancedScraper.format_phone "555-123-4567" = "(555) 123-4567"
  /\ EnhancedScraper.format_phone "(555) 123-4567" = "(555) 123-4567"
  /\ EnhancedScraper.format_phone "1-555-123-4567" = "(555) 123-4567"
  /\ EnhancedScraper.is_valid_email "biology@bhsu.edu" = true
  /\ EnhancedScraper.is_valid_email "biology@bhsu" = false.
Proof. vm_compute. repeat split. Qed.

Example regex_examples :
  all_emails "x a@b.c|d y" = ["a@b.c|d"]
  /\ all_emails "Mail: pres @ chess . org, or noreply@x.edu"
     = ["noreply@x.edu"; "pres @ chess . org"; "noreply@x.edu"]
  /\ _extract_email_from_text "Mail: pres @ chess . org, or noreply@x.edu" = "pres@chess.org"
  /\ all_emails "A@B.CO.UK." = ["A@B.CO.UK"; "A@B.CO.UK"]
  /\ all_emails "john.doe@mail.example.com and jim@x.io"
     = ["john.doe@mail.example.com"; "jim@x.io"; "john.doe@mail.example.com"; "jim@x.io"]
  /\ _extract_phone_from_text "(555)123.4567" = "(555)123.4567"
  /\ _extract_phone_from_text "555 123 45678" = "555 123 4567"
  /\ _extract_phone_from_text "tel 5551234567x" = "5551234567".
Proof. vm_compute. repeat split. Qed.

(** ** De-duplication: first record wins *)

Lemma page_result_is_remove_duplicates (s1 s2 s3 s4 : node -> string -> list org)
    (soup : node) (base_url : string) (expected_count : Z) :
  exists extra,
    unique_organizations (extract_organizations_from_page s1 s2 s3 s4 soup base_url expected_count)
    = remove_duplicates (after_linked s1 s2 s3 s4 soup base_url expected_count ++ extra).
Proof.
  unfold extract_organizations_from_page; simpl.
  destruct (runs_general_content _ _ _ _ _ _ _).
  - eexists. unfold after_dedup, remove_duplicates. by rewrite dedup_loop_app.
  - exists []. by rewrite app_nil_r.
Qed.

(** C1, counterexample: two records named "Chess Club" and " chess club ",
    the first with only an email and the second with only a phone, leave the
    first record alone in the output; no output record carries both the email
    and the phone. *)
Lemma C1_no_merge_counterexample :
  normalized_name chess_with_email = normalized_name chess_with_phone
  ∧ remove_duplicates [chess_with_email; chess_with_phone] = [chess_with_email]
  ∧ ¬ (exists o, o ∈ remove_duplicates [chess_with_email; chess_with_phone]
                 ∧ Email o = "chess@bhsu.edu" ∧ Phone_Number o = "(605) 555-0100").
Proof.
  assert (remove_duplicates [chess_with_email; chess_with_phone] = [chess_with_email]) as E
    by (rewrite remove_duplicates_first_occurrences; vm_compute; reflexivity).
  split; [vm_compute; reflexivity|]. split; [exact E|].
  rewrite E. intros (o & ->%list_elem_of_singleton & _ & Hphone). discriminate Hphone.
Qed.

(** C1, as amended: for each group of records with the same non-empty
    normalized name, the output holds exactly one record with that name, and
    it is the first record of the group in discovery order with all of its
    fields as they were; the fields of the later records of the group are
    not used. *)
Theorem C1_group_keeps_first_record (l1 l2 : list org) (o : org) :
  normalized_name o ≠ "" ->
  Forall (fun x => normalized_name x ≠ normalized_name o) l1 ->
  filter (fun x => normalized_name x = normalized_name o)
         (remove_duplicates (l1 ++ o :: l2)) = [o].
Proof.
  intros Hne Hall. rewrite remove_duplicates_first_occurrences.
  apply first_occurrences_keeps_first; [done | set_solver | done].
Qed.

Lemma C1_group_keeps_first_record_witness :
  normalized_name chess_with_email ≠ ""
  ∧ Forall (fun x => normalized_name x ≠ normalized_name chess_with_email) [named "Drama Society"]
  ∧ filter (fun x => normalized_name x = normalized_name chess_with_email)
           (remove_duplicates ([named "Drama Society"] ++ chess_with_email :: [chess_with_phone]))
    = [chess_with_email].
Proof.
  assert (normalized_name chess_with_email ≠ "") as H1 by (vm_compute; discriminate).
  assert (Forall (fun x => normalized_name x ≠ normalized_name chess_with_email)
                 [named "Drama Society"]) as H2
    by (repeat constructor; vm_compute; discriminate).
  split; [exact H1|]. split; [exact H2|].
  exact (C1_group_keeps_first_record [named "Drama Society"] [chess_with_phone]
           chess_with_email H1 H2).
Defined.

(** C8: the output of the de-duplication loop never holds two records whose
    names are equal after trimming and lower-casing, and the same is true of
    the list [extract_organizations_from_page] returns for a document. *)
Theorem C8_normalized_names_unique :
  (forall organizations : list org,
     NoDup (normalized_name <$> remove_duplicates organizations))
  ∧ (forall (s1 s2 s3 s4 : node -> string -> list org) soup base_url expected_count,
       NoDup (normalized_name <$>
                unique_organizations
                  (extract_organizations_from_page s1 s2 s3 s4 soup base_url expected_count))).
Proof.
  assert (forall l, NoDup (normalized_name <$> remove_duplicates l)) as H.
  { intros l. rewrite remove_duplicates_first_occurrences. apply first_occurrences_NoDup. }
  split; [exact H|]. intros s1 s2 s3 s4 soup base_url e.
  destruct (page_result_is_remove_duplicates s1 s2 s3 s4 soup base_url e) as [extra ->].
  apply H.
Qed.

(** C9: removing duplicates is idempotent. *)
Theorem C9_remove_duplicates_idempotent (organizations : list org) :
  remove_duplicates (remove_duplicates organizations) = remove_duplicates organizations.
Proof.
  rewrite !remove_duplicates_first_occurrences.
  apply first_occurrences_id; [apply first_occurrences_NoDup|].
  intros o Ho. by apply first_occurrences_fresh in Ho.
Qed.

(** C10: every output record is an input record, unchanged, namely the first
    input record with its normalized name, and the output keeps the input
    order; no output record is assembled from several input records. *)
Theorem C10_output_records_are_first_occurrences (organizations : list org) :
  remove_duplicates organizations `sublist_of` organizations
  ∧ Forall (fun o => exists l1 l2,
              organizations = l1 ++ o :: l2
              ∧ Forall (fun x => normalized_name x ≠ normalized_name o) l1)
           (remove_duplicates organizations).
Proof.
  rewrite remove_duplicates_first_occurrences. split.
  - apply first_occurrences_sublist.
  - apply Forall_forall. intros o Ho. by apply first_occurrences_first in Ho.
Qed.

(** ** The entity-name predicate and the classifier *)

Lemma skip_terms_edges :
  Forall (fun t => starts_nonspace t = true ∧ ends_nonspace t = true)
         ComprehensiveUniversityScraper.skip_terms.
Proof. repeat constructor. Qed.

(** C3: a text whose lower-cased form contains a term of the disallow list is
    rejected by the name predicate, whatever else it contains (an
    organization keyword such as "club" included), in the scraper's predicate
    and in the variant of [scrape_universities_91_100.py] alike. *)
Theorem C3_disallowed_term_rejects (text term : string) :
  Py.contains term (Py.lower text) = true ->
  (term ∈ ComprehensiveUniversityScraper.skip_terms ->
   ComprehensiveUniversityScraper._is_likely_organization_name text = false)
  ∧ (term ∈ UniversityOrganizationScraper.skip_terms ->
     UniversityOrganizationScraper._is_likely_organization_name text = false).
Proof.
  intros Hc. split; intros Hterm.
  - unfold ComprehensiveUniversityScraper._is_likely_organization_name.
    destruct (_ || _ || _); [done|].
    assert (Py.any_in ComprehensiveUniversityScraper.skip_terms
              (Py.strip (Py.lower text)) = true) as ->; [|done].
    apply any_in_intro with term; [done|].
    pose proof skip_terms_edges as H. rewrite Forall_forall in H.
    destruct (H term Hterm). by apply contains_strip.
  - unfold UniversityOrganizationScraper._is_likely_organization_name.
    destruct (_ || _ || _); [done|].
    by rewrite (any_in_intro _ term).
Qed.

Lemma C3_disallowed_term_rejects_witness :
  Py.contains "campus" (Py.lower "Campus Chess Club") = true
  ∧ Py.contains "club" (Py.lower "Campus Chess Club") = true
  ∧ "campus" ∈ ComprehensiveUniversityScraper.skip_terms
  ∧ "campus" ∈ UniversityOrganizationScraper.skip_terms
  ∧ ComprehensiveUniversityScraper._is_likely_organization_name "Campus Chess Club" = false
  ∧ UniversityOrganizationScraper._is_likely_organization_name "Campus Chess Club" = false.
Proof.
  assert (Py.contains "campus" (Py.lower "Campus Chess Club") = true) as H
    by (vm_compute; reflexivity).
  assert ("campus" ∈ ComprehensiveUniversityScraper.skip_terms) as H1
    by (apply list_elem_of_In; vm_compute; tauto).
  assert ("campus" ∈ UniversityOrganizationScraper.skip_terms) as H2
    by (apply list_elem_of_In; vm_compute; tauto).
  split; [exact H|]. split; [vm_compute; reflexivity|].
  split; [exact H1|]. split; [exact H2|].
  destruct (C3_disallowed_term_rejects "Campus Chess Club" "campus" H) as [A B].
  split; [exact (A H1) | exact (B H2)].
Defined.

Lemma first_category_spec (table : list (string * list string)) (text : string) :
  (exists before category keywords after,
      table = before ++ (category, keywords) :: after
      ∧ Forall (fun row => Py.any_in row.2 text = false) before
      ∧ Py.any_in keywords text = true
      ∧ first_category table text = category)
  ∨ (Forall (fun row => Py.any_in row.2 text = false) table
     ∧ first_category table text = "General").
Proof.
  induction table as [|[category keywords] table IH]; simpl.
  - right. split; [constructor | done].
  - destruct (Py.any_in keywords text) eqn:E.
    + left. exists [], category, keywords, table. repeat split; [constructor | done].
    + destruct IH as [(before & c & k & after & -> & Hb & Hk & Hr) | [Hall Hr]].
      * left. exists ((category, keywords) :: before), c, k, after.
        repeat split; [by constructor | done | done].
      * right. split; [by constructor | done].
Qed.

Lemma first_category_label (table : list (string * list string)) (text : string) :
  first_category table text ∈ (table.*1 ++ ["General"]).
Proof.
  induction table as [|[category keywords] table IH]; simpl.
  - by left.
  - destruct (Py.any_in keywords text); [by left | by right].
Qed.

(** C4: the classifier is a function of (name, description) that lower-cases
    the concatenation of the two, walks the ten rows of the keyword table in
    their fixed order, returns the label of the first row one of whose
    keywords occurs in the text, and returns "General" when no row matches;
    its result is always one of the eleven labels. *)
Theorem C4_classifier_first_match (name description : string) :
  let text := Py.lower (name +:+ " " +:+ description) in
  category_keywords.*1 ++ ["General"] = category_labels
  ∧ _determine_category name description ∈ category_labels
  ∧ ((exists before category keywords after,
         category_keywords = before ++ (category, keywords) :: after
         ∧ Forall (fun row => Py.any_in row.2 text = false) before
         ∧ Py.any_in keywords text = true
         ∧ _determine_category name description = category)
     ∨ (Forall (fun row => Py.any_in row.2 text = false) category_keywords
        ∧ _determine_category name description = "General")).
Proof.
  intros text. split; [reflexivity|]. split.
  - change category_labels with (category_keywords.*1 ++ ["General"]).
    apply first_category_label.
  - apply first_category_spec.
Qed.

(** ** The gates of the strategy cascade *)

(** On every length up to 150 and every expected count up to 500 the exact
    comparisons are the floating-point comparisons of the source; the second
    factor is the binary64 value of the literal [0.3]. *)
Lemma gates_agree_with_binary64 :
  List.forallb
    (fun n =>
       List.forallb
         (fun e =>
            Bool.eqb (below_half n (Z.of_nat e)) (float_below n (Z.of_nat e) 0.5)
            && Bool.eqb (below_three_tenths n (Z.of_nat e))
                        (float_below n (Z.of_nat e) 0x1.3333333333333p-2))
         (seq 0 501))
    (seq 0 151) = true.
Proof. vm_compute. reflexivity. Qed.

Section CascadeFacts.

Variables s1 s2 s3 s4 : node -> string -> list org.
Variables (soup : node) (base_url : string) (expected_count : Z).

Let result := extract_organizations_from_page s1 s2 s3 s4 soup base_url expected_count.

Lemma invoked_list_based :
  ListBased ∈ invoked result <-> runs_list_based s1 soup base_url expected_count = true.
Proof.
  unfold result, extract_organizations_from_page; simpl.
  destruct (runs_list_based _ _ _ _), (runs_heading_based _ _ _ _ _),
    (runs_linked _ _ _ _ _ _), (runs_general_content _ _ _ _ _ _ _); simpl;
    rewrite ?elem_of_cons, ?elem_of_nil; naive_solver.
Qed.

Lemma invoked_heading_based :
  HeadingBased ∈ invoked result <-> runs_heading_based s1 s2 soup base_url expected_count = true.
Proof.
  unfold result, extract_organizations_from_page; simpl.
  destruct (runs_list_based _ _ _ _), (runs_heading_based _ _ _ _ _),
    (runs_linked _ _ _ _ _ _), (runs_general_content _ _ _ _ _ _ _); simpl;
    rewrite ?elem_of_cons, ?elem_of_nil; naive_solver.
Qed.

Lemma invoked_linked :
  Linked ∈ invoked result <-> runs_linked s1 s2 s3 soup base_url expected_count = true.
Proof.
  unfold result, extract_organizations_from_page; simpl.
  destruct (runs_list_based _ _ _ _), (runs_heading_based _ _ _ _ _),
    (runs_linked _ _ _ _ _ _), (runs_general_content _ _ _ _ _ _ _); simpl;
    rewrite ?elem_of_cons, ?elem_of_nil; naive_solver.
Qed.

Lemma invoked_general_content :
  GeneralContent ∈ invoked result
  <-> runs_general_content s1 s2 s3 s4 soup base_url expected_count = true.
Proof.
  unfold result, extract_organizations_from_page; simpl.
  destruct (runs_list_based _ _ _ _), (runs_heading_based _ _ _ _ _),
    (runs_linked _ _ _ _ _ _), (runs_general_content _ _ _ _ _ _ _); simpl;
    rewrite ?elem_of_cons, ?elem_of_nil; naive_solver.
Qed.

End CascadeFacts.

Lemma remove_duplicates_length (l : list org) :
  length (remove_duplicates l) <= length l.
Proof.
  rewrite remove_duplicates_first_occurrences.
  apply sublist_length, first_occurrences_sublist.
Qed.

Lemma general_content_capped (soup : node) (base_url : string) :
  length (_extract_from_general_content soup base_url) <= 50.
Proof. unfold _extract_from_general_content. rewrite length_take. lia. Qed.

(** The thresholds bound the runs from one side only.  With an expected
    count of 10 and five distinct organizations found by the structured
    strategy, the candidates are below 70% of the expected count and yet the
    linked-page strategy is not invoked: the gate the code tests is 30%.
    With the same organization found five times, the unique candidates (one)
    are below 50% of the expected count and the list-item strategy is not
    invoked either, because the code counts duplicates. *)
Example linked_gate_closed_below_seven_tenths :
  length (remove_duplicates
            (after_heading_based finds_five_clubs finds_nothing finds_nothing (Text "") "" 10)) = 5
  ∧ spec_runs_linked
      (length (remove_duplicates
                 (after_heading_based finds_five_clubs finds_nothing finds_nothing (Text "") "" 10)))
      10 = true
  ∧ runs_linked finds_five_clubs finds_nothing finds_nothing (Text "") "" 10 = false
  ∧ (Linked ∉ invoked (extract_organizations_from_page
                         finds_five_clubs finds_nothing finds_nothing finds_film_society
                         (Text "") "" 10))
  ∧ length (remove_duplicates (after_structured finds_chess_five_times (Text "") "")) = 1
  ∧ (2 * Z.of_nat (length (remove_duplicates
                             (after_structured finds_chess_five_times (Text "") ""))) < 10)%Z
  ∧ (ListBased ∉ invoked (extract_organizations_from_page
                            finds_chess_five_times finds_film_society finds_nothing finds_nothing
                            (Text "") "" 10)).
Proof.
  assert (remove_duplicates
            (after_heading_based finds_five_clubs finds_nothing finds_nothing (Text "") "" 10)
          = five_clubs) as E1
    by (rewrite remove_duplicates_first_occurrences; vm_compute; reflexivity).
  assert (remove_duplicates (after_structured finds_chess_five_times (Text "") "")
          = [named "Chess Club"]) as E2
    by (rewrite remove_duplicates_first_occurrences; vm_compute; reflexivity).
  rewrite E1, E2.
  split; [reflexivity|]. split; [reflexivity|]. split; [reflexivity|].
  split; [rewrite invoked_linked; vm_compute; discriminate|].
  split; [reflexivity|]. split; [reflexivity|].
  rewrite invoked_list_based. vm_compute. discriminate.
Qed.

(** The gates as the code tests them: the list-item and the heading
    strategies run exactly when the records accumulated so far, duplicates
    included, number fewer than 50% of the expected count; the linked-page
    strategy runs exactly when they number fewer than 30% of it; the raw-text
    fallback runs exactly when the unique records left by the first four
    steps number fewer than 30% of it, and it contributes at most 50
    records.  Removing duplicates never lengthens a list. *)
Lemma cascade_gates_exact (s1 s2 s3 s4 : node -> string -> list org)
    (soup : node) (base_url : string) (expected_count : Z) :
  let result := extract_organizations_from_page s1 s2 s3 s4 soup base_url expected_count in
  let found1 := after_structured s1 soup base_url in
  let found2 := after_list_based s1 s2 soup base_url expected_count in
  let found3 := after_heading_based s1 s2 s3 soup base_url expected_count in
  let found4 := after_linked s1 s2 s3 s4 soup base_url expected_count in
  (ListBased ∈ invoked result <-> 2 * Z.of_nat (length found1) < expected_count)%Z
  ∧ (HeadingBased ∈ invoked result <-> 2 * Z.of_nat (length found2) < expected_count)%Z
  ∧ (Linked ∈ invoked result <-> 10 * Z.of_nat (length found3) < 3 * expected_count)%Z
  ∧ (GeneralContent ∈ invoked result
     <-> 10 * Z.of_nat (length (remove_duplicates found4)) < 3 * expected_count)%Z
  ∧ length (_extract_from_general_content soup base_url) <= 50
  ∧ length (remove_duplicates found1) <= length found1
  ∧ length (remove_duplicates found2) <= length found2
  ∧ length (remove_duplicates found3) <= length found3.
Proof.
  intros result found1 found2 found3 found4.
  split; [|split; [|split; [|split]]].
  - unfold result. rewrite invoked_list_based. apply Z.ltb_lt.
  - unfold result. rewrite invoked_heading_based. apply Z.ltb_lt.
  - unfold result. rewrite invoked_linked. apply Z.ltb_lt.
  - unfold result. rewrite invoked_general_content. apply Z.ltb_lt.
  - split; [apply general_content_capped|].
    repeat split; apply remove_duplicates_length.
Qed.

(** C2: the cascade is gated by thresholds relative to the expected count.
    The list-item and the heading strategies run only if the unique
    candidates accumulated so far number fewer than 50% of the expected
    count, the linked-page strategy only if they number fewer than 70% of
    it, and the raw-text fallback only if the unique candidates left by
    steps 1-4 number fewer than 30% of it; the fallback gives at most 50
    records. *)
Theorem C2_cascade_gates (s1 s2 s3 s4 : node -> string -> list org)
    (soup : node) (base_url : string) (expected_count : Z) :
  let result := extract_organizations_from_page s1 s2 s3 s4 soup base_url expected_count in
  let unique1 := remove_duplicates (after_structured s1 soup base_url) in
  let unique2 := remove_duplicates (after_list_based s1 s2 soup base_url expected_count) in
  let unique3 :=
    remove_duplicates (after_heading_based s1 s2 s3 soup base_url expected_count) in
  let unique4 := remove_duplicates (after_linked s1 s2 s3 s4 soup base_url expected_count) in
  (ListBased ∈ invoked result -> 2 * Z.of_nat (length unique1) < expected_count)%Z
  ∧ (HeadingBased ∈ invoked result -> 2 * Z.of_nat (length unique2) < expected_count)%Z
  ∧ (Linked ∈ invoked result -> 10 * Z.of_nat (length unique3) < 7 * expected_count)%Z
  ∧ (GeneralContent ∈ invoked result
     -> 10 * Z.of_nat (length unique4) < 3 * expected_count)%Z
  ∧ length (_extract_from_general_content soup base_url) <= 50.
Proof.
  intros result unique1 unique2 unique3 unique4.
  destruct (cascade_gates_exact s1 s2 s3 s4 soup base_url expected_count)
    as (H1 & H2 & H3 & H4 & Hcap & L1 & L2 & L3).
  fold result unique1 unique2 unique3 unique4 in H1, H2, H3, H4, L1, L2, L3.
  split; [|split; [|split; [|split]]].
  - intros H%H1. lia.
  - intros H%H2. lia.
  - intros H%H3. lia.
  - intros H. by apply H4.
  - exact Hcap.
Qed.

Lemma C2_cascade_gates_witness :
  Linked ∈ invoked (extract_organizations_from_page
                      finds_nothing finds_nothing finds_nothing finds_nothing (Text "") "" 10)
  ∧ (10 * Z.of_nat
            (length (remove_duplicates
                       (after_heading_based finds_nothing finds_nothing finds_nothing
                          (Text "") "" 10)))
     < 7 * 10)%Z.
Proof.
  assert (Linked ∈ invoked (extract_organizations_from_page
                              finds_nothing finds_nothing finds_nothing finds_nothing
                              (Text "") "" 10)) as H
    by (vm_compute; repeat constructor).
  split; [exact H|].
  exact (proj1 (proj2 (proj2 (C2_cascade_gates finds_nothing finds_nothing finds_nothing
                                finds_nothing (Text "") "" 10))) H).
Defined.

(** ** The email extractor *)

Section EmailSelection.

Implicit Types (emails acc : list string) (email : string).

Lemma filter_step_eq acc email :
  filter_step acc email
  = if blacklisted email then acc
    else if org_related email then email :: acc else acc ++ [email].
Proof. unfold filter_step, blacklisted, org_related. by destruct (Py.any_in skip_patterns _). Qed.

Lemma kept_front_cons email emails :
  kept_front (email :: emails)
  = if negb (blacklisted email) && org_related email
    then email :: kept_front emails else kept_front emails.
Proof. reflexivity. Qed.

Lemma kept_back_cons email emails :
  kept_back (email :: emails)
  = if negb (blacklisted email) && negb (org_related email)
    then email :: kept_back emails else kept_back emails.
Proof. reflexivity. Qed.

Lemma filter_step_loop emails : forall acc,
  foldl filter_step acc emails = reverse (kept_front emails) ++ acc ++ kept_back emails.
Proof.
  induction emails as [|e emails IH]; intros acc.
  - cbn. by rewrite app_nil_r.
  - cbn [foldl]. rewrite IH, filter_step_eq, kept_front_cons, kept_back_cons.
    destruct (blacklisted e), (org_related e); cbn [negb andb]; try done.
    + by rewrite reverse_cons, <- !app_assoc.
    + by rewrite <- !app_assoc.
Qed.

Lemma survivors_split emails :
  List.filter org_related (List.filter (fun e => negb (blacklisted e)) emails)
  = kept_front emails.
Proof.
  unfold kept_front. induction emails as [|e emails IH]; simpl; [done|].
  destruct (blacklisted e); simpl; [done|].
  destruct (org_related e); simpl; by rewrite IH.
Qed.

Lemma survivors_generic emails :
  kept_front emails = [] ->
  kept_back emails = List.filter (fun e => negb (blacklisted e)) emails.
Proof.
  unfold kept_front, kept_back. induction emails as [|e emails IH]; simpl; [done|].
  destruct (blacklisted e), (org_related e); simpl; try done.
  intros H. by rewrite IH.
Qed.

Lemma select_email_spec emails :
  select_email emails
  = match last (kept_front emails) with
    | Some e => e
    | None => default EmptyString (head (List.filter (fun e => negb (blacklisted e)) emails))
    end.
Proof.
  unfold select_email. rewrite filter_step_loop. simpl.
  destruct (kept_front emails) as [|e front] eqn:E using rev_ind.
  - simpl. by rewrite survivors_generic.
  - rewrite last_snoc, reverse_app. done.
Qed.

Lemma select_email_not_blacklisted emails : blacklisted (select_email emails) = false.
Proof.
  rewrite select_email_spec.
  destruct (last (kept_front emails)) as [e|] eqn:E.
  - apply last_Some_elem_of, list_elem_of_In in E. unfold kept_front in E.
    apply filter_In in E as [_ E]. apply andb_true_iff in E as [E _].
    by apply negb_true_iff.
  - destruct (List.filter _ emails) as [|e l] eqn:E'; simpl; [done|].
    assert (In e (List.filter (fun e => negb (blacklisted e)) emails)) as H
      by (rewrite E'; by left).
    apply filter_In in H as [_ H]. by apply negb_true_iff.
Qed.

End EmailSelection.

(** C7, counterexample: an address whose local part is "admin" is a match
    that contains "admin@", yet it survives and is returned, the blacklist
    entry being "admin@university"; and an address whose local part holds no
    organization token is promoted ahead of an earlier survivor because its
    domain ends in ".org". *)
Lemma C7_blacklist_counterexample :
  Py.contains "admin@" (Py.lower "admin@bhsu.edu") = true
  ∧ _extract_email_from_text "Contact admin@bhsu.edu" = "admin@bhsu.edu"
  ∧ Py.any_in org_terms (Py.lower "bob") = false
  ∧ _extract_email_from_text "jane@x.edu or bob@y.org" = "bob@y.org".
Proof. vm_compute. repeat split. Qed.

(** C7, as amended: the extractor drops every match whose lower-cased address
    contains one of noreply, webmaster, admin@university, support@university,
    info@example; a surviving match is promoted when its lower-cased address,
    local part or domain, contains one of student, club, org, group, society,
    each promoted match being put in front of the earlier ones; the result is
    the last promoted survivor of the text when there is one, otherwise the
    first survivor, otherwise the empty string; it is never blacklisted. *)
Theorem C7_email_selection (text : string) :
  let survivors :=
    List.filter (fun e => negb (blacklisted e)) (clean_email <$> all_emails text) in
  let promoted := List.filter org_related survivors in
  _extract_email_from_text text
  = match last promoted with
    | Some email => email
    | None => default EmptyString (head survivors)
    end
  ∧ blacklisted (_extract_email_from_text text) = false.
Proof.
  intros survivors promoted. unfold _extract_email_from_text. split.
  - rewrite select_email_spec. unfold promoted, survivors. by rewrite survivors_split.
  - apply select_email_not_blacklisted.
Qed.

(** ** The phone extractor *)

Section Phones.

Implicit Types (p d s : string).

Lemma filter_forallb (cls : ascii -> bool) s : Py.forallb cls (Py.filter cls s) = true.
Proof.
  induction s as [|c s IH]; simpl; [done|].
  destruct (cls c) eqn:E; simpl; [by rewrite E|done].
Qed.

Lemma digits_of_decimal p : Py.forallb Py.isdecimal (digits_of p) = true.
Proof. apply filter_forallb. Qed.

Lemma canonical_of_digits d :
  String.length d = 10 -> Py.forallb Py.isdecimal d = true ->
  digits_of (canonical_of d) = d.
Proof.
  intros Hlen Hdec.
  do 10 (destruct d as [|? d]; [discriminate Hlen|]).
  destruct d; [|discriminate Hlen].
  cbn [Py.forallb] in Hdec. repeat (apply andb_true_iff in Hdec as [? Hdec]).
  cbv -[Py.isdecimal].
  repeat match goal with H : Py.isdecimal _ = true |- _ => rewrite H; clear H end.
  reflexivity.
Qed.

Lemma canonical_of_canonical d :
  String.length d = 10 -> Py.forallb Py.isdecimal d = true ->
  canonical_phone (canonical_of d) = true.
Proof.
  intros Hlen Hdec. unfold canonical_phone.
  rewrite canonical_of_digits by done.
  rewrite Hlen, String.eqb_refl. reflexivity.
Qed.

Lemma drop_length n s : String.length (Py.drop n s) = String.length s - n.
Proof.
  revert s. induction n as [|n IH]; intros [|c s]; simpl; done.
Qed.

Lemma drop_forallb (cls : ascii -> bool) n s :
  Py.forallb cls s = true -> Py.forallb cls (Py.drop n s) = true.
Proof.
  revert s. induction n as [|n IH]; intros [|c s]; simpl; try done.
  intros [_ H]%andb_true_iff. by apply IH.
Qed.

(** [format_phone] either leaves its argument alone or renders ten digits. *)
Lemma format_phone_cases p :
  EnhancedScraper.format_phone p = p
  ∨ exists d, String.length d = 10 ∧ Py.forallb Py.isdecimal d = true
              ∧ EnhancedScraper.format_phone p = canonical_of d.
Proof.
  unfold EnhancedScraper.format_phone.
  destruct (String.length (digits_of p) =? 10) eqn:E10.
  - right. exists (digits_of p). apply Nat.eqb_eq in E10.
    split; [done|]. split; [apply digits_of_decimal | done].
  - destruct ((String.length (digits_of p) =? 11) && Py.startswith "1" (digits_of p)) eqn:E11;
      [|by left].
    right. exists (Py.drop 1 (digits_of p)).
    apply andb_true_iff in E11 as [E11%Nat.eqb_eq _].
    split; [rewrite drop_length, E11; done|].
    split; [apply drop_forallb, digits_of_decimal|].
    destruct (digits_of p) as [|c d]; [done|]. reflexivity.
Qed.

Lemma format_phone_ten p :
  String.length (digits_of p) = 10 ->
  canonical_phone (EnhancedScraper.format_phone p) = true.
Proof.
  intros H. unfold EnhancedScraper.format_phone.
  rewrite H. cbn [Nat.eqb]. apply canonical_of_canonical; [done | apply digits_of_decimal].
Qed.

Lemma format_phone_idempotent p :
  EnhancedScraper.format_phone (EnhancedScraper.format_phone p)
  = EnhancedScraper.format_phone p.
Proof.
  destruct (format_phone_cases p) as [E | (d & Hlen & Hdec & ->)]; [by rewrite !E|].
  unfold EnhancedScraper.format_phone.
  rewrite canonical_of_digits by done. by rewrite Hlen.
Qed.

Lemma phone_cascade_spec (patterns : list Re.pattern) (text : string) :
  (exists before pattern after first rest,
      patterns = before ++ pattern :: after
      ∧ Forall (first_match_rejected text) before
      ∧ Re.findall pattern text = first :: rest
      ∧ String.length (digits_of (Py.strip first)) = 10
      ∧ phone_cascade patterns text = Py.strip first)
  ∨ (Forall (first_match_rejected text) patterns ∧ phone_cascade patterns text = "").
Proof.
  induction patterns as [|q patterns IH]; cbn [phone_cascade].
  - right. split; [constructor | done].
  - destruct (Re.findall q text) as [|first rest] eqn:Ef.
    + destruct IH as [(before & pat & after & f & r & -> & Hb & Hf & Hlen & Hr) | [Hall Hr]].
      * left. exists (q :: before), pat, after, f, r.
        repeat split; try done. constructor; [|done].
        unfold first_match_rejected. by rewrite Ef.
      * right. split; [|done]. constructor; [|done].
        unfold first_match_rejected. by rewrite Ef.
    + destruct (String.length (digits_of (Py.strip first)) =? 10) eqn:E10.
      * left. exists [], q, patterns, first, rest. apply Nat.eqb_eq in E10.
        repeat split; try done.
      * apply Nat.eqb_neq in E10.
        destruct IH as [(before & pat & after & f & r & -> & Hb & Hf & Hlen & Hr) | [Hall Hr]].
        -- left. exists (q :: before), pat, after, f, r.
           repeat split; try done. constructor; [|done].
           unfold first_match_rejected. by rewrite Ef.
        -- right. split; [|done]. constructor; [|done].
           unfold first_match_rejected. by rewrite Ef.
Qed.

Lemma first_tel_canonical (links : list string) p :
  EnhancedScraper.first_tel links = Some p -> canonical_phone p = true.
Proof.
  induction links as [|href links IH]; cbn [EnhancedScraper.first_tel]; [done|].
  destruct (Py.startswith "tel:" href
            && (String.length (digits_of (Py.replace "tel:" "" href)) =? 10)) eqn:E; [|done].
  intros [= <-]. apply andb_true_iff in E as [_ E%Nat.eqb_eq].
  by apply format_phone_ten.
Qed.

Lemma first_ten_digits_canonical (phones : list string) p :
  EnhancedScraper.first_ten_digits phones = Some p -> canonical_phone p = true.
Proof.
  induction phones as [|phone phones IH]; cbn [EnhancedScraper.first_ten_digits]; [done|].
  destruct (String.length (digits_of phone) =? 10) eqn:E; [|done].
  intros [= <-]. apply Nat.eqb_eq in E. by apply format_phone_ten.
Qed.

Lemma enhanced_cascade_canonical (patterns : list Re.pattern) (text : string) :
  EnhancedScraper.phone_cascade patterns text = ""
  ∨ canonical_phone (EnhancedScraper.phone_cascade patterns text) = true.
Proof.
  induction patterns as [|q patterns IH]; cbn [EnhancedScraper.phone_cascade]; [by left|].
  destruct (EnhancedScraper.first_ten_digits _) as [p|] eqn:E; [|done].
  right. by apply first_ten_digits_canonical in E.
Qed.

End Phones.

(** C5, counterexample: the number is found, it has ten digits, and it is
    returned with the separators of the text, not as (555) 123-4567. *)
Lemma C5_raw_match_counterexample :
  _extract_phone_from_text "Call 555-123-4567 today" = "555-123-4567"
  ∧ canonical_phone "555-123-4567" = false
  ∧ canonical_phone "(555) 123-4567" = true.
Proof. vm_compute. repeat split. Qed.

(** C5, as amended: [_extract_phone_from_text] tries its patterns in order and
    returns, stripped, the first match of the first pattern whose first match
    has exactly ten digits, with the separators it has in the text, or the
    empty string when no pattern has such a first match; [format_phone] turns
    every such result into the canonical form (XXX) XXX-XXXX and is
    idempotent; [extract_enhanced_phone], which formats what it finds, only
    returns canonical numbers or the empty string. *)
Theorem C5_phone_extraction (text phone : string) (soup : node) :
  ((exists before pattern after first rest,
       phone_patterns = before ++ pattern :: after
       ∧ Forall (first_match_rejected text) before
       ∧ Re.findall pattern text = first :: rest
       ∧ String.length (digits_of (Py.strip first)) = 10
       ∧ _extract_phone_from_text text = Py.strip first
       ∧ canonical_phone (EnhancedScraper.format_phone (_extract_phone_from_text text)) = true)
   ∨ (Forall (first_match_rejected text) phone_patterns
      ∧ _extract_phone_from_text text = ""))
  ∧ EnhancedScraper.format_phone (EnhancedScraper.format_phone phone)
    = EnhancedScraper.format_phone phone
  ∧ (EnhancedScraper.extract_enhanced_phone text soup = ""
     ∨ canonical_phone (EnhancedScraper.extract_enhanced_phone text soup) = true).
Proof.
  split; [|split].
  - unfold _extract_phone_from_text.
    destruct (phone_cascade_spec phone_patterns text)
      as [(before & pat & after & f & r & Hp & Hb & Hf & Hlen & Hr) | H]; [|by right].
    left. exists before, pat, after, f, r. repeat split; try done.
    rewrite Hr. by apply format_phone_ten.
  - apply format_phone_idempotent.
  - unfold EnhancedScraper.extract_enhanced_phone.
    destruct (EnhancedScraper.first_tel _) as [p|] eqn:E.
    + right. by apply first_tel_canonical in E.
    + apply enhanced_cascade_canonical.
Qed.

(** ** Addresses in links *)

Fixpoint get_text_without_attrs (n : node) : get_text (without_attrs n) = get_text n.
Proof.
  destruct n as [s|tag attrs children]; [reflexivity|].
  cbn [without_attrs get_text].
  induction children as [|c children IH]; [reflexivity|].
  cbn [map]. rewrite (get_text_without_attrs c), IH. reflexivity.
Qed.

Lemma first_mailto_spec (before after : list string) (href : string) :
  Forall (fun h => Py.startswith "mailto:" h
                   && EnhancedScraper.is_valid_email (EnhancedScraper.mailto_address h) = false)
         before ->
  Py.startswith "mailto:" href = true ->
  EnhancedScraper.is_valid_email (EnhancedScraper.mailto_address href) = true ->
  EnhancedScraper.first_mailto (before ++ href :: after)
  = Some (EnhancedScraper.mailto_address href).
Proof.
  intros Hb Hs Hv. induction Hb as [|h before Hh Hb IH]; cbn [app EnhancedScraper.first_mailto].
  - by rewrite Hs, Hv.
  - by rewrite Hh.
Qed.

(** C6, counterexample: the record builder of the scraper reads the text of
    the container only.  For a container that holds a [mailto:] link with a
    valid address and another address in its text, the record's email is the
    address of the text; for the container of the scenario, whose only
    address is in the link, the record has no email. *)
Lemma C6_builder_ignores_mailto_counterexample :
  hrefs biology_container = ["mailto:biology@bhsu.edu"]
  ∧ EnhancedScraper.is_valid_email "biology@bhsu.edu" = true
  ∧ details_email biology_container (Some (Element "body" [] [biology_container]))
    = "other@bhsu.edu"
  ∧ hrefs biology_scenario = ["mailto:biology@bhsu.edu"]
  ∧ details_email biology_scenario (Some (Element "body" [] [biology_scenario])) = "".
Proof. vm_compute. repeat split. Qed.

(** C6, as amended: in [extract_enhanced_email], the function of the page
    enhancer that looks at links, the address of the first [mailto:] link of
    the document whose address is valid is returned, whatever addresses the
    text of the page holds.  The record builder of the scraper
    ([_extract_email] and the parent fallback of
    [_extract_organization_details]) does not look at links: its email is
    the same when every attribute of the container and of its parent is
    erased. *)
Theorem C6_mailto_precedence (page_text : string) (soup container : node)
    (parent : option node) (before after : list string) (href : string) :
  EnhancedScraper.mailto_links soup = before ++ href :: after ->
  Forall (fun h => Py.startswith "mailto:" h
                   && EnhancedScraper.is_valid_email (EnhancedScraper.mailto_address h) = false)
         before ->
  Py.startswith "mailto:" href = true ->
  EnhancedScraper.is_valid_email (EnhancedScraper.mailto_address href) = true ->
  EnhancedScraper.extract_enhanced_email page_text soup = EnhancedScraper.mailto_address href
  ∧ details_email (without_attrs container) (without_attrs <$> parent)
    = details_email container parent.
Proof.
  intros Hlinks Hb Hs Hv. split.
  - unfold EnhancedScraper.extract_enhanced_email.
    by rewrite Hlinks, first_mailto_spec.
  - unfold details_email, _extract_email.
    rewrite get_text_without_attrs.
    destruct parent as [p|]; cbn [fmap option_fmap option_map default id];
      by rewrite get_text_without_attrs.
Qed.

Lemma C6_mailto_precedence_witness :
  EnhancedScraper.mailto_links biology_container = [] ++ "mailto:biology@bhsu.edu" :: []
  ∧ EnhancedScraper.extract_enhanced_email (get_text biology_container) biology_container
    = "biology@bhsu.edu".
Proof.
  assert (EnhancedScraper.mailto_links biology_container
          = [] ++ "mailto:biology@bhsu.edu" :: []) as H by (vm_compute; reflexivity).
  split; [exact H|].
  refine (proj1 (C6_mailto_precedence (get_text biology_container) biology_container
                   biology_container None [] [] "mailto:biology@bhsu.edu" H _ _ _)).
  - constructor.
  - vm_compute; reflexivity.
  - vm_compute; reflexivity.
Defined.

(** * Further properties *)

(** ** De-duplication across sources *)

Section DedupFurther.

Implicit Types (seen : gset string) (l : list org) (o : org).

Lemma first_occurrences_app l1 l2 : forall seen,
  first_occurrences seen (l1 ++ l2)
  = first_occurrences seen l1
    ++ first_occurrences
         (list_to_set (normalized_name <$> first_occurrences seen l1) ∪ seen) l2.
Proof.
  induction l1 as [|x l1 IH]; intros seen; cbn [app first_occurrences].
  - f_equal. rewrite fmap_nil. set_solver.
  - destruct (admits seen x) eqn:E.
    + rewrite IH. cbn [app]. do 3 f_equal.
      rewrite fmap_cons, list_to_set_cons. set_solver.
    + apply IH.
Qed.

Lemma first_occurrences_names_in l : forall seen o,
  o ∈ first_occurrences seen l -> o ∈ l.
Proof.
  induction l as [|x l IH]; intros seen o; cbn [first_occurrences]; [done|].
  destruct (admits seen x).
  - intros [->|H]%elem_of_cons; [by left | right; by eapply IH].
  - intros H. right. by eapply IH.
Qed.

End DedupFurther.

(** X1: no organization is lost by the removal of duplicates, and no nameless
    record is kept: every input record whose normalized name is not empty has
    a record with the same normalized name in the output, and every output
    record has a non-empty normalized name. *)
Theorem dedup_keeps_every_name (organizations : list org) :
  Forall (fun o => normalized_name o ≠ ""
                   -> exists o', o' ∈ remove_duplicates organizations
                                 ∧ normalized_name o' = normalized_name o)
         organizations
  ∧ Forall (fun o => normalized_name o ≠ "") (remove_duplicates organizations).
Proof.
  rewrite remove_duplicates_first_occurrences. split.
  - apply Forall_forall. intros o Ho Hne.
    apply first_occurrences_complete; [done | done | set_solver].
  - apply Forall_forall. intros o Ho. by apply first_occurrences_fresh in Ho as [? _].
Qed.

Section SaveFacts.

Implicit Types (seen : gset string) (l rows : list org) (o : org).

(** Only the names that are not empty matter in the set of the names seen. *)
Lemma first_occurrences_ext l : forall seen seen',
  (forall n, n ≠ "" -> n ∈ seen <-> n ∈ seen') ->
  first_occurrences seen l = first_occurrences seen' l.
Proof.
  induction l as [|x l IH]; intros seen seen' H; cbn [first_occurrences]; [done|].
  assert (admits seen x = admits seen' x) as ->.
  { unfold admits. destruct (normalized_name x) as [|c n] eqn:E; [done|].
    cbn [Py.is_empty negb andb]. apply bool_decide_ext.
    by rewrite (H (String c n)). }
  destruct (admits seen' x) eqn:E; [|by apply IH].
  f_equal. apply IH. intros n Hn. by rewrite !elem_of_union, (H n Hn).
Qed.

Lemma named_rows_named rows :
  EnhancedOrganizationDetector.named_rows (EnhancedOrganizationDetector.Named <$> rows)
  = Some rows.
Proof.
  induction rows as [|o rows IH]; [done|].
  rewrite fmap_cons. cbn [EnhancedOrganizationDetector.named_rows]. by rewrite IH.
Qed.

Lemma named_rows_unnamed (existing_orgs : list EnhancedOrganizationDetector.existing_row) :
  In EnhancedOrganizationDetector.Unnamed existing_orgs ->
  EnhancedOrganizationDetector.named_rows existing_orgs = None.
Proof.
  induction existing_orgs as [|[o|] existing_orgs IH]; [done | | done].
  intros [H | H]; [done|]. cbn [EnhancedOrganizationDetector.named_rows].
  by rewrite (IH H).
Qed.

(** The loop on the existing rows followed by the new records. *)
Lemma remove_duplicates_existing_first rows l :
  remove_duplicates (rows ++ l)
  = remove_duplicates rows
    ++ first_occurrences (list_to_set (normalized_name <$> rows)) l.
Proof.
  rewrite !remove_duplicates_first_occurrences, first_occurrences_app. f_equal.
  apply first_occurrences_ext. intros n Hn.
  rewrite elem_of_union, !elem_of_list_to_set, !list_elem_of_fmap. split.
  - intros [(o & -> & Ho) | H]; [|set_solver].
    exists o. split; [done | by eapply first_occurrences_names_in].
  - intros (o & -> & Ho). left.
    destruct (first_occurrences_complete rows ∅ o) as (o' & Ho' & Hn');
      [done | done | set_solver |].
    by exists o'.
Qed.

End SaveFacts.

(** X2: when [save_enhanced_data] merges new records into a university's
    file, the existing rows win.  If the name of an existing row is not text
    the call fails and nothing is written.  Otherwise the list written is
    the de-duplicated existing rows followed by the new records the loop
    keeps when the names of the existing rows are already seen: they are
    new records, in their order, whose normalized names no existing row
    bears, and every new record with a normalized name that is not empty and
    that no existing row bears has its name among them. *)
Theorem save_enhanced_data_existing_first
    (existing_orgs : list EnhancedOrganizationDetector.existing_row) (new_orgs : list org) :
  new_orgs ≠ [] ->
  (In EnhancedOrganizationDetector.Unnamed existing_orgs ->
   EnhancedOrganizationDetector.save_enhanced_data existing_orgs new_orgs
   = EnhancedOrganizationDetector.Fails)
  ∧ (forall rows,
       existing_orgs = EnhancedOrganizationDetector.Named <$> rows ->
       exists added,
         EnhancedOrganizationDetector.save_enhanced_data existing_orgs new_orgs
         = EnhancedOrganizationDetector.Written (remove_duplicates rows ++ added)
         ∧ added = first_occurrences (list_to_set (normalized_name <$> rows)) new_orgs
         ∧ added `sublist_of` new_orgs
         ∧ Forall (fun o => normalized_name o ∉ (normalized_name <$> rows)) added
         ∧ Forall (fun o =>
                     normalized_name o ≠ "" ->
                     normalized_name o ∉ (normalized_name <$> rows) ->
                     normalized_name o ∈ (normalized_name <$> added))
                  new_orgs).
Proof.
  intros Hne. destruct new_orgs as [|n new_orgs]; [done|].
  unfold EnhancedOrganizationDetector.save_enhanced_data. split.
  - intros H. by rewrite (named_rows_unnamed _ H).
  - intros rows ->. rewrite named_rows_named, remove_duplicates_existing_first.
    eexists. split; [reflexivity|]. split; [reflexivity|].
    split; [apply first_occurrences_sublist|]. split.
    + apply Forall_forall. intros o Ho.
      apply first_occurrences_fresh in Ho as [_ Ho].
      by rewrite elem_of_list_to_set in Ho.
    + apply Forall_forall. intros o Ho Hn Hfresh.
      destruct (first_occurrences_complete (n :: new_orgs)
                  (list_to_set (normalized_name <$> rows)) o) as (o' & Ho' & Hn');
        [done | done | by rewrite elem_of_list_to_set |].
      apply list_elem_of_fmap. by exists o'.
Qed.

Lemma save_enhanced_data_existing_first_witness :
  [chess_with_phone] ≠ []
  ∧ exists added,
      EnhancedOrganizationDetector.save_enhanced_data
        [EnhancedOrganizationDetector.Named chess_with_email] [chess_with_phone]
      = EnhancedOrganizationDetector.Written (remove_duplicates [chess_with_email] ++ added)
      ∧ added
        = first_occurrences (list_to_set (normalized_name <$> [chess_with_email]))
            [chess_with_phone].
Proof.
  assert ([chess_with_phone] ≠ []) as H by discriminate.
  split; [exact H|].
  destruct (proj2 (save_enhanced_data_existing_first
                     [EnhancedOrganizationDetector.Named chess_with_email]
                     [chess_with_phone] H) [chess_with_email] eq_refl)
    as (added & Hsave & Hadded & _).
  by exists added.
Defined.

(** ** The cascade as a whole *)

Section CascadeFurther.

Variables s1 s2 s3 s4 : node -> string -> list org.
Variables (soup : node) (base_url : string) (expected_count : Z).

Lemma after_list_based_length :
  length (after_structured s1 soup base_url)
  <= length (after_list_based s1 s2 soup base_url expected_count).
Proof.
  unfold after_list_based. destruct (runs_list_based _ _ _ _); [|done].
  rewrite length_app. lia.
Qed.

Lemma after_heading_based_length :
  length (after_list_based s1 s2 soup base_url expected_count)
  <= length (after_heading_based s1 s2 s3 soup base_url expected_count).
Proof.
  unfold after_heading_based. destruct (runs_heading_based _ _ _ _ _); [|done].
  rewrite length_app. lia.
Qed.

Lemma cond_app_sublist (b : bool) (l l' k : list org) :
  l `sublist_of` l' -> (if b then l ++ k else l) `sublist_of` l' ++ k.
Proof.
  intros H. destruct b; [by apply sublist_app | by apply sublist_inserts_r].
Qed.

Lemma after_linked_sublist :
  after_linked s1 s2 s3 s4 soup base_url expected_count
  `sublist_of` s1 soup base_url ++ s2 soup base_url ++ s3 soup base_url ++ s4 soup base_url.
Proof.
  rewrite !app_assoc.
  unfold after_linked, after_heading_based, after_list_based, after_structured.
  by do 3 apply cond_app_sublist.
Qed.

End CascadeFurther.

(** X3: the cascade never skips a step: the heading strategy is invoked only
    after the list-item strategy was, and the linked-page strategy only after
    the heading strategy was; once a gate is found closed, only the raw-text
    fallback can still run. *)
Theorem cascade_runs_an_initial_segment (s1 s2 s3 s4 : node -> string -> list org)
    (soup : node) (base_url : string) (expected_count : Z) :
  let result := extract_organizations_from_page s1 s2 s3 s4 soup base_url expected_count in
  (HeadingBased ∈ invoked result -> ListBased ∈ invoked result)
  ∧ (Linked ∈ invoked result -> HeadingBased ∈ invoked result).
Proof.
  intros result. unfold result.
  rewrite invoked_list_based, invoked_heading_based, invoked_linked.
  unfold runs_linked, runs_heading_based, runs_list_based,
    below_half, below_three_tenths.
  rewrite !Z.ltb_lt.
  pose proof (after_list_based_length s1 s2 soup base_url expected_count).
  pose proof (after_heading_based_length s1 s2 s3 soup base_url expected_count).
  lia.
Qed.

(** X4: with an expected count of zero or less, only the structured strategy
    is invoked, not even the raw-text fallback, and the result is what that
    strategy found, without its duplicates. *)
Theorem nothing_expected_only_structured (s1 s2 s3 s4 : node -> string -> list org)
    (soup : node) (base_url : string) (expected_count : Z) :
  (expected_count <= 0)%Z ->
  extract_organizations_from_page s1 s2 s3 s4 soup base_url expected_count
  = {| invoked := [Structured];
       unique_organizations := remove_duplicates (s1 soup base_url) |}.
Proof.
  intros He.
  assert (forall n, below_half n expected_count = false) as Hh
    by (intros n; apply Z.ltb_ge; lia).
  assert (forall n, below_three_tenths n expected_count = false) as Ht
    by (intros n; apply Z.ltb_ge; lia).
  unfold extract_organizations_from_page, runs_general_content, after_dedup,
    after_linked, runs_linked, after_heading_based, runs_heading_based,
    after_list_based, runs_list_based.
  by rewrite !Hh, !Ht.
Qed.

Lemma nothing_expected_only_structured_witness :
  (0 <= 0)%Z
  ∧ extract_organizations_from_page
      finds_five_clubs finds_film_society finds_nothing finds_nothing (Text "") "" 0
    = {| invoked := [Structured];
         unique_organizations := remove_duplicates (finds_five_clubs (Text "") "") |}.
Proof.
  assert (0 <= 0)%Z as H by lia.
  split; [exact H|].
  exact (nothing_expected_only_structured
           finds_five_clubs finds_film_society finds_nothing finds_nothing (Text "") "" 0 H).
Defined.

(** X5: the records of the document strategies are never displaced by the
    raw-text fallback: the returned list is the de-duplicated list of the
    first four steps, followed by fallback records in their order (none when
    the fallback is not invoked); and the first four steps only contribute
    what the strategies returned. *)
Theorem fallback_records_come_last (s1 s2 s3 s4 : node -> string -> list org)
    (soup : node) (base_url : string) (expected_count : Z) :
  let result := extract_organizations_from_page s1 s2 s3 s4 soup base_url expected_count in
  let found := after_linked s1 s2 s3 s4 soup base_url expected_count in
  found `sublist_of`
    s1 soup base_url ++ s2 soup base_url ++ s3 soup base_url ++ s4 soup base_url
  ∧ exists added,
      unique_organizations result = remove_duplicates found ++ added
      ∧ added `sublist_of` _extract_from_general_content soup base_url
      ∧ (GeneralContent ∈ invoked result ∨ added = []).
Proof.
  intros result found. split; [apply after_linked_sublist|].
  unfold result. setoid_rewrite invoked_general_content.
  unfold extract_organizations_from_page; cbn [unique_organizations].
  destruct (runs_general_content _ _ _ _ _ _ _) eqn:E.
  - exists (first_occurrences
              (list_to_set (normalized_name <$> first_occurrences ∅ found) ∪ ∅)
              (_extract_from_general_content soup base_url)).
    split; [|split; [apply first_occurrences_sublist | by left]].
    unfold after_dedup. rewrite <- dedup_loop_app.
    change (remove_duplicates (found ++ _extract_from_general_content soup base_url)
            = remove_duplicates found
              ++ first_occurrences
                   (list_to_set (normalized_name <$> first_occurrences ∅ found) ∪ ∅)
                   (_extract_from_general_content soup base_url)).
    by rewrite !remove_duplicates_first_occurrences, first_occurrences_app.
  - exists []. rewrite app_nil_r. split; [done|]. split; [apply sublist_nil_l | by right].
Qed.

(** ** More on strings *)

Section StringsFurther.

Implicit Types (s t : string) (c : ascii).

Lemma isspace_lower_char c : Py.isspace (Py.lower_char c) = Py.isspace c.
Proof. destruct c as [[] [] [] [] [] [] [] []]; reflexivity. Qed.

Lemma lower_char_idempotent c : Py.lower_char (Py.lower_char c) = Py.lower_char c.
Proof. destruct c as [[] [] [] [] [] [] [] []]; reflexivity. Qed.

Lemma isdigit_lower_char c : Py.isdigit_char (Py.lower_char c) = Py.isdigit_char c.
Proof. destruct c as [[] [] [] [] [] [] [] []]; reflexivity. Qed.

Lemma lower_idempotent s : Py.lower (Py.lower s) = Py.lower s.
Proof. induction s as [|c s IH]; simpl; [done|]. by rewrite lower_char_idempotent, IH. Qed.

Lemma lower_is_empty s : Py.is_empty (Py.lower s) = Py.is_empty s.
Proof. by destruct s. Qed.

Lemma lower_append s t : Py.lower (s +:+ t) = Py.lower s +:+ Py.lower t.
Proof.
  induction s as [|c s IH]; [done|].
  change (Py.lower (String c (s +:+ t))
          = String (Py.lower_char c) (Py.lower s +:+ Py.lower t)).
  cbn [Py.lower]. by rewrite IH.
Qed.

Lemma lstrip_lower s : Py.lstrip (Py.lower s) = Py.lower (Py.lstrip s).
Proof.
  induction s as [|c s IH]; [done|].
  cbn [Py.lower Py.lstrip]. rewrite isspace_lower_char.
  by destruct (Py.isspace c).
Qed.

Lemma rstrip_lower s : Py.rstrip (Py.lower s) = Py.lower (Py.rstrip s).
Proof.
  induction s as [|c s IH]; [done|].
  cbn [Py.lower Py.rstrip]. rewrite IH, isspace_lower_char, lower_is_empty.
  by destruct (Py.isspace c && Py.is_empty (Py.rstrip s)).
Qed.

Lemma strip_lower s : Py.strip (Py.lower s) = Py.lower (Py.strip s).
Proof. unfold Py.strip. by rewrite lstrip_lower, rstrip_lower. Qed.

Lemma rstrip_idempotent s : Py.rstrip (Py.rstrip s) = Py.rstrip s.
Proof.
  induction s as [|c s IH]; [done|].
  cbn [Py.rstrip].
  destruct (Py.isspace c && Py.is_empty (Py.rstrip s)) eqn:E; [done|].
  cbn [Py.rstrip]. by rewrite IH, E.
Qed.

Lemma lstrip_starts s : Py.lstrip s = EmptyString ∨ starts_nonspace (Py.lstrip s) = true.
Proof.
  induction s as [|c s IH]; [by left|].
  cbn [Py.lstrip]. destruct (Py.isspace c) eqn:E; [done|].
  right. cbn. by rewrite E.
Qed.

Lemma lstrip_of_starts s : starts_nonspace s = true -> Py.lstrip s = s.
Proof.
  destruct s as [|c s]; [done|]. cbn. intros H%negb_true_iff. by rewrite H.
Qed.

Lemma rstrip_starts s : starts_nonspace s = true -> starts_nonspace (Py.rstrip s) = true.
Proof.
  destruct s as [|c s]; [done|]. cbn [starts_nonspace Py.rstrip].
  intros H. rewrite (proj1 (negb_true_iff _) H). done.
Qed.

Lemma strip_idempotent s : Py.strip (Py.strip s) = Py.strip s.
Proof.
  unfold Py.strip. destruct (lstrip_starts s) as [-> | H]; [done|].
  rewrite (lstrip_of_starts (Py.rstrip _)) by by apply rstrip_starts.
  apply rstrip_idempotent.
Qed.

End StringsFurther.

(** ** The raw-text fallback *)

Lemma content_lines_stripped (text_content line : string) :
  In line (content_lines text_content) -> Py.strip line = line.
Proof.
  unfold content_lines. intros [Hin _]%filter_In.
  apply list_elem_of_In, list_elem_of_fmap in Hin as (piece & -> & _).
  apply strip_idempotent.
Qed.

Lemma likely_name_no_skip_term (text : string) :
  _is_likely_organization_name text = true ->
  Py.any_in ComprehensiveUniversityScraper.skip_terms (Py.strip (Py.lower text)) = false.
Proof.
  unfold _is_likely_organization_name.
  destruct (_ || _ || _); [done|].
  by destruct (Py.any_in ComprehensiveUniversityScraper.skip_terms _).
Qed.

Section RawText.

Context {A : Type}.

Implicit Types (keep : string -> bool) (lines : list string) (n : nat).

Lemma list_filter_sublist keep lines : List.filter keep lines `sublist_of` lines.
Proof.
  induction lines as [|line lines IH]; cbn [List.filter]; [done|].
  destruct (keep line); [by apply sublist_skip | by apply sublist_cons].
Qed.

(** The names of the first [n] records built from the kept lines are the
    first [n] kept lines. *)
Lemma names_of_kept_lines (build : string -> A) (name : A -> string) keep lines n :
  (forall line, name (build line) = line) ->
  name <$> take n (build <$> List.filter keep lines) = take n (List.filter keep lines).
Proof.
  intros Hname. rewrite fmap_take, <- list_fmap_compose.
  f_equal. induction (List.filter keep lines) as [|line l IH]; [done|].
  rewrite fmap_cons, IH. cbn. by rewrite Hname.
Qed.

Lemma take_below_cap (l : list string) n : length (take n l) < n -> take n l = l.
Proof. rewrite length_take. intros H. apply take_ge. lia. Qed.

End RawText.

(** X6: the records of the raw-text fallback are records of lines of the
    page.  Their names are lines of the page's text, in the order of the
    page; each record has for name a line that is trimmed, shorter than 150
    characters and accepted by the name predicate, so free of every
    disallowed term; its link is the page URL, its category the
    classification of the name alone, and all its other fields are empty.
    There are at most 50 records, and when there are fewer, no line of the
    page that is accepted and shorter than 150 characters is left out. *)
Theorem general_content_records (soup : node) (base_url : string) :
  Organization_Name <$> _extract_from_general_content soup base_url
    `sublist_of` content_lines (get_text soup)
  ∧ Forall (fun o =>
              o = general_org base_url (Organization_Name o)
              ∧ _is_likely_organization_name (Organization_Name o) = true
              ∧ String.length (Organization_Name o) < 150
              ∧ Py.strip (Organization_Name o) = Organization_Name o
              ∧ Py.any_in ComprehensiveUniversityScraper.skip_terms
                  (Py.lower (Organization_Name o)) = false)
           (_extract_from_general_content soup base_url)
  ∧ length (_extract_from_general_content soup base_url) <= 50
  ∧ (length (_extract_from_general_content soup base_url) < 50 ->
     forall line,
       In line (content_lines (get_text soup)) ->
       _is_likely_organization_name line = true ->
       String.length line < 150 ->
       In line (Organization_Name <$> _extract_from_general_content soup base_url)).
Proof.
  assert (Organization_Name <$> _extract_from_general_content soup base_url
          = take 50 (List.filter
                       (fun line => _is_likely_organization_name line
                                    && (String.length line <? 150))
                       (content_lines (get_text soup)))) as Hnames
    by (unfold _extract_from_general_content; by apply names_of_kept_lines).
  split; [|split; [|split]].
  - rewrite Hnames. etrans; [apply sublist_take | apply list_filter_sublist].
  - unfold _extract_from_general_content. apply Forall_take, Forall_fmap, Forall_forall.
    intros line [Hline [Hname Hlen]%andb_true_iff]%list_elem_of_In%filter_In.
    cbn [Organization_Name general_org].
    apply content_lines_stripped in Hline. apply Nat.ltb_lt in Hlen.
    repeat split; try done.
    apply likely_name_no_skip_term in Hname.
    by rewrite strip_lower, Hline in Hname.
  - unfold _extract_from_general_content. rewrite length_take. lia.
  - intros Hfew line Hline Hname Hlen.
    rewrite <- (length_fmap Organization_Name), Hnames in Hfew.
    rewrite Hnames, (take_below_cap _ _ Hfew).
    apply filter_In. split; [done|].
    rewrite Hname. by apply Nat.ltb_lt.
Qed.

(** ** The enhancer's contact extractors *)

(** X7: [format_phone] never alters the digits of a number, except that it
    drops the leading country code 1 of an eleven-digit number: only the
    punctuation changes. *)
Theorem format_phone_keeps_digits (phone : string) :
  digits_of (EnhancedScraper.format_phone phone)
  = if (String.length (digits_of phone) =? 11) && Py.startswith "1" (digits_of phone)
    then Py.drop 1 (digits_of phone)
    else digits_of phone.
Proof.
  unfold EnhancedScraper.format_phone.
  destruct (String.length (digits_of phone) =? 10) eqn:E10.
  - apply Nat.eqb_eq in E10. rewrite E10. cbn [Nat.eqb andb].
    apply canonical_of_digits; [done | apply digits_of_decimal].
  - destruct ((String.length (digits_of phone) =? 11)
              && Py.startswith "1" (digits_of phone)) eqn:E11; [|done].
    apply andb_true_iff in E11 as [E11%Nat.eqb_eq _].
    pose proof (digits_of_decimal phone) as Hdec.
    destruct (digits_of phone) as [|c d] eqn:Ed; [done|].
    change (digits_of (canonical_of d) = d).
    apply canonical_of_digits; [by injection E11 | by apply andb_true_iff in Hdec as [_ ?]].
Qed.

Lemma first_mailto_valid (links : list string) (email : string) :
  EnhancedScraper.first_mailto links = Some email ->
  EnhancedScraper.is_valid_email email = true.
Proof.
  induction links as [|href links IH]; cbn [EnhancedScraper.first_mailto]; [done|].
  destruct (Py.startswith "mailto:" href
            && EnhancedScraper.is_valid_email (EnhancedScraper.mailto_address href)) eqn:E;
    [|done].
  intros [= <-]. by apply andb_true_iff in E as [_ E].
Qed.

Lemma first_scanned_valid (emails : list string) :
  EnhancedScraper.first_scanned emails = ""
  ∨ (EnhancedScraper.is_valid_email (EnhancedScraper.first_scanned emails) = true
     ∧ Py.any_in EnhancedScraper.generic_terms
         (Py.lower (EnhancedScraper.first_scanned emails)) = false).
Proof.
  induction emails as [|email emails IH]; cbn [EnhancedScraper.first_scanned]; [by left|].
  destruct (EnhancedScraper.is_valid_email (clean_email email)
            && negb (Py.any_in EnhancedScraper.generic_terms (Py.lower (clean_email email))))
    eqn:E; [|done].
  right. apply andb_true_iff in E as [E1 E2%negb_true_iff]. done.
Qed.

(** X8: whatever [extract_enhanced_email] returns is the empty string or an
    address that passes [is_valid_email], be it taken from a [mailto:] link
    or from the text of the page. *)
Theorem enhanced_email_is_valid (page_text : string) (soup : node) :
  EnhancedScraper.extract_enhanced_email page_text soup = ""
  ∨ EnhancedScraper.is_valid_email
      (EnhancedScraper.extract_enhanced_email page_text soup) = true.
Proof.
  unfold EnhancedScraper.extract_enhanced_email.
  destruct (EnhancedScraper.first_mailto _) as [email|] eqn:E.
  - right. by apply first_mailto_valid in E.
  - destruct (first_scanned_valid (all_emails page_text)) as [H | [H _]]; [by left | by right].
Qed.

(** ** The name predicate: what it accepts *)

Section NamePredicate.

Implicit Types (s t text : string) (cls : ascii -> bool).

Lemma forallb_lstrip cls s : Py.forallb cls s = true -> Py.forallb cls (Py.lstrip s) = true.
Proof.
  induction s as [|c s IH]; [done|]. cbn [Py.lstrip].
  destruct (Py.isspace c); [|done].
  cbn [Py.forallb]. intros [_ H]%andb_true_iff. by apply IH.
Qed.

Lemma forallb_rstrip cls s : Py.forallb cls s = true -> Py.forallb cls (Py.rstrip s) = true.
Proof.
  induction s as [|c s IH]; [done|]. cbn [Py.rstrip Py.forallb].
  intros [Hc H]%andb_true_iff.
  destruct (Py.isspace c && Py.is_empty (Py.rstrip s)); [done|].
  cbn [Py.forallb]. by rewrite Hc, IH.
Qed.

Lemma forallb_strip cls s : Py.forallb cls s = true -> Py.forallb cls (Py.strip s) = true.
Proof. intros H. by apply forallb_rstrip, forallb_lstrip. Qed.

Lemma forallb_lower_digit s :
  Py.forallb Py.isdigit_char (Py.lower s) = Py.forallb Py.isdigit_char s.
Proof.
  induction s as [|c s IH]; [done|].
  cbn [Py.lower Py.forallb]. by rewrite isdigit_lower_char, IH.
Qed.

Lemma forallb_startswith cls t : forall s,
  Py.startswith t s = true -> Py.forallb cls s = true -> Py.forallb cls t = true.
Proof.
  induction t as [|a t IH]; intros [|b s]; cbn [Py.startswith Py.forallb]; try done.
  intros [->%Ascii.eqb_eq Hs]%andb_true_iff [Hb Hall]%andb_true_iff.
  rewrite Hb. by eapply IH.
Qed.

Lemma forallb_contains cls t s :
  Py.contains t s = true -> Py.forallb cls s = true -> Py.forallb cls t = true.
Proof.
  induction s as [|c s IH]; cbn [Py.contains].
  - rewrite orb_false_r. intros H _. by destruct t.
  - intros [H|H]%orb_true_iff Hall; [by eapply forallb_startswith|].
    cbn [Py.forallb] in Hall. apply andb_true_iff in Hall as [_ Hall]. by apply IH.
Qed.

Lemma lstrip_all_space s : Py.forallb Py.isspace s = true -> Py.lstrip s = EmptyString.
Proof.
  induction s as [|c s IH]; [done|]. cbn [Py.forallb Py.lstrip].
  intros [-> H]%andb_true_iff. by apply IH.
Qed.

Lemma strip_all_space s : Py.forallb Py.isspace s = true -> Py.strip s = EmptyString.
Proof. intros H. unfold Py.strip. by rewrite lstrip_all_space. Qed.

Lemma pieces_nonempty_cur cls s : forall cur,
  Py.is_empty cur = false ->
  List.filter (fun w => negb (Py.is_empty w)) (Py.pieces cls cur s) <> [].
Proof.
  induction s as [|c s IH]; intros cur Hcur; cbn [Py.pieces].
  - cbn. by rewrite Hcur.
  - destruct (cls c).
    + cbn. by rewrite Hcur.
    + apply IH. by destruct cur.
Qed.

Lemma pieces_nonempty cls s : forall cur,
  Py.forallb cls s = false ->
  List.filter (fun w => negb (Py.is_empty w)) (Py.pieces cls cur s) <> [].
Proof.
  induction s as [|c s IH]; intros cur; cbn [Py.forallb Py.pieces]; [done|].
  destruct (cls c) eqn:E; cbn [andb].
  - intros H. cbn [List.filter]. destruct (negb (Py.is_empty cur)); [done|]. by apply IH.
  - intros _. apply pieces_nonempty_cur. by destruct cur.
Qed.

Lemma split_nonempty text :
  Py.forallb Py.isspace text = false -> 1 <= length (Py.split text).
Proof.
  intros H. unfold Py.split.
  pose proof (pieces_nonempty Py.isspace text EmptyString H) as Hne.
  destruct (List.filter _ _); [done | cbn; lia].
Qed.

Lemma forallb_lower_space s :
  Py.forallb Py.isspace (Py.lower s) = Py.forallb Py.isspace s.
Proof.
  induction s as [|c s IH]; [done|].
  cbn [Py.lower Py.forallb]. by rewrite isspace_lower_char, IH.
Qed.

Lemma indicators_not_digits :
  Forall (fun t => Py.forallb Py.isdigit_char t = false ∧ Py.is_empty t = false)
         ComprehensiveUniversityScraper.org_indicators.
Proof. repeat constructor. Qed.

End NamePredicate.

(** X9: a text of 3 to 300 characters that contains an organization
    indicator (club, society, team, ...) and no disallowed term is accepted
    as a name whatever its number of words: the digit test and the word count
    cannot reject it. *)
Theorem indicator_names_accepted (text : string) :
  3 <= String.length text <= 300 ->
  Py.any_in ComprehensiveUniversityScraper.skip_terms (Py.strip (Py.lower text)) = false ->
  Py.any_in ComprehensiveUniversityScraper.org_indicators (Py.strip (Py.lower text)) = true ->
  _is_likely_organization_name text = true.
Proof.
  intros [Hlo Hhi] Hskip Hind. unfold _is_likely_organization_name.
  assert (Py.is_empty text = false) as -> by (destruct text; [cbn in Hlo; lia | done]).
  assert ((String.length text <? 3) = false) as -> by (apply Nat.ltb_ge; lia).
  assert ((300 <? String.length text) = false) as -> by (apply Nat.ltb_ge; lia).
  cbn [orb]. rewrite Hskip, Hind. cbn [orb].
  apply existsb_exists in Hind as (t & Ht & Hc).
  pose proof indicators_not_digits as Hnd. rewrite Forall_forall in Hnd.
  destruct (Hnd t) as [Htd Hte]; [by apply list_elem_of_In|].
  assert (Py.isdigit text = false) as ->.
  { unfold Py.isdigit. destruct (Py.forallb Py.isdigit_char text) eqn:E;
      [|by rewrite andb_false_r].
    rewrite <- forallb_lower_digit in E.
    apply (forallb_strip Py.isdigit_char) in E.
    apply (forallb_contains _ _ _ Hc) in E. congruence. }
  assert (1 <= length (Py.split text)) as Hs.
  { apply split_nonempty. rewrite <- forallb_lower_space.
    destruct (Py.forallb Py.isspace (Py.lower text)) eqn:E; [|done].
    apply strip_all_space in E. rewrite E in Hc.
    apply contains_nonempty in Hc; [congruence | done]. }
  assert ((length (Py.split text) <? 1) = false) as -> by (apply Nat.ltb_ge; lia).
  done.
Qed.

Lemma indicator_names_accepted_witness :
  3 <= String.length "Kappa Alpha Psi Step Team of the Greater Rapid City Area Volunteers and Friends"
    <= 300
  ∧ _is_likely_organization_name
      "Kappa Alpha Psi Step Team of the Greater Rapid City Area Volunteers and Friends" = true.
Proof.
  assert (3 <= String.length
                 "Kappa Alpha Psi Step Team of the Greater Rapid City Area Volunteers and Friends"
          <= 300) as H by (vm_compute; lia).
  split; [exact H|].
  apply (indicator_names_accepted _ H); vm_compute; reflexivity.
Defined.

(** ** Letter case *)

Section LetterCase.

Implicit Types (s t cur : string).

Lemma pieces_lower s : forall cur,
  Py.pieces Py.isspace (Py.lower cur) (Py.lower s)
  = Py.lower <$> Py.pieces Py.isspace cur s.
Proof.
  induction s as [|c s IH]; intros cur; cbn [Py.lower Py.pieces]; [done|].
  rewrite isspace_lower_char. destruct (Py.isspace c).
  - rewrite fmap_cons. f_equal. apply (IH EmptyString).
  - rewrite <- IH, lower_append. done.
Qed.

Lemma split_lower_length s : length (Py.split (Py.lower s)) = length (Py.split s).
Proof.
  unfold Py.split.
  change (Py.pieces Py.isspace EmptyString (Py.lower s))
    with (Py.pieces Py.isspace (Py.lower EmptyString) (Py.lower s)).
  rewrite pieces_lower.
  induction (Py.pieces Py.isspace EmptyString s) as [|w l IH]; [done|].
  rewrite fmap_cons. cbn [List.filter]. rewrite lower_is_empty.
  destruct (negb (Py.is_empty w)); cbn [length]; by rewrite IH.
Qed.

Lemma isdigit_lower s : Py.isdigit (Py.lower s) = Py.isdigit s.
Proof. unfold Py.isdigit. by rewrite lower_is_empty, forallb_lower_digit. Qed.

End LetterCase.

(** X10: the name predicates and the classifier do not depend on letter
    case.  Two texts with the same lower-cased form get, as a name or as a
    description, the same category; if they also have the same length, they
    get the same verdict from both variants of the name predicate, which
    test the length of the text as it is written.  (Lower-casing keeps the
    length of a text of the characters modelled here; [str.lower] lengthens
    the one character U+0130, which is why the length is a condition.) *)
Theorem letter_case_is_ignored (text text' : string) :
  Py.lower text = Py.lower text' ->
  (String.length text = String.length text' ->
   _is_likely_organization_name text = _is_likely_organization_name text'
   ∧ UniversityOrganizationScraper._is_likely_organization_name text
     = UniversityOrganizationScraper._is_likely_organization_name text')
  ∧ (forall description,
       _determine_category text description = _determine_category text' description)
  ∧ (forall name, _determine_category name text = _determine_category name text').
Proof.
  intros H. split; [|split].
  - intros L.
    assert (Py.is_empty text = Py.is_empty text') as E
      by (destruct text, text'; cbn in L; done).
    unfold _is_likely_organization_name,
      UniversityOrganizationScraper._is_likely_organization_name.
    rewrite <- (isdigit_lower text), <- (isdigit_lower text').
    rewrite <- (split_lower_length text), <- (split_lower_length text').
    by rewrite H, L, E.
  - intros d. unfold _determine_category. by rewrite !lower_append, H.
  - intros n. unfold _determine_category. by rewrite !lower_append, H.
Qed.

Lemma letter_case_is_ignored_witness :
  Py.lower "CHESS CLUB" = Py.lower "Chess Club"
  ∧ String.length "CHESS CLUB" = String.length "Chess Club"
  ∧ _is_likely_organization_name "CHESS CLUB" = _is_likely_organization_name "Chess Club".
Proof.
  assert (Py.lower "CHESS CLUB" = Py.lower "Chess Club") as H by (vm_compute; reflexivity).
  assert (String.length "CHESS CLUB" = String.length "Chess Club") as L by reflexivity.
  split; [exact H|]. split; [exact L|].
  exact (proj1 (proj1 (letter_case_is_ignored "CHESS CLUB" "Chess Club" H) L)).
Defined.

(** ** The matcher is sound *)

Section Matcher.

Implicit Types (s t m rest : string) (c : ascii) (r : Re.pattern).

Lemma append_cons c s t : String c s +:+ t = String c (s +:+ t).
Proof. reflexivity. Qed.

Lemma append_empty_l s : EmptyString +:+ s = s.
Proof. reflexivity. Qed.

Lemma append_empty_r s : s +:+ EmptyString = s.
Proof. induction s as [|c s IH]; [done|]. by rewrite append_cons, IH. Qed.

Lemma append_assoc s t u : (s +:+ t) +:+ u = s +:+ (t +:+ u).
Proof. induction s as [|c s IH]; [done|]. by rewrite !append_cons, IH. Qed.

Lemma append_length s t : String.length (s +:+ t) = String.length s + String.length t.
Proof. induction s as [|c s IH]; [done|]. rewrite append_cons. cbn [String.length]. by rewrite IH. Qed.

Lemma take_append s t : Py.take (String.length s) (s +:+ t) = s.
Proof.
  induction s as [|c s IH]; [by destruct t|].
  rewrite append_cons. cbn [String.length Py.take]. by rewrite IH.
Qed.

Lemma append_empty_inv s t : s +:+ t = EmptyString -> s = EmptyString ∧ t = EmptyString.
Proof. destruct s; [done|]. by rewrite append_cons. Qed.

Lemma rep_sound cls (k : option ascii -> string -> option string) s :
  forall lo hi prev rest,
    Re.rep cls k lo hi prev s = Some rest ->
    exists a s' prev',
      s = a +:+ s'
      ∧ Py.forallb cls a = true
      ∧ lo <= String.length a
      ∧ within hi (String.length a)
      ∧ k prev' s' = Some rest.
Proof.
  assert (forall lo hi prev t rest,
            match lo with O => k prev t | S _ => None end = Some rest ->
            exists a s' prev',
              t = a +:+ s' ∧ Py.forallb cls a = true ∧ lo <= String.length a
              ∧ within hi (String.length a) ∧ k prev' s' = Some rest) as Hstop.
  { intros [|lo] hi prev t rest H; [|done].
    exists EmptyString, t, prev. repeat split; try done. destruct hi; cbn; lia. }
  induction s as [|c s IH]; intros lo hi prev rest; cbn [Re.rep]; [apply Hstop|].
  destruct (cls c && Re.may_take hi) eqn:E; [|apply Hstop].
  destruct (Re.rep cls k (Nat.pred lo) (Re.one_less hi) (Some c) s) as [r'|] eqn:Er;
    [|apply Hstop].
  intros [= ->]. apply IH in Er as (a & s' & prev' & -> & Ha & Hlo & Hhi & Hk).
  apply andb_true_iff in E as [Ec Et].
  exists (String c a), s', prev'. rewrite append_cons. cbn [Py.forallb String.length].
  rewrite Ec, Ha. repeat split; try done; [lia|].
  destruct hi as [[|h]|]; cbn in *; try done. lia.
Qed.

Lemma match_here_fits r : forall prev s rest,
  Re.match_here r prev s = Some rest ->
  exists m, s = m +:+ rest ∧ fits r m rest.
Proof.
  induction r as [|[cls lo hi| | |] r IH]; intros prev s rest; cbn [Re.match_here fits].
  - intros [= ->]. by exists EmptyString.
  - intros (a & s' & prev' & -> & Ha & Hlo & Hhi & Hk)%rep_sound.
    apply IH in Hk as (b & -> & Hb).
    exists (a +:+ b). rewrite append_assoc. split; [done|]. by exists a, b.
  - destruct (xorb _ _); [apply IH | done].
  - destruct prev; [done | apply IH].
  - destruct (Re.at_finish s) eqn:E; [|done].
    intros (m & -> & Hm)%IH. by exists m.
Qed.

Lemma scan_sound r s : forall prev skip x,
  In x (Re.scan r prev skip s) ->
  exists pre rest, s = pre +:+ x +:+ rest ∧ fits r x rest.
Proof.
  induction s as [|c s IH]; intros prev skip x.
  - destruct skip as [|k]; cbn [Re.scan]; [|done].
    destruct (Re.match_here r prev EmptyString) as [rest|] eqn:E; [|done].
    apply match_here_fits in E as (m & Hs & Hm).
    symmetry in Hs. apply append_empty_inv in Hs as [-> ->].
    intros [<- | []]. by exists EmptyString, EmptyString.
  - destruct skip as [|k]; cbn [Re.scan].
    + destruct (Re.match_here r prev (String c s)) as [rest|] eqn:E.
      * apply match_here_fits in E as (m & Hs & Hm). rewrite Hs.
        intros [<- | Hin].
        -- exists EmptyString, rest.
           rewrite append_length, Nat.add_sub, take_append. done.
        -- apply IH in Hin as (pre & rest' & Hs' & Hx). rewrite <- Hs.
           exists (String c pre), rest'. rewrite append_cons, <- Hs'. done.
      * intros (pre & rest' & -> & Hx)%IH. by exists (String c pre), rest'.
    + intros (pre & rest' & -> & Hx)%IH. by exists (String c pre), rest'.
Qed.

(** Every string [re.findall] returns occurs in the text and has the shape
    of the pattern. *)
Lemma findall_sound r s x :
  In x (Re.findall r s) -> exists pre rest, s = pre +:+ x +:+ rest ∧ fits r x rest.
Proof. apply scan_sound. Qed.

Lemma contains_append_l pre x rest : Py.contains x (pre +:+ x +:+ rest) = true.
Proof.
  induction pre as [|c pre IH].
  - rewrite append_empty_l. apply startswith_contains.
    induction x as [|a x IHx]; [by destruct rest|].
    rewrite append_cons. cbn [Py.startswith]. by rewrite Ascii.eqb_refl, IHx.
  - rewrite append_cons. by apply contains_cons.
Qed.

End Matcher.

(** ** The shape of a phone match *)

Section PhoneShape.

Implicit Types (s t m rest a b : string) (c : ascii) (cls : ascii -> bool).

Lemma digits_of_append a b : digits_of (a +:+ b) = digits_of a +:+ digits_of b.
Proof.
  unfold digits_of. induction a as [|c a IH]; [done|].
  rewrite append_cons. cbn [Py.filter]. rewrite IH. by destruct (Py.isdecimal c).
Qed.

Lemma digits_of_all a : Py.forallb Py.isdecimal a = true -> digits_of a = a.
Proof.
  unfold digits_of. induction a as [|c a IH]; [done|]. cbn [Py.forallb Py.filter].
  intros [-> H]%andb_true_iff. by rewrite IH.
Qed.

Lemma digits_of_none cls a :
  (forall c, cls c = true -> Py.isdecimal c = false) ->
  Py.forallb cls a = true -> digits_of a = EmptyString.
Proof.
  intros Hcls. unfold digits_of. induction a as [|c a IH]; [done|].
  cbn [Py.forallb Py.filter]. intros [Hc H]%andb_true_iff.
  rewrite (Hcls c Hc). by apply IH.
Qed.

Lemma sep_not_decimal c : sep_cls c = true -> Py.isdecimal c = false.
Proof. destruct c as [[] [] [] [] [] [] [] []]; vm_compute; congruence. Qed.

Lemma chr_not_decimal (x : ascii) c :
  Py.isdecimal x = false -> Re.chr x c = true -> Py.isdecimal c = false.
Proof. intros Hx ->%Ascii.eqb_eq. done. Qed.

Lemma decimal_not_space c : Py.isdecimal c = true -> Py.isspace c = false.
Proof. destruct c as [[] [] [] [] [] [] [] []]; vm_compute; congruence. Qed.

Lemma starts_append a b : starts_nonspace a = true -> starts_nonspace (a +:+ b) = true.
Proof. by destruct a. Qed.

Lemma ends_nonempty s : ends_nonspace s = true -> Py.is_empty s = false.
Proof. by destruct s. Qed.

Lemma ends_append a b : ends_nonspace b = true -> ends_nonspace (a +:+ b) = true.
Proof.
  intros Hb. induction a as [|c a IH]; [done|].
  rewrite append_cons. cbn [ends_nonspace].
  destruct (a +:+ b) eqn:E; [|done].
  apply ends_nonempty in IH. done.
Qed.

Lemma forallb_starts cls a :
  (forall c, cls c = true -> Py.isspace c = false) ->
  Py.forallb cls a = true -> Py.is_empty a = false -> starts_nonspace a = true.
Proof.
  intros Hcls. destruct a as [|c a]; [done|]. cbn [Py.forallb starts_nonspace].
  intros [Hc _]%andb_true_iff _. by rewrite (Hcls c Hc).
Qed.

Lemma forallb_ends cls a :
  (forall c, cls c = true -> Py.isspace c = false) ->
  Py.forallb cls a = true -> Py.is_empty a = false -> ends_nonspace a = true.
Proof.
  intros Hcls. induction a as [|c a IH]; [done|]. cbn [Py.forallb ends_nonspace].
  intros [Hc Ha]%andb_true_iff _. destruct a as [|c' a]; [by rewrite (Hcls c Hc)|].
  by apply IH.
Qed.

Lemma rstrip_of_ends s : ends_nonspace s = true -> Py.rstrip s = s.
Proof.
  induction s as [|c s IH]; [done|]. cbn [ends_nonspace Py.rstrip].
  destruct s as [|c' s].
  - intros H%negb_true_iff. cbn. by rewrite H.
  - intros H. rewrite (IH H). by rewrite andb_false_r.
Qed.

Lemma strip_of_edges s :
  starts_nonspace s = true -> ends_nonspace s = true -> Py.strip s = s.
Proof. intros H1 H2. unfold Py.strip. rewrite lstrip_of_starts by done. by apply rstrip_of_ends. Qed.

Lemma nonempty_of_length s n : S n <= String.length s -> Py.is_empty s = false.
Proof. destruct s; cbn; [lia | done]. Qed.

(** A match of the standard pattern has exactly ten digits, begins with a
    parenthesis or a digit and ends with a digit. *)
Lemma phone_standard_shape m rest :
  fits phone_standard m rest ->
  String.length (digits_of m) = 10 ∧ Py.strip m = m.
Proof.
  unfold phone_standard, Re.opt, Re.exactly. cbn [fits within].
  intros (a & m1 & -> & Ha & _ & Hla &
          b & m2 & -> & Hb & Hb3 & Hb3' &
          c & m3 & -> & Hc & _ & Hlc &
          d & m4 & -> & Hd & _ & Hld &
          e & m5 & -> & He & He3 & He3' &
          f & m6 & -> & Hf & _ & Hlf &
          g & m7 & -> & Hg & Hg4 & Hg4' & ->).
  rewrite append_empty_r. split.
  - rewrite !digits_of_append.
    rewrite (digits_of_none _ a (fun x => chr_not_decimal "(" x eq_refl) Ha).
    rewrite (digits_of_none _ c (fun x => chr_not_decimal ")" x eq_refl) Hc).
    rewrite (digits_of_none _ d sep_not_decimal Hd).
    rewrite (digits_of_none _ f sep_not_decimal Hf).
    rewrite !digits_of_all by done.
    rewrite !append_length. cbn [String.length]. lia.
  - apply strip_of_edges.
    + destruct a as [|x a].
      * rewrite append_empty_l. apply starts_append.
        apply (forallb_starts Py.isdecimal); [apply decimal_not_space | done |].
        by apply (nonempty_of_length _ 2).
      * cbn [Py.forallb] in Ha. apply andb_true_iff in Ha as [<-%Ascii.eqb_eq _]. done.
    + do 6 apply ends_append.
      apply (forallb_ends Py.isdecimal); [apply decimal_not_space | done |].
      by apply (nonempty_of_length _ 3).
Qed.

End PhoneShape.

(** ** The matcher is complete on patterns without assertions *)

Section MatcherComplete.

Implicit Types (s t m rest a b : string) (c : ascii) (cls : ascii -> bool) (r : Re.pattern).

Lemma rep_complete cls (k : option ascii -> string -> option string) a : forall s' lo hi prev,
  Py.forallb cls a = true ->
  lo <= String.length a ->
  within hi (String.length a) ->
  (forall p, is_Some (k p s')) ->
  is_Some (Re.rep cls k lo hi prev (a +:+ s')).
Proof.
  induction a as [|c a IH]; intros s' lo hi prev Ha Hlo Hhi Hk.
  - rewrite append_empty_l. cbn in Hlo. assert (lo = 0) as -> by lia.
    destruct s' as [|c s']; cbn [Re.rep]; [apply Hk|].
    destruct (cls c && Re.may_take hi); [|apply Hk].
    destruct (Re.rep cls k _ _ _ s'); [done | apply Hk].
  - rewrite append_cons. cbn [Re.rep].
    cbn [Py.forallb] in Ha. apply andb_true_iff in Ha as [Hc Ha].
    cbn [String.length] in Hlo, Hhi.
    assert (Re.may_take hi = true) as -> by (destruct hi as [[|h]|]; cbn in *; [lia|done|done]).
    rewrite Hc. cbn [andb].
    destruct (IH s' (Nat.pred lo) (Re.one_less hi) (Some c)) as [x ->]; try done; [lia|].
    destruct hi as [h|]; cbn in *; [lia | done].
Qed.

Lemma match_here_complete r :
  forallb is_rep r = true ->
  forall m rest prev, fits r m rest -> is_Some (Re.match_here r prev (m +:+ rest)).
Proof.
  induction r as [|[cls lo hi| | |] r IH]; cbn [forallb is_rep andb fits];
    [by intros _ m rest prev -> | | done..].
  intros Hr m rest prev (a & b & Hm & Ha & Hlo & Hhi & Hb). cbn [Re.match_here].
  rewrite Hm, append_assoc. apply rep_complete; try done.
  intros p. by apply IH.
Qed.

Lemma scan_complete r pre : forall s' prev,
  (forall p, is_Some (Re.match_here r p s')) ->
  Re.scan r prev 0 (pre +:+ s') <> [].
Proof.
  induction pre as [|c pre IH]; intros s' prev Hm.
  - rewrite append_empty_l. destruct (Hm prev) as [x Hx].
    destruct s'; cbn [Re.scan]; by rewrite Hx.
  - rewrite append_cons. cbn [Re.scan].
    destruct (Re.match_here r prev _); [done | by apply IH].
Qed.

(** A text that holds a string of the shape of an assertion-free pattern has
    a match of that pattern. *)
Lemma findall_complete r pre m rest :
  forallb is_rep r = true -> fits r m rest ->
  Re.findall r (pre +:+ m +:+ rest) <> [].
Proof.
  intros Hr Hm. apply scan_complete. intros p. by apply match_here_complete.
Qed.

Lemma forallb_impl (cls cls' : ascii -> bool) a :
  (forall c, cls c = true -> cls' c = true) ->
  Py.forallb cls a = true -> Py.forallb cls' a = true.
Proof.
  intros H. induction a as [|c a IH]; [done|]. cbn [Py.forallb].
  intros [Hc Ha]%andb_true_iff. by rewrite (H c Hc), IH.
Qed.

Lemma dot_is_sep c : Re.chr "." c = true -> sep_cls c = true.
Proof. by intros <-%Ascii.eqb_eq. Qed.

End MatcherComplete.

(** ** The phone cascade reduces to its first pattern *)

Section PhoneCascade.

Implicit Types (text m rest pre : string).

Local Ltac empty_block :=
  exists EmptyString; eexists; split; [reflexivity|];
  split; [reflexivity|]; split; [cbn; lia|]; split; [cbn; lia|].

Local Ltac block a H :=
  exists a; eexists; split; [reflexivity|];
  split; [exact H|]; split; [cbn; lia|]; split; [cbn; lia|].

Lemma standard_found text pre m rest :
  text = pre +:+ m +:+ rest -> fits phone_standard m rest ->
  Re.findall phone_standard text <> [].
Proof. intros -> Hm. by apply findall_complete. Qed.

Lemma simple_is_standard m rest : fits phone_simple m rest -> fits phone_standard m rest.
Proof.
  unfold phone_simple, phone_standard, Re.opt, Re.exactly. cbn [fits within].
  intros (b & m2 & -> & Hb & Hb3 & Hb3' &
          d & m4 & -> & Hd & _ & Hld &
          e & m5 & -> & He & He3 & He3' &
          f & m6 & -> & Hf & _ & Hlf &
          g & m7 & -> & Hg & Hg4 & Hg4' & ->).
  empty_block. block b Hb. empty_block. block d Hd. block e He. block f Hf. block g Hg.
  reflexivity.
Qed.

Lemma dotted_is_standard m rest :
  fits [Re.exactly 3 Py.isdecimal; Re.one (Re.chr "."); Re.exactly 3 Py.isdecimal;
        Re.one (Re.chr "."); Re.exactly 4 Py.isdecimal] m rest ->
  fits phone_standard m rest.
Proof.
  unfold phone_standard, Re.opt, Re.exactly, Re.one. cbn [fits within].
  intros (b & m2 & -> & Hb & Hb3 & Hb3' &
          d & m4 & -> & Hd & _ & Hld &
          e & m5 & -> & He & He3 & He3' &
          f & m6 & -> & Hf & _ & Hlf &
          g & m7 & -> & Hg & Hg4 & Hg4' & ->).
  apply (forallb_impl _ sep_cls _ dot_is_sep) in Hd, Hf.
  empty_block. block b Hb. empty_block. block d Hd. block e He. block f Hf. block g Hg.
  reflexivity.
Qed.

Lemma ten_digits_is_standard m rest :
  fits [Re.exactly 10 Py.isdecimal] m rest -> fits phone_standard m rest.
Proof.
  unfold phone_standard, Re.opt, Re.exactly. cbn [fits within].
  intros (b & m2 & -> & Hb & Hlo & Hhi & ->).
  do 10 (destruct b as [|? b]; [cbn in Hlo; lia|]).
  destruct b; [|cbn in Hhi; lia].
  cbn [Py.forallb] in Hb. repeat (apply andb_true_iff in Hb as [? Hb]).
  exists EmptyString; eexists; split; [reflexivity|].
  split; [reflexivity|]. split; [cbn; lia|]. split; [cbn; lia|].
  exists (String a (String a0 (String a1 EmptyString))); eexists; split; [reflexivity|].
  split; [cbn [Py.forallb]; by rewrite H, H0, H1|]. split; [cbn; lia|]. split; [cbn; lia|].
  empty_block. empty_block.
  exists (String a2 (String a3 (String a4 EmptyString))); eexists; split; [reflexivity|].
  split; [cbn [Py.forallb]; by rewrite H2, H3, H4|]. split; [cbn; lia|]. split; [cbn; lia|].
  empty_block.
  exists (String a5 (String a6 (String a7 (String a8 EmptyString)))); eexists;
    split; [reflexivity|].
  split; [cbn [Py.forallb]; by rewrite H5, H6, H7, H8|]. split; [cbn; lia|]. split; [cbn; lia|].
  reflexivity.
Qed.

Lemma no_standard_no_match text (q : Re.pattern) :
  q ∈ [phone_country; phone_simple;
       [Re.exactly 3 Py.isdecimal; Re.one (Re.chr "."); Re.exactly 3 Py.isdecimal;
        Re.one (Re.chr "."); Re.exactly 4 Py.isdecimal];
       [Re.exactly 10 Py.isdecimal]] ->
  Re.findall phone_standard text = [] -> Re.findall q text = [].
Proof.
  intros Hq Hstd. destruct (Re.findall q text) as [|x l] eqn:E; [done|]. exfalso.
  assert (In x (Re.findall q text)) as Hx by (rewrite E; by left).
  apply findall_sound in Hx as (pre & rest & Ht & Hx).
  revert Hstd.
  repeat (apply elem_of_cons in Hq as [-> | Hq]).
  - unfold phone_country in Hx. cbn [app fits] in Hx.
    destruct Hx as (a1 & m1 & -> & _ & _ & _ & a2 & m2 & -> & _ & _ & _ &
                    a3 & m3 & -> & _ & _ & _ & Hx).
    apply (standard_found text (pre +:+ a1 +:+ a2 +:+ a3) m3 rest); [|done].
    rewrite Ht. by rewrite !append_assoc.
  - eapply standard_found; [done | by apply simple_is_standard].
  - eapply standard_found; [done | by apply dotted_is_standard].
  - eapply standard_found; [done | by apply ten_digits_is_standard].
  - by apply elem_of_nil in Hq.
Qed.

End PhoneCascade.

Lemma phone_first_shape (text first : string) (others : list string) :
  Re.findall phone_standard text = first :: others ->
  String.length (digits_of first) = 10 ∧ Py.strip first = first
  ∧ Py.contains first text = true.
Proof.
  intros E.
  assert (In first (Re.findall phone_standard text)) as Hin by (rewrite E; by left).
  apply findall_sound in Hin as (pre & rest & -> & Hfits).
  apply phone_standard_shape in Hfits as [Hten Hstrip].
  split; [done|]. split; [done | apply contains_append_l].
Qed.

Lemma phone_cascade_head (text : string) :
  _extract_phone_from_text text = default "" (head (Re.findall phone_standard text)).
Proof.
  unfold _extract_phone_from_text, phone_patterns. cbn [phone_cascade].
  destruct (Re.findall phone_standard text) as [|first others] eqn:E.
  - pose proof (fun q Hq => no_standard_no_match text q Hq E) as Hno.
    by rewrite !Hno by (rewrite ?elem_of_cons; auto 6).
  - apply phone_first_shape in E as (Hten & Hstrip & _).
    by rewrite Hstrip, Hten.
Qed.

(** What the scraper returns as a phone number is empty or has ten digits. *)
Lemma phone_ten_digits (text : string) :
  _extract_phone_from_text text = ""
  ∨ (String.length (digits_of (_extract_phone_from_text text)) = 10
     ∧ Py.contains (_extract_phone_from_text text) text = true).
Proof.
  rewrite phone_cascade_head.
  destruct (Re.findall phone_standard text) as [|first others] eqn:E; [by left | right].
  by apply phone_first_shape in E as (Hten & _ & Hin).
Qed.

(** X11: the five-pattern cascade of [_extract_phone_from_text] reduces to its
    first pattern: the result is the leftmost match of the standard pattern,
    or the empty string when that pattern has no match; the country-code,
    plain, dotted and ten-digit patterns never contribute.  A non-empty
    result occurs in the text as it is returned and has exactly ten digits. *)
Theorem phone_cascade_is_first_pattern (text : string) :
  _extract_phone_from_text text = default "" (head (Re.findall phone_standard text))
  ∧ (_extract_phone_from_text text = ""
     ∨ (String.length (digits_of (_extract_phone_from_text text)) = 10
        ∧ Py.contains (_extract_phone_from_text text) text = true)).
Proof.
  split; [apply phone_cascade_head | apply phone_ten_digits].
Qed.

(** ** The shape of a valid address *)

Section ValidEmail.

Implicit Types (s a b e : string) (c : ascii) (cls : ascii -> bool).

Lemma at_finish_cases s :
  Re.at_finish s = true -> s = EmptyString ∨ s = String "010" EmptyString.
Proof.
  destruct s as [|c [|c' s]]; cbn; [by left | | done].
  intros <-%Ascii.eqb_eq. by right.
Qed.

Lemma one_char (x : ascii) a :
  Py.forallb (Re.chr x) a = true -> 1 <= String.length a -> String.length a <= 1 ->
  a = String x EmptyString.
Proof.
  destruct a as [|c [|c' a]]; cbn; try lia.
  rewrite andb_true_r. by intros <-%Ascii.eqb_eq.
Qed.

Lemma filter_append cls a b : Py.filter cls (a +:+ b) = Py.filter cls a +:+ Py.filter cls b.
Proof.
  induction a as [|c a IH]; [done|].
  rewrite append_cons. cbn [Py.filter]. rewrite IH. by destruct (cls c).
Qed.

Lemma filter_none cls cls' a :
  (forall c, cls' c = true -> cls c = false) ->
  Py.forallb cls' a = true -> Py.filter cls a = EmptyString.
Proof.
  intros H. induction a as [|c a IH]; [done|]. cbn [Py.forallb Py.filter].
  intros [Hc Ha]%andb_true_iff. by rewrite (H c Hc), IH.
Qed.

Lemma local_not_at c : local_cls c = true -> Re.chr "@" c = false.
Proof. destruct c as [[] [] [] [] [] [] [] []]; vm_compute; congruence. Qed.

Lemma domain_not_at c : domain_cls c = true -> Re.chr "@" c = false.
Proof. destruct c as [[] [] [] [] [] [] [] []]; vm_compute; congruence. Qed.

Lemma tld_not_at c : tld_cls c = true -> Re.chr "@" c = false.
Proof. destruct c as [[] [] [] [] [] [] [] []]; vm_compute; congruence. Qed.

End ValidEmail.

(** X12: an address accepted by [is_valid_email] is a non-empty local part,
    one [@], a non-empty domain, a dot and at least two letters (or bars),
    followed by nothing or by one final newline, which [$] lets through; in
    particular it holds exactly one [@]. *)
Theorem valid_email_shape (email : string) :
  EnhancedScraper.is_valid_email email = true ->
  (exists local domain tld tail,
      email = local +:+ "@" +:+ domain +:+ "." +:+ tld +:+ tail
      ∧ Py.forallb local_cls local = true ∧ 1 <= String.length local
      ∧ Py.forallb domain_cls domain = true ∧ 1 <= String.length domain
      ∧ Py.forallb tld_cls tld = true ∧ 2 <= String.length tld
      ∧ (tail = EmptyString ∨ tail = String "010" EmptyString))
  ∧ String.length (Py.filter (Re.chr "@") email) = 1.
Proof.
  unfold EnhancedScraper.is_valid_email, Re.matches.
  intros [rest Hm]%bool_decide_eq_true.
  apply match_here_fits in Hm as (m & -> & Hm).
  unfold EnhancedScraper.valid_email_pattern, Re.plus, Re.one, Re.at_least in Hm.
  cbn [fits within] in Hm.
  destruct Hm as (l & m1 & -> & Hl & Hl1 & _ &
                  at_ & m2 & -> & Hat & Hat1 & Hat1' &
                  d & m3 & -> & Hd & Hd1 & _ &
                  dot & m4 & -> & Hdot & Hdot1 & Hdot1' &
                  t & m5 & -> & Ht & Ht2 & _ & Hfin & ->).
  apply one_char in Hat; [|done..]. apply one_char in Hdot; [|done..]. subst at_ dot.
  rewrite append_empty_l in Hfin. apply at_finish_cases in Hfin.
  rewrite append_empty_r, !append_assoc. split.
  - exists l, d, t, rest. repeat split; done.
  - rewrite !filter_append.
    rewrite (filter_none _ _ l local_not_at Hl), (filter_none _ _ d domain_not_at Hd),
      (filter_none _ _ t tld_not_at Ht).
    by destruct Hfin as [-> | ->].
Qed.

Lemma valid_email_shape_witness :
  EnhancedScraper.is_valid_email "biology@bhsu.edu" = true
  ∧ String.length (Py.filter (Re.chr "@") "biology@bhsu.edu") = 1.
Proof.
  assert (EnhancedScraper.is_valid_email "biology@bhsu.edu" = true) as H
    by (vm_compute; reflexivity).
  split; [exact H|].
  exact (proj2 (valid_email_shape "biology@bhsu.edu" H)).
Defined.

(** ** Cleaning of scraped text *)

Section CleanText.

Implicit Types (s t : string) (c : ascii) (p q r : ascii -> bool) (b : bool).

Lemma filter_length p s : String.length (Py.filter p s) <= String.length s.
Proof. induction s as [|c s IH]; cbn; [done|]. destruct (p c); cbn; lia. Qed.

Lemma filter_length_eq p s :
  String.length (Py.filter p s) = String.length s -> Py.filter p s = s.
Proof.
  induction s as [|c s IH]; cbn; [done|].
  pose proof (filter_length p s). destruct (p c); cbn; [|lia].
  intros [= E]. by rewrite IH.
Qed.

Lemma filter_all p s : Py.forallb p s = true -> Py.filter p s = s.
Proof.
  induction s as [|c s IH]; cbn; [done|].
  intros [-> E]%andb_true_iff. by rewrite IH.
Qed.

Lemma forallb_filter p q r s :
  (forall c, p c = true -> q c = true -> r c = true) ->
  Py.forallb p s = true -> Py.forallb r (Py.filter q s) = true.
Proof.
  intros H. induction s as [|c s IH]; cbn; [done|].
  intros [Hc Hs]%andb_true_iff. destruct (q c) eqn:Hq; cbn; [|auto].
  by rewrite (H c Hc Hq), IH.
Qed.

Lemma lstrip_length s : String.length (Py.lstrip s) <= String.length s.
Proof. induction s as [|c s IH]; cbn; [done|]. destruct (Py.isspace c); cbn; lia. Qed.

Lemma rstrip_length s : String.length (Py.rstrip s) <= String.length s.
Proof.
  induction s as [|c s IH]; cbn [Py.rstrip String.length]; [done|].
  destruct (_ && _); cbn; lia.
Qed.

Lemma lstrip_length_eq s :
  String.length (Py.lstrip s) = String.length s -> Py.lstrip s = s.
Proof.
  destruct s as [|c s]; cbn; [done|].
  pose proof (lstrip_length s). destruct (Py.isspace c); cbn; [lia | done].
Qed.

Lemma rstrip_length_eq s :
  String.length (Py.rstrip s) = String.length s -> Py.rstrip s = s.
Proof.
  induction s as [|c s IH]; cbn [Py.rstrip String.length]; [done|].
  destruct (_ && _); cbn; [lia|]. intros [= E]. by rewrite IH.
Qed.

Lemma collapse_length b s :
  String.length (UniversityOrganizationScraper.collapse_whitespace b s) <= String.length s.
Proof.
  revert b. induction s as [|c s IH]; intros b; cbn; [done|].
  pose proof (IH true). pose proof (IH false).
  destruct (Py.isspace c), b; cbn; lia.
Qed.

(** After the first substitution the only whitespace left is the space. *)
Lemma collapse_spaces_only b s :
  Py.forallb (fun c => negb (Py.isspace c) || Re.chr " " c) (UniversityOrganizationScraper.collapse_whitespace b s) = true.
Proof.
  revert b. induction s as [|c s IH]; intros b; cbn [UniversityOrganizationScraper.collapse_whitespace]; [done|].
  destruct (Py.isspace c) eqn:E.
  - destruct b; [apply IH|]. cbn [Py.forallb]. by rewrite IH.
  - cbn [Py.forallb]. by rewrite E, IH.
Qed.

Lemma kept_is_clean c :
  negb (Py.isspace c) || Re.chr " " c = true -> UniversityOrganizationScraper.kept_cls c = true -> clean_cls c = true.
Proof. destruct c as [[] [] [] [] [] [] [] []]; vm_compute; congruence. Qed.

Lemma clean_is_kept c : clean_cls c = true -> UniversityOrganizationScraper.kept_cls c = true.
Proof. destruct c as [[] [] [] [] [] [] [] []]; vm_compute; congruence. Qed.

Lemma clean_space c : clean_cls c = true -> Py.isspace c = true -> c = " "%char.
Proof. destruct c as [[] [] [] [] [] [] [] []]; vm_compute; congruence. Qed.

Lemma forallb_weaken p q s :
  (forall c, p c = true -> q c = true) -> Py.forallb p s = true -> Py.forallb q s = true.
Proof.
  intros H. induction s as [|c s IH]; cbn; [done|].
  intros [Hc Hs]%andb_true_iff. by rewrite (H c Hc), IH.
Qed.

Lemma contains_double_cons c s :
  Py.contains "  " (String c s)
  = (Ascii.eqb " " c && Py.startswith " " s) || Py.contains "  " s.
Proof. reflexivity. Qed.

Lemma startswith_space_cons c s : Py.startswith " " (String c s) = Ascii.eqb " " c.
Proof. cbn [Py.startswith]. apply andb_true_r. Qed.

Lemma collapse_fixed b s :
  UniversityOrganizationScraper.collapse_whitespace b s = s ->
  Py.contains "  " s = false ∧ (b = true -> Py.startswith " " s = false).
Proof.
  revert b. induction s as [|c s IH]; intros b; [done|].
  cbn [UniversityOrganizationScraper.collapse_whitespace]. rewrite contains_double_cons, startswith_space_cons.
  destruct (Py.isspace c) eqn:E.
  - destruct b.
    + intros H. pose proof (collapse_length true s) as L. rewrite H in L. cbn in L. lia.
    + intros [= <- H]. apply IH in H as [H1 H2]. specialize (H2 eq_refl).
      by rewrite H1, H2.
  - intros [= H]. apply IH in H as [H1 _].
    assert (Ascii.eqb " " c = false) as -> by (apply Ascii.eqb_neq; by intros <-).
    by rewrite H1.
Qed.

Lemma collapse_tidy b s :
  Py.forallb clean_cls s = true -> Py.contains "  " s = false ->
  (b = true -> Py.startswith " " s = false) ->
  UniversityOrganizationScraper.collapse_whitespace b s = s.
Proof.
  revert b. induction s as [|c s IH]; intros b; [done|].
  cbn [Py.forallb UniversityOrganizationScraper.collapse_whitespace]. rewrite contains_double_cons, startswith_space_cons.
  intros [Hc Hs]%andb_true_iff [Hd1 Hd2]%orb_false_iff Hb.
  destruct (Py.isspace c) eqn:E.
  - apply (clean_space c Hc) in E as ->.
    destruct b; [by specialize (Hb eq_refl)|].
    rewrite IH; [done..|]. intros _. exact Hd1.
  - rewrite IH; [done..|]. intros [=].
Qed.

End CleanText.

Lemma clean_text_over_alphabet (text : string) :
  Py.forallb clean_cls (UniversityOrganizationScraper._clean_text text) = true.
Proof.
  unfold UniversityOrganizationScraper._clean_text.
  destruct (Py.is_empty text); [done|].
  eapply forallb_filter; [apply kept_is_clean|].
  apply forallb_strip, collapse_spaces_only.
Qed.

(** X13: a cleaned text is written over word characters, the space and the
    punctuation [-.,!?()&@] only (tabs, line ends and every other whitespace
    have become spaces or are gone), and it is never longer than the text
    it comes from. *)
Theorem clean_text_alphabet (text : string) :
  Py.forallb clean_cls (UniversityOrganizationScraper._clean_text text) = true
  ∧ String.length (UniversityOrganizationScraper._clean_text text) <= String.length text.
Proof.
  split; [apply clean_text_over_alphabet|].
  unfold UniversityOrganizationScraper._clean_text.
  destruct (Py.is_empty text); [cbn; lia|].
  - pose proof (filter_length UniversityOrganizationScraper.kept_cls
                  (Py.strip (UniversityOrganizationScraper.collapse_whitespace false text))).
    pose proof (rstrip_length
                  (Py.lstrip (UniversityOrganizationScraper.collapse_whitespace false text))).
    pose proof (lstrip_length (UniversityOrganizationScraper.collapse_whitespace false text)).
    pose proof (collapse_length false text).
    unfold Py.strip in *. lia.
Qed.

(** X14: the texts [_clean_text] leaves as they are are exactly the tidy
    ones: written over the kept alphabet, with no whitespace at either end
    and no two spaces in a row. *)
Theorem clean_text_fixed_points (text : string) :
  UniversityOrganizationScraper._clean_text text = text <-> tidy text.
Proof.
  split.
  - intros H. assert (Py.forallb clean_cls text = true) as Ha
      by (rewrite <- H; apply clean_text_over_alphabet).
    revert H. unfold UniversityOrganizationScraper._clean_text.
    destruct (Py.is_empty text) eqn:E; [by intros <-|].
    set (u := UniversityOrganizationScraper.collapse_whitespace false text).
    intros H.
    pose proof (filter_length UniversityOrganizationScraper.kept_cls (Py.strip u)) as L1.
    pose proof (rstrip_length (Py.lstrip u)) as L2.
    pose proof (lstrip_length u) as L3.
    pose proof (collapse_length false text) as L4. fold u in L4.
    assert (String.length (Py.filter UniversityOrganizationScraper.kept_cls (Py.strip u))
            = String.length text) as L0 by (by rewrite H).
    unfold Py.strip in *.
    assert (Py.lstrip u = u) as Hl by (apply lstrip_length_eq; lia).
    rewrite Hl in *.
    assert (Py.rstrip u = u) as Hr by (apply rstrip_length_eq; lia).
    rewrite Hr in *.
    rewrite filter_length_eq in H by lia.
    unfold tidy, Py.strip. rewrite <- H at 2 3. rewrite Hl, Hr.
    split; [done|]. split; [done|].
    subst u. by apply collapse_fixed in H as [H _].
  - intros (Ha & Hs & Hd). unfold UniversityOrganizationScraper._clean_text.
    destruct (Py.is_empty text) eqn:E; [by destruct text|].
    rewrite (collapse_tidy false text Ha Hd) by done.
    rewrite Hs. apply filter_all. eapply forallb_weaken; [apply clean_is_kept | done].
Qed.

(** ** The detector's contact extractors *)

Section DetectorContacts.

Implicit Types (s t m rest : string) (r tail : Re.pattern).

Lemma fits_reps r m rest rest' :
  forallb is_rep r = true -> fits r m rest -> fits r m rest'.
Proof.
  revert m. induction r as [|[cls lo hi| | |] r IH]; cbn [forallb is_rep andb fits];
    [done | | done..].
  intros m Hr (a & b & Hm & Ha & Hlo & Hhi & Hb).
  exists a, b. repeat split; try done. by apply IH.
Qed.

Lemma match_here_complete_then r tail :
  forallb is_rep r = true ->
  forall m rest prev,
    fits r m rest ->
    (forall p, is_Some (Re.match_here tail p rest)) ->
    is_Some (Re.match_here (r ++ tail) prev (m +:+ rest)).
Proof.
  induction r as [|[cls lo hi| | |] r IH]; cbn [forallb is_rep andb fits app];
    [intros _ m rest prev -> Ht; rewrite append_empty_l; apply Ht | | done..].
  intros Hr m rest prev (a & b & Hm & Ha & Hlo & Hhi & Hb) Ht. cbn [Re.match_here].
  rewrite Hm, append_assoc. apply rep_complete; try done.
  intros p. by apply IH.
Qed.

(** Whatever the scanning pattern matches, the validating pattern accepts. *)
Lemma scanned_is_valid m rest :
  fits EnhancedOrganizationDetector.email_pattern m rest ->
  EnhancedScraper.is_valid_email m = true.
Proof.
  unfold EnhancedOrganizationDetector.email_pattern. cbn [fits]. intros H.
  unfold EnhancedScraper.is_valid_email, Re.matches. apply bool_decide_eq_true.
  rewrite <- (append_empty_r m).
  apply (match_here_complete_then
           [Re.plus local_cls; Re.one (Re.chr "@"); Re.plus domain_cls;
            Re.one (Re.chr "."); Re.at_least 2 tld_cls] [Re.Finish]); [done | | by eexists].
  by apply (fits_reps _ m rest).
Qed.

Lemma first_kept_cases (emails : list string) :
  EnhancedOrganizationDetector.first_kept emails = ""
  ∨ (In (EnhancedOrganizationDetector.first_kept emails) emails
     ∧ Py.any_in EnhancedOrganizationDetector.skipped_senders
         (Py.lower (EnhancedOrganizationDetector.first_kept emails)) = false).
Proof.
  induction emails as [|email emails IH]; [by left|].
  cbn [EnhancedOrganizationDetector.first_kept].
  destruct (Py.any_in _ (Py.lower email)) eqn:E; cbn [negb].
  - destruct IH as [IH | [IH1 IH2]]; [by left | right; split; [by right | done]].
  - right. split; [by left | done].
Qed.

End DetectorContacts.

(** X15: the detector's [_extract_phone_from_text] and the scraper's return
    the same string on every text, although the first tries two patterns and
    returns the match as it is, while the second tries five, trims the match
    and counts its digits. *)
Theorem detector_phone_agrees (text : string) :
  EnhancedOrganizationDetector._extract_phone_from_text text
  = ComprehensiveUniversityScraper._extract_phone_from_text text.
Proof.
  rewrite phone_cascade_head.
  unfold EnhancedOrganizationDetector._extract_phone_from_text,
    EnhancedOrganizationDetector.phone_patterns.
  cbn [EnhancedOrganizationDetector.first_phone].
  destruct (Re.findall phone_standard text) as [|first others] eqn:E; [|done].
  rewrite (no_standard_no_match text phone_country); [done | | done].
  apply elem_of_cons. by left.
Qed.

(** X16: an address returned by the detector's [_extract_email_from_text]
    occurs in the text as it is, holds none of [noreply], [webmaster] and
    [admin] in any letter case, and is accepted by [is_valid_email]. *)
Theorem detector_email_is_valid (text : string) :
  EnhancedOrganizationDetector._extract_email_from_text text = ""
  ∨ (Py.contains (EnhancedOrganizationDetector._extract_email_from_text text) text = true
     ∧ Py.any_in EnhancedOrganizationDetector.skipped_senders
         (Py.lower (EnhancedOrganizationDetector._extract_email_from_text text)) = false
     ∧ EnhancedScraper.is_valid_email
         (EnhancedOrganizationDetector._extract_email_from_text text) = true).
Proof.
  unfold EnhancedOrganizationDetector._extract_email_from_text.
  destruct (first_kept_cases (Re.findall EnhancedOrganizationDetector.email_pattern text))
    as [H | [Hin Hskip]]; [by left | right].
  apply findall_sound in Hin as (pre & rest & Ht & Hfits).
  split; [|split; [done | by apply scanned_is_valid in Hfits]].
  rewrite Ht at 2. apply contains_append_l.
Qed.

(** ** Names and descriptions of containers *)

Section Containers.

Implicit Types (s t : string) (n : node) (l : list string).

Lemma rstrip_ends s : Py.rstrip s = EmptyString ∨ ends_nonspace (Py.rstrip s) = true.
Proof.
  induction s as [|c s IH]; [by left|].
  cbn [Py.rstrip]. destruct (Py.isspace c) eqn:E; cbn [andb].
  - destruct IH as [-> | IH]; [by left | right].
    rewrite (ends_nonempty _ IH). cbn [ends_nonspace].
    destruct (Py.rstrip s); done.
  - right. destruct IH as [-> | IH].
    + cbn. by rewrite E.
    + cbn [ends_nonspace]. destruct (Py.rstrip s); done.
Qed.

Lemma strip_trimmed s : Py.strip s = EmptyString ∨ trimmed (Py.strip s).
Proof.
  unfold Py.strip. destruct (lstrip_starts s) as [-> | H]; [by left|].
  destruct (rstrip_ends (Py.lstrip s)) as [-> | H']; [by left | right].
  split; [by apply rstrip_starts | done].
Qed.

Lemma trimmed_strip s : trimmed s -> Py.strip s = s.
Proof. intros [H1 H2]. by apply strip_of_edges. Qed.

Lemma join_trimmed l :
  Forall trimmed l -> Py.join "" l = EmptyString ∨ trimmed (Py.join "" l).
Proof.
  induction 1 as [|s l [Hs1 Hs2] Hl IH]; [by left | right].
  cbn [Py.join]. destruct l as [|s' l]; [done|].
  destruct IH as [IH | [_ IH]].
  - rewrite IH, append_empty_l, append_empty_r. done.
  - split; [by apply starts_append | by do 2 apply ends_append].
Qed.

Fixpoint stripped_strings_trimmed (n : node) : Forall trimmed (stripped_strings n).
Proof.
  destruct n as [s|tag attrs children]; cbn [stripped_strings].
  - destruct (strip_trimmed s) as [-> | H]; [constructor|].
    rewrite (ends_nonempty _ (proj2 H)). by constructor.
  - induction children as [|c children IH]; [constructor|].
    apply Forall_app. split; [apply stripped_strings_trimmed | apply IH].
Qed.

Lemma get_text_strip_stripped n : Py.strip (get_text_strip n) = get_text_strip n.
Proof.
  destruct (join_trimmed _ (stripped_strings_trimmed n)) as [H | H].
  - unfold get_text_strip. by rewrite H.
  - by apply trimmed_strip.
Qed.

Lemma good_name_likely name :
  good_name name = true -> _is_likely_organization_name name = true.
Proof. by intros [_ H]%andb_true_iff. Qed.

Lemma first_named_good selectors container name :
  first_named selectors container = Some name ->
  _is_likely_organization_name name = true ∧ Py.strip name = name.
Proof.
  induction selectors as [|selector selectors IH]; [done|].
  cbn [first_named]. destruct (find selector container) as [element|]; [|done].
  destruct (good_name (get_text_strip element)) eqn:E; [|done].
  intros [= <-]. split; [by apply good_name_likely | apply get_text_strip_stripped].
Qed.

Lemma take_length k s : String.length (Py.take k s) = Nat.min k (String.length s).
Proof.
  revert s. induction k as [|k IH]; intros [|c s]; cbn; try done.
  by rewrite IH.
Qed.

Lemma first_substantial_length elements desc :
  first_substantial elements = Some desc ->
  20 < String.length desc ∧ String.length desc <= 800.
Proof.
  induction elements as [|element elements IH]; [done|].
  cbn [first_substantial].
  destruct (_ && _ && _) eqn:E; [|done].
  apply andb_true_iff in E as [[E1%Nat.ltb_lt E2]%andb_true_iff _].
  intros <-%(inj Some). rewrite take_length. lia.
Qed.

Lemma first_described_length selectors container desc :
  first_described selectors container = Some desc ->
  20 < String.length desc ∧ String.length desc <= 800.
Proof.
  induction selectors as [|selector selectors IH]; [done|].
  cbn [first_described].
  destruct (first_substantial _) as [d|] eqn:E; [|done].
  intros [= <-]. by apply first_substantial_length in E.
Qed.

End Containers.

Lemma extract_name_cases (tag : string) (attrs : list (string * string))
    (children : list node) :
  Py.strip (_extract_name (Element tag attrs children))
  = _extract_name (Element tag attrs children)
  ∧ (_extract_name (Element tag attrs children) = ""
     ∨ _is_likely_organization_name (_extract_name (Element tag attrs children)) = true).
Proof.
  set (container := Element tag attrs children).
  assert (let from_text :=
            match content_lines (get_text_strip container) with
            | first_line :: _ =>
                if _is_likely_organization_name first_line then first_line else EmptyString
            | [] => EmptyString
            end in
          Py.strip from_text = from_text
          ∧ (from_text = "" ∨ _is_likely_organization_name from_text = true)) as Htext.
  { cbn zeta. destruct (content_lines _) as [|first_line lines] eqn:E; [by split; [|left]|].
    destruct (_is_likely_organization_name first_line) eqn:El; [|by split; [|left]].
    split; [|by right]. apply (content_lines_stripped (get_text_strip container)).
    rewrite E. by left. }
  unfold _extract_name. fold container.
  destruct (first_named name_selectors container) as [name|] eqn:E.
  { apply first_named_good in E as [E1 E2]. by split; [|right]. }
  destruct (find "a" container) as [first_link|]; [|exact Htext].
  destruct (good_name (get_text_strip first_link)) eqn:Eg; [|exact Htext].
  split; [apply get_text_strip_stripped | right; by apply good_name_likely].
Qed.

(** X17: the name [_extract_name] gives for a tag has no white space at
    either end, and it is empty or accepted by the name predicate, whichever
    of the heading, the first link or the first line of text it comes from. *)
Theorem extract_name_accepted (tag : string) (attrs : list (string * string))
    (children : list node) :
  Py.strip (_extract_name (Element tag attrs children))
  = _extract_name (Element tag attrs children)
  ∧ (_extract_name (Element tag attrs children) = ""
     ∨ _is_likely_organization_name (_extract_name (Element tag attrs children)) = true).
Proof. apply extract_name_cases. Qed.

Lemma description_cases (tag : string) (attrs : list (string * string))
    (children : list node) :
  exists desc,
    _extract_description (Element tag attrs children) = Some desc
    ∧ (desc = "" ∨ (20 < String.length desc ∧ String.length desc <= 800)).
Proof.
  unfold _extract_description. eexists. split; [reflexivity|].
  destruct (first_described _ _) as [desc|] eqn:E.
  { right. by apply first_described_length in E. }
  cbn zeta. destruct (1 <? _); [|by left].
  destruct (20 <? _) eqn:E20; [right | by left].
  apply Nat.ltb_lt in E20. rewrite take_length. lia.
Qed.

(** X18: on a tag [_extract_description] always returns, and what it
    returns is empty or between 21 and 800 characters long. *)
Theorem description_length (tag : string) (attrs : list (string * string))
    (children : list node) :
  exists desc,
    _extract_description (Element tag attrs children) = Some desc
    ∧ (desc = "" ∨ (20 < String.length desc ∧ String.length desc <= 800)).
Proof. apply description_cases. Qed.

(** ** The record of a container *)

Section DetailsFacts.

Variable urljoin : string -> string -> string.
Variable _is_external_link : string -> string -> bool.
Variable base_url : string.

#[local] Abbreviation step := (link_step urljoin _is_external_link base_url).







End DetailsFacts.




Section FirstLinkWins.

Variable urljoin : string -> string -> string.
Variable _is_external_link : string -> string -> bool.
Variable base_url : string.

#[local] Abbreviation loop_step := (link_step urljoin _is_external_link base_url).

Lemma facebook_step (o : org) (link : string) :
  Facebook_Link (loop_step o link)
  = if Py.contains "facebook" (Py.lower link) && Py.is_empty (Facebook_Link o)
    then urljoin base_url link else Facebook_Link o.
Proof.
  unfold link_step.
  destruct (Py.contains "facebook" (Py.lower link) && _); [done|].
  repeat match goal with |- context [if ?b then _ else _] => destruct b end; done.
Qed.

Lemma facebook_kept (links : list string) : forall o,
  Py.is_empty (Facebook_Link o) = false ->
  Facebook_Link (foldl loop_step o links) = Facebook_Link o.
Proof.
  induction links as [|link links IH]; intros o Ho; [done|].
  cbn [foldl]. assert (Facebook_Link (loop_step o link) = Facebook_Link o) as E.
  { rewrite facebook_step, Ho. by rewrite andb_false_r. }
  rewrite IH; [done | by rewrite E].
Qed.

Lemma facebook_first (links : list string) : forall o,
  Facebook_Link o = "" ->
  (Facebook_Link (foldl loop_step o links) = ""
   ∧ Forall (passed_for_facebook urljoin base_url) links)
  ∨ exists pre link post,
      links = pre ++ link :: post
      ∧ Forall (passed_for_facebook urljoin base_url) pre
      ∧ Py.contains "facebook" (Py.lower link) = true
      ∧ Py.is_empty (urljoin base_url link) = false
      ∧ Facebook_Link (foldl loop_step o links) = urljoin base_url link.
Proof.
  induction links as [|link links IH]; intros o Ho; [left; by split|].
  cbn [foldl]. pose proof (facebook_step o link) as Hs. rewrite Ho in Hs.
  cbn [Py.is_empty] in Hs. rewrite andb_true_r in Hs.
  destruct (Py.contains "facebook" (Py.lower link)) eqn:Ec.
  - destruct (Py.is_empty (urljoin base_url link)) eqn:Ee.
    + assert (urljoin base_url link = "") as Eu by (by destruct (urljoin base_url link)).
      rewrite Eu in Hs.
      destruct (IH _ Hs) as [[H1 H2] | (pre & l & post & -> & Hpre & Hl & Hne & Hfb)].
      * left. split; [done|]. constructor; [by right | done].
      * right. exists (link :: pre), l, post. repeat split; try done.
        constructor; [by right | done].
    + right. exists [], link, links. repeat split; try done.
      rewrite facebook_kept; [done | by rewrite Hs].
  - destruct (IH _ Hs) as [[H1 H2] | (pre & l & post & -> & Hpre & Hl & Hne & Hfb)].
    + left. split; [done|]. constructor; [by left | done].
    + right. exists (link :: pre), l, post. repeat split; try done.
      constructor; [by left | done].
Qed.

End FirstLinkWins.

(** X21: the Facebook field of a record holds the URL of the first link,
    among those of the container and then those of its parent, whose target
    names the platform and whose URL is not empty; it is empty when there is
    no such link. Later links never replace it. *)
Theorem first_facebook_link_wins (urljoin : string -> string -> string)
    (_is_external_link : string -> string -> bool)
    (container : node) (parent : option node) (base_url : string) (o : org) :
  _extract_organization_details urljoin _is_external_link container parent base_url
  = Details o ->
  (Facebook_Link o = ""
   ∧ Forall (passed_for_facebook urljoin base_url) (details_links container parent))
  ∨ exists pre link post,
      details_links container parent = pre ++ link :: post
      ∧ Forall (passed_for_facebook urljoin base_url) pre
      ∧ Py.contains "facebook" (Py.lower link) = true
      ∧ Py.is_empty (urljoin base_url link) = false
      ∧ Facebook_Link o = urljoin base_url link.
Proof.
  unfold _extract_organization_details.
  destruct (Py.is_empty (_extract_name container)); [done|].
  destruct (_extract_description container) as [description|]; [|done].
  set (o0 := {| Category := ""; Organization_Name := _extract_name container |}).
  pose proof (facebook_first urljoin _is_external_link base_url
                (details_links container parent) o0 eq_refl) as H.
  set (o1 := foldl _ o0 _) in *.
  intros [= <-]. cbn [Facebook_Link].
  by destruct (Py.is_empty (Organization_Link o1)).
Qed.

Lemma first_facebook_link_wins_witness :
  exists o,
    _extract_organization_details joined absolute chess_container (Some chess_container)
      "https://bhsu.edu" = Details o
    ∧ ((Facebook_Link o = ""
        ∧ Forall (passed_for_facebook joined "https://bhsu.edu")
            (details_links chess_container (Some chess_container)))
       ∨ exists pre link post,
           details_links chess_container (Some chess_container) = pre ++ link :: post
           ∧ Forall (passed_for_facebook joined "https://bhsu.edu") pre
           ∧ Py.contains "facebook" (Py.lower link) = true
           ∧ Py.is_empty (joined "https://bhsu.edu" link) = false
           ∧ Facebook_Link o = joined "https://bhsu.edu" link).
Proof.
  eexists. split; [vm_compute; reflexivity|].
  refine (first_facebook_link_wins joined absolute chess_container (Some chess_container)
            "https://bhsu.edu" _ _).
  vm_compute; reflexivity.
Defined.

(** ** The extractors of [scrape_universities_91_100.py] *)

Lemma variant_name_no_skip_term (text : string) :
  UniversityOrganizationScraper._is_likely_organization_name text = true ->
  Py.any_in UniversityOrganizationScraper.skip_terms (Py.lower text) = false.
Proof.
  unfold UniversityOrganizationScraper._is_likely_organization_name.
  destruct (_ || _ || _); [done|].
  by destruct (Py.any_in UniversityOrganizationScraper.skip_terms _).
Qed.

(** X22: [_extract_phone] of this file and [_extract_phone] of the
    comprehensive scraper return the same string on every container. *)
Theorem variant_phone_agrees (container : node) :
  UniversityOrganizationScraper._extract_phone container
  = ComprehensiveUniversityScraper._extract_phone container.
Proof.
  unfold ComprehensiveUniversityScraper._extract_phone. rewrite phone_cascade_head.
  unfold UniversityOrganizationScraper._extract_phone,
    UniversityOrganizationScraper.phone_patterns.
  cbn [UniversityOrganizationScraper.first_phone].
  destruct (Re.findall phone_standard (get_text container)) as [|first others] eqn:E;
    [|done].
  rewrite (no_standard_no_match (get_text container) phone_simple); [done | | done].
  rewrite !elem_of_cons. auto.
Qed.

(** X23: the address [_extract_email] of this file returns is empty, or it
    occurs in the text of the container and is accepted by
    [is_valid_email]. *)
Theorem variant_email_is_valid (container : node) :
  UniversityOrganizationScraper._extract_email container = ""
  ∨ (Py.contains (UniversityOrganizationScraper._extract_email container)
       (get_text container) = true
     ∧ EnhancedScraper.is_valid_email
         (UniversityOrganizationScraper._extract_email container) = true).
Proof.
  unfold UniversityOrganizationScraper._extract_email.
  destruct (Re.findall _ (get_text container)) as [|first others] eqn:E; [by left | right].
  assert (In first (Re.findall UniversityOrganizationScraper.email_pattern
                      (get_text container))) as Hin by (rewrite E; by left).
  apply findall_sound in Hin as (pre & rest & Ht & Hfits). cbn [head default].
  split; [rewrite Ht; apply contains_append_l|].
  by apply (scanned_is_valid first rest).
Qed.

(** X24: the rows of the raw-text fallback of this file are rows of lines of
    the page.  Their names are lines of the page's text, in the order of the
    page; each row has for name a line that is trimmed, shorter than 100
    characters and accepted by the name predicate of this file, so free of
    its disallowed terms; its URL is the page URL, its category the
    classification of the name alone, and its other columns are empty.
    There are at most twenty rows, and when there are fewer, no line of the
    page that is accepted and shorter than 100 characters is left out. *)
Theorem general_text_rows (soup : node) (url : string) :
  UniversityOrganizationScraper.Organization_Name
    <$> UniversityOrganizationScraper._extract_from_general_text soup url
    `sublist_of` content_lines (get_text soup)
  ∧ Forall (fun r =>
              r = UniversityOrganizationScraper.general_row url
                    (UniversityOrganizationScraper.Organization_Name r)
              ∧ UniversityOrganizationScraper._is_likely_organization_name
                  (UniversityOrganizationScraper.Organization_Name r) = true
              ∧ String.length (UniversityOrganizationScraper.Organization_Name r) < 100
              ∧ Py.strip (UniversityOrganizationScraper.Organization_Name r)
                = UniversityOrganizationScraper.Organization_Name r
              ∧ Py.any_in UniversityOrganizationScraper.skip_terms
                  (Py.lower (UniversityOrganizationScraper.Organization_Name r)) = false)
           (UniversityOrganizationScraper._extract_from_general_text soup url)
  ∧ length (UniversityOrganizationScraper._extract_from_general_text soup url) <= 20
  ∧ (length (UniversityOrganizationScraper._extract_from_general_text soup url) < 20 ->
     forall line,
       In line (content_lines (get_text soup)) ->
       UniversityOrganizationScraper._is_likely_organization_name line = true ->
       String.length line < 100 ->
       In line (UniversityOrganizationScraper.Organization_Name
                  <$> UniversityOrganizationScraper._extract_from_general_text soup url)).
Proof.
  assert (UniversityOrganizationScraper.Organization_Name
            <$> UniversityOrganizationScraper._extract_from_general_text soup url
          = take 20 (List.filter
                       (fun line =>
                          UniversityOrganizationScraper._is_likely_organization_name line
                          && (String.length line <? 100))
                       (content_lines (get_text soup)))) as Hnames
    by (unfold UniversityOrganizationScraper._extract_from_general_text;
        by apply names_of_kept_lines).
  split; [|split; [|split]].
  - rewrite Hnames. etrans; [apply sublist_take | apply list_filter_sublist].
  - unfold UniversityOrganizationScraper._extract_from_general_text.
    apply Forall_take, Forall_fmap, Forall_forall.
    intros line [Hline [Hname Hlen]%andb_true_iff]%list_elem_of_In%filter_In.
    cbn [UniversityOrganizationScraper.Organization_Name
         UniversityOrganizationScraper.general_row].
    apply content_lines_stripped in Hline. apply Nat.ltb_lt in Hlen.
    repeat split; try done. by apply variant_name_no_skip_term.
  - unfold UniversityOrganizationScraper._extract_from_general_text.
    rewrite length_take. lia.
  - intros Hfew line Hline Hname Hlen.
    rewrite <- (length_fmap UniversityOrganizationScraper.Organization_Name), Hnames
      in Hfew.
    rewrite Hnames, (take_below_cap _ _ Hfew).
    apply filter_In. split; [done|].
    rewrite Hname. by apply Nat.ltb_lt.
Qed.
